(** * Hazard-exposure zonal aggregation: the landslide and riverine-flood scripts

    A shallow embedding of the processing functions of
    [03-landslide-hazard] (the landslide script) and
    [01-riverine-flood/code/PNG_RiverineFlood.js], and the properties of the
    zonal statistics they compute.

    The scripts are Earth Engine client code.  The Earth Engine objects they
    use are modelled as follows.

    - An image band is a function from pixels to an optional value: [None]
      is a masked ("no data") pixel.  A unary operation keeps the mask of
      its input; a binary operation of two images ([and], [max]) has a value
      only on the pixels that are valid in both, since Earth Engine masks
      the output of a binary operator wherever either input is masked.
    - A geometry is the list of the pixels over which a region reduction at
      the configured scale runs.  All the bands of one [reduceRegion] call
      are reduced over the same pixels.
    - Numbers are exact rationals ([Q]); hazard levels are integers ([Z]).
    - A feature is a geometry, an identifier and a dictionary of properties
      ([gmap string Value]).  Earth Engine objects are immutable values:
      [set] and [map] build new objects.
    - A division is checked: [Number.divide] has no result for a zero
      divisor, and the statistics are computed in the [option] monad, so
      that "the computation divides by zero" is the result [None]. *)

From stdpp Require Import gmap strings list fin_maps sorting.
From Stdlib Require Import QArith Qround Lqa.

(** ** Earth Engine primitives *)

Definition Pixel : Type := (Z * Z)%type.

Definition Geometry : Type := list Pixel.

Module Image.

Definition t (A : Type) : Type := Pixel -> option A.

Definition constant {A : Type} (v : A) : t A := fun _ => Some v.

Definition masked {A : Type} : t A := fun _ => None.

(** A unary pixel operation keeps the mask of its input. *)
Definition unary {A B : Type} (f : A -> B) (image : t A) : t B :=
  fun p => f <$> image p.

(** A binary pixel operation ([and], [max]) has a value only where both
    operands have one: the output is masked wherever either input is. *)
Definition binary {A B C : Type} (f : A -> B -> C) (image1 : t A) (image2 : t B)
  : t C :=
  fun p =>
    match image1 p, image2 p with
    | Some x, Some y => Some (f x y)
    | _, _ => None
    end.

Definition gte (image : t Z) (c : Z) : t bool := unary (fun v => (c <=? v)%Z) image.

Definition lte (image : t Z) (c : Z) : t bool := unary (fun v => (v <=? c)%Z) image.

Definition eq (image : t Z) (c : Z) : t bool := unary (fun v => (v =? c)%Z) image.

Definition gt (image : t Q) (c : Q) : t bool :=
  unary (fun v => negb (Qle_bool v c)) image.

Definition and : t bool -> t bool -> t bool := binary andb.

Definition max : t Z -> t Z -> t Z := binary Z.max.

(** [image.updateMask(mask)]: a pixel stays valid where it was valid and
    the mask is valid and non-zero. *)
Definition updateMask {A : Type} (image : t A) (mask : t bool) : t A :=
  fun p =>
    match image p, mask p with
    | Some v, Some true => Some v
    | _, _ => None
    end.

Definition selfMask (image : t bool) : t bool := updateMask image image.

(** [image.where(test, value)]: where the input is valid and the test is
    valid and non-zero the output is [value], elsewhere the input pixel. *)
Definition where_ {A : Type} (image : t A) (test : t bool) (value : A) : t A :=
  fun p =>
    match image p with
    | None => None
    | Some v =>
        match test p with
        | Some true => Some value
        | _ => Some v
        end
    end.

(** A mask band read as a number band ([true] is 1). *)
Definition toNumber (image : t bool) : t Q :=
  unary (fun b : bool => if b then 1%Q else 0%Q) image.

End Image.

Fixpoint Qsum (l : list Q) : Q :=
  match l with
  | [] => 0%Q
  | x :: l' => (x + Qsum l')%Q
  end.

Module Reducer.

(** [ee.Reducer.sum()] over the valid pixels of one band inside a
    geometry; a band with no valid pixel there has no value (null). *)
Definition sum (image : Image.t Q) (geometry : Geometry) : option Q :=
  match omap image geometry with
  | [] => None
  | v :: vs => Some (Qsum (v :: vs))
  end.

(** [multiband.reduceRegion({reducer: ee.Reducer.sum(), geometry: ...})]:
    a dictionary from band name to the reduced value; a key that is not
    bound stands for a null entry. *)
Fixpoint reduceRegion (multiband : list (string * Image.t Q)) (geometry : Geometry)
  : gmap string Q :=
  match multiband with
  | [] => ∅
  | (name, image) :: rest =>
      match sum image geometry with
      | Some v => <[name := v]> (reduceRegion rest geometry)
      | None => delete name (reduceRegion rest geometry)
      end
  end.

End Reducer.

Module Number.

(** [x.round()]: the nearest integer, [floor (x + 1/2)]. *)
Definition round (x : Q) : Q := inject_Z (Qfloor (x + (1 # 2))).

Definition gt (x y : Q) : bool := negb (Qle_bool x y).

(** Checked division: no result for a zero divisor. *)
Definition divide (x y : Q) : option Q :=
  if Qeq_bool y 0 then None else Some (x / y)%Q.

End Number.

Module Algorithms.

(** [ee.Algorithms.If(condition, trueCase, falseCase)] selects one of its
    two cases; only the selected case is run. *)
Definition If {A : Type} (condition : bool) (trueCase falseCase : A) : A :=
  if condition then trueCase else falseCase.

(** The condition of [If] applied to a dictionary entry: null and 0 are
    false, any other number is true. *)
Definition truthy (value : option Q) : bool :=
  match value with
  | Some v => negb (Qeq_bool v 0)
  | None => false
  end.

End Algorithms.

(** [ee.Number(ee.Algorithms.If(value, value, 0))], the scripts' null
    protection of a reduced value. *)
Definition nullProtected (value : option Q) : Q :=
  Algorithms.If (Algorithms.truthy value) (default 0%Q value) 0%Q.

Inductive Value : Type :=
| VNum (q : Q)
| VStr (s : string).

#[global] Instance Q_eq_dec : EqDecision Q.
Proof. solve_decision. Defined.

#[global] Instance Value_eq_dec : EqDecision Value.
Proof. solve_decision. Defined.

Module Feature.

Record t : Type := make {
  geometry : option Geometry;
  id : option string;
  properties : gmap string Value
}.

(** [feature.set({...})]: a new feature with the listed properties
    overriding those of the same name; every other part is kept. *)
Definition set (feature : t) (dict : list (string * Value)) : t :=
  {| geometry := geometry feature;
     id := id feature;
     properties := list_to_map dict ∪ properties feature |}.

Definition get (feature : t) (key : string) : option Value :=
  properties feature !! key.

(** The numeric value of a property, as the aggregations read it: a
    missing or non-numeric property contributes nothing. *)
Definition number (feature : t) (key : string) : Q :=
  match get feature key with
  | Some (VNum q) => q
  | _ => 0%Q
  end.

(** The pixels of the feature's geometry (none for a null geometry). *)
Definition pixels (feature : t) : Geometry := default [] (geometry feature).

(** The value of a property when it is a number. *)
Definition numeric (feature : t) (key : string) : option Q :=
  match get feature key with
  | Some (VNum q) => Some q
  | _ => None
  end.

End Feature.

Definition Value_leb (a b : option Value) : bool :=
  match a, b with
  | None, _ => true
  | Some _, None => false
  | Some (VNum x), Some (VNum y) => Qle_bool x y
  | Some (VNum _), Some (VStr _) => true
  | Some (VStr _), Some (VNum _) => false
  | Some (VStr s), Some (VStr u) => String.leb s u
  end.

Module FeatureCollection.

Definition t : Type := list Feature.t.

Definition aggregate_sum (key : string) (collection : t) : Q :=
  Qsum ((fun feature => Feature.number feature key) <$> collection).

Definition aggregate_array (key : string) (collection : t) : list Value :=
  omap (fun feature => Feature.get feature key) collection.

(** [collection.filter(ee.Filter.eq(key, value))]. *)
Definition filter_eq (key : string) (value : Value) (collection : t) : t :=
  filter (fun feature => Feature.get feature key = Some value) collection.

Definition size (collection : t) : Q := inject_Z (Z.of_nat (length collection)).

Fixpoint insert_sorted (key : string) (feature : Feature.t) (sorted : t) : t :=
  match sorted with
  | [] => [feature]
  | g :: rest =>
      if Value_leb (Feature.get feature key) (Feature.get g key)
      then feature :: g :: rest
      else g :: insert_sorted key feature rest
  end.

(** [collection.sort(key)], ascending. *)
Definition sort (key : string) (collection : t) : t :=
  foldr (insert_sorted key) [] collection.

(** [collection.reduceToImage({properties: [property], reducer:
    ee.Reducer.first()})]: at each pixel, the property of the first feature
    of the collection that covers the pixel and holds a number there. *)
Definition reduceToImage (property : string) (collection : t) : Image.t Q :=
  fun p =>
    head (omap (fun feature =>
                  if bool_decide (p ∈ Feature.pixels feature)
                  then Feature.numeric feature property
                  else None)
               collection).

End FeatureCollection.

(** [list.distinct()]: the first occurrence of every element. *)
Fixpoint distinct (l : list Value) : list Value :=
  match l with
  | [] => []
  | x :: l' => x :: filter (fun y => y ≠ x) (distinct l')
  end.

(** ** The landslide script *)

Module Landslide.

Module CONFIG.

(** Risk classification thresholds (1-8 scale): [(min, max)]. *)
Module riskLevels.
Definition low : Z * Z := (1, 2)%Z.
Definition medium : Z * Z := (3, 4)%Z.
Definition high : Z * Z := (5, 6)%Z.
Definition veryHigh : Z * Z := (7, 8)%Z.
End riskLevels.

(** Risk scoring weights. *)
Module riskWeights.
Definition low : Q := 1.
Definition medium : Q := 2.
Definition high : Q := 3.
Definition veryHigh : Q := 4.
End riskWeights.

End CONFIG.

Definition maskValidRiskLevels (image : Image.t Z) : Image.t Z :=
  let mask := Image.and (Image.gte image 1) (Image.lte image 8) in
  Image.updateMask image mask.

Definition combineLandslideHazards (earthquakeHazard precipitationHazard : Image.t Z)
  : Image.t Z :=
  let maskedEQ := maskValidRiskLevels earthquakeHazard in
  let maskedPR := maskValidRiskLevels precipitationHazard in
  Image.max maskedEQ maskedPR.

(** Every test of the chain reads the input image, not the image built so
    far.  The final [rename] only names the band. *)
Definition reclassifyRisk (image : Image.t Z) : Image.t Z :=
  Image.where_
    (Image.where_
       (Image.where_
          (Image.where_ image (Image.and (Image.gte image 1) (Image.lte image 2)) 1%Z)
          (Image.and (Image.gte image 3) (Image.lte image 4)) 2%Z)
       (Image.and (Image.gte image 5) (Image.lte image 6)) 3%Z)
    (Image.and (Image.gte image 7) (Image.lte image 8)) 4%Z.

(** The multi-band image of [calculateLLGStatistics]. *)
Definition multiband (population : Image.t Q) (riskMap : Image.t Z)
  : list (string * Image.t Q) :=
  [ ("total_pop", population);
    ("low_pop", Image.updateMask population (Image.eq riskMap 1));
    ("medium_pop", Image.updateMask population (Image.eq riskMap 2));
    ("high_pop", Image.updateMask population (Image.eq riskMap 3));
    ("very_high_pop", Image.updateMask population (Image.eq riskMap 4)) ].

(** The local variables of the callback of [calculateLLGStatistics]. *)
Record Statistics : Type := {
  totalPop : Q;
  lowRiskPop : Q;
  mediumRiskPop : Q;
  highRiskPop : Q;
  veryHighRiskPop : Q;
  lowRiskRatio : Q;
  mediumRiskRatio : Q;
  highRiskRatio : Q;
  veryHighRiskRatio : Q;
  riskScore : Q
}.

(** The callback's computation from the reduced dictionary [stats]. *)
Definition statistics (stats : gmap string Q) : option Statistics :=
  let totalPop := Number.round (nullProtected (stats !! "total_pop")) in
  let lowRiskPop := Number.round (nullProtected (stats !! "low_pop")) in
  let mediumRiskPop := Number.round (nullProtected (stats !! "medium_pop")) in
  let highRiskPop := Number.round (nullProtected (stats !! "high_pop")) in
  let veryHighRiskPop := Number.round (nullProtected (stats !! "very_high_pop")) in
  let safePop := Algorithms.If (Number.gt totalPop 0) totalPop 1%Q in
  lowRiskRatio ← Number.divide lowRiskPop safePop;
  mediumRiskRatio ← Number.divide mediumRiskPop safePop;
  highRiskRatio ← Number.divide highRiskPop safePop;
  veryHighRiskRatio ← Number.divide veryHighRiskPop safePop;
  let riskScore :=
    (lowRiskRatio * CONFIG.riskWeights.low
     + mediumRiskRatio * CONFIG.riskWeights.medium
     + highRiskRatio * CONFIG.riskWeights.high
     + veryHighRiskRatio * CONFIG.riskWeights.veryHigh)%Q in
  Some {| totalPop := totalPop;
          lowRiskPop := lowRiskPop;
          mediumRiskPop := mediumRiskPop;
          highRiskPop := highRiskPop;
          veryHighRiskPop := veryHighRiskPop;
          lowRiskRatio := lowRiskRatio;
          mediumRiskRatio := mediumRiskRatio;
          highRiskRatio := highRiskRatio;
          veryHighRiskRatio := veryHighRiskRatio;
          riskScore := riskScore |}.

(** The dictionary passed to [feature.set]. *)
Definition toProperties (s : Statistics) : list (string * Value) :=
  [ ("LLG_Population", VNum (totalPop s));
    ("Low_Risk_Population", VNum (lowRiskPop s));
    ("Medium_Risk_Population", VNum (mediumRiskPop s));
    ("High_Risk_Population", VNum (highRiskPop s));
    ("Very_High_Risk_Population", VNum (veryHighRiskPop s));
    ("Low_Risk_Ratio", VNum (lowRiskRatio s));
    ("Medium_Risk_Ratio", VNum (mediumRiskRatio s));
    ("High_Risk_Ratio", VNum (highRiskRatio s));
    ("Very_High_Risk_Ratio", VNum (veryHighRiskRatio s));
    ("Risk_Score", VNum (riskScore s)) ].

(** The statistics of the zone with pixels [geometry]: one reduction of
    the multi-band image. *)
Definition zoneStatistics (population : Image.t Q) (riskMap : Image.t Z)
    (geometry : Geometry) : option Statistics :=
  statistics (Reducer.reduceRegion (multiband population riskMap) geometry).

(** The end of the callback: the statistics of [stats] set on the feature. *)
Definition setStatistics (feature : Feature.t) (stats : gmap string Q)
  : option Feature.t :=
  s ← statistics stats;
  Some (Feature.set feature (toProperties s)).

Definition calculateLLGStatistics (boundaries : FeatureCollection.t)
    (population : Image.t Q) (riskMap : Image.t Z) : option FeatureCollection.t :=
  let multiband := multiband population riskMap in
  mapM (fun feature =>
          let geometry := Feature.pixels feature in
          let stats := Reducer.reduceRegion multiband geometry in
          setStatistics feature stats)
       boundaries.

Definition aggregateToProvinceLevel (llgStats : FeatureCollection.t)
  : option FeatureCollection.t :=
  let provinces := distinct (FeatureCollection.aggregate_array "ADM1_EN" llgStats) in
  provinceStats ←
    mapM (fun provinceName =>
            let filtered := FeatureCollection.filter_eq "ADM1_EN" provinceName llgStats in
            let totalPop := FeatureCollection.aggregate_sum "LLG_Population" filtered in
            let lowRiskPop :=
              FeatureCollection.aggregate_sum "Low_Risk_Population" filtered in
            let mediumRiskPop :=
              FeatureCollection.aggregate_sum "Medium_Risk_Population" filtered in
            let highRiskPop :=
              FeatureCollection.aggregate_sum "High_Risk_Population" filtered in
            let veryHighRiskPop :=
              FeatureCollection.aggregate_sum "Very_High_Risk_Population" filtered in
            let totalRiskScore := FeatureCollection.aggregate_sum "Risk_Score" filtered in
            let llgCount := FeatureCollection.size filtered in
            avgRiskScore ←
              Algorithms.If (Number.gt llgCount 0)
                (Number.divide totalRiskScore llgCount)
                (Some 0%Q);
            Some (Feature.make None None
                    (list_to_map
                       [ ("Province", provinceName);
                         ("Total_Population", VNum totalPop);
                         ("Low_Risk_Population", VNum lowRiskPop);
                         ("Medium_Risk_Population", VNum mediumRiskPop);
                         ("High_Risk_Population", VNum highRiskPop);
                         ("Very_High_Risk_Population", VNum veryHighRiskPop);
                         ("Total_Risk_Score", VNum totalRiskScore);
                         ("Average_Risk_Score", VNum avgRiskScore);
                         ("LLG_Count", VNum llgCount) ])))
         provinces;
  Some (FeatureCollection.sort "Province" provinceStats).

Record NationalRiskTotals : Type := {
  low : Q;
  medium : Q;
  high : Q;
  veryHigh : Q
}.

Definition calculateNationalRiskTotals (population : Image.t Q) (riskMap : Image.t Z)
    (region : Geometry) : NationalRiskTotals :=
  let multiband :=
    [ ("low", Image.updateMask population (Image.eq riskMap 1));
      ("medium", Image.updateMask population (Image.eq riskMap 2));
      ("high", Image.updateMask population (Image.eq riskMap 3));
      ("very_high", Image.updateMask population (Image.eq riskMap 4)) ] in
  let stats := Reducer.reduceRegion multiband region in
  {| low := Number.round (nullProtected (stats !! "low"));
     medium := Number.round (nullProtected (stats !! "medium"));
     high := Number.round (nullProtected (stats !! "high"));
     veryHigh := Number.round (nullProtected (stats !! "very_high")) |}.

(** The object returned by [createRiskPopulationLayers]. *)
Module Layers.
Record t : Type := make {
  low : Image.t Q;
  medium : Image.t Q;
  high : Image.t Q;
  veryHigh : Image.t Q
}.
End Layers.

Definition createRiskPopulationLayers (population : Image.t Q) (riskMap : Image.t Z)
  : Layers.t :=
  {| Layers.low := Image.updateMask population (Image.eq riskMap 1);
     Layers.medium := Image.updateMask population (Image.eq riskMap 2);
     Layers.high := Image.updateMask population (Image.eq riskMap 3);
     Layers.veryHigh := Image.updateMask population (Image.eq riskMap 4) |}.

(** [result.get(bandName)] on the dictionary that [reduceRegion] returns
    for [image].  The dictionary has one entry for every band of the
    image, a null one for a band without a valid pixel in the geometry;
    [get] with a key that the dictionary does not have is an error
    ([None]), not null. *)
Definition getBand (image : list (string * Image.t Q)) (result : gmap string Q)
    (bandName : string) : option (option Q) :=
  if decide (bandName ∈ image.*1) then Some (result !! bandName) else None.

(** [safeSum]: the reduced value of one band of an image, 0 when that
    value is null; an error ([None]) for a name that is no band of the
    image. *)
Definition safeSum (image : list (string * Image.t Q)) (geometry : Geometry)
    (bandName : string) : option Q :=
  let result := Reducer.reduceRegion image geometry in
  value ← getBand image result bandName;
  Some (nullProtected value).

Definition createRiskScoreRaster (stats : FeatureCollection.t) : Image.t Q :=
  let rasterized := FeatureCollection.reduceToImage "Risk_Score" stats in
  Image.updateMask rasterized (Image.gt rasterized 0).

End Landslide.

(** ** The riverine-flood script *)

Module Flood.

Definition createFloodMask (floodImage : Image.t Q) : Image.t bool :=
  Image.selfMask (Image.gt floodImage 0).

Definition calculateExposedPopulation (population : Image.t Q) (floodMask : Image.t bool)
  : Image.t Q :=
  Image.updateMask population floodMask.

(** The multi-band image of [calculateLLGStatistics]; [select] only
    renames the single band of each input. *)
Definition multiband (population exposedPop : Image.t Q) (floodMask : Image.t bool)
  : list (string * Image.t Q) :=
  [ ("total_pop", population);
    ("exposed_pop", exposedPop);
    ("flood_area", Image.toNumber floodMask) ].

(** The local variables of the callback of [calculateLLGStatistics]. *)
Record Statistics : Type := {
  totalPop : Q;
  exposedPopCount : Q;
  floodAreaKm2 : Q;
  exposureRatio : Q;
  exposureDensity : Q
}.

Definition statistics (stats : gmap string Q) : option Statistics :=
  let totalPop := Number.round (nullProtected (stats !! "total_pop")) in
  let exposedPopCount := Number.round (nullProtected (stats !! "exposed_pop")) in
  let floodPixels := nullProtected (stats !! "flood_area") in
  floodAreaKm2 ← Number.divide (floodPixels * 900) 1000000;
  exposureRatio ←
    Algorithms.If (Number.gt totalPop 0)
      (Number.divide exposedPopCount totalPop)
      (Some 0%Q);
  exposureDensity ←
    Algorithms.If (Number.gt floodAreaKm2 0)
      (Number.divide exposedPopCount floodAreaKm2)
      (Some 0%Q);
  Some {| totalPop := totalPop;
          exposedPopCount := exposedPopCount;
          floodAreaKm2 := floodAreaKm2;
          exposureRatio := exposureRatio;
          exposureDensity := exposureDensity |}.

Definition toProperties (s : Statistics) : list (string * Value) :=
  [ ("LLG_Population", VNum (totalPop s));
    ("Exposed_Population", VNum (exposedPopCount s));
    ("Flood_Area_km2", VNum (floodAreaKm2 s));
    ("Exposure_Ratio", VNum (exposureRatio s));
    ("Exposure_Density", VNum (exposureDensity s)) ].

(** The statistics of the zone with pixels [geometry]. *)
Definition zoneStatistics (population exposedPop : Image.t Q) (floodMask : Image.t bool)
    (geometry : Geometry) : option Statistics :=
  statistics (Reducer.reduceRegion (multiband population exposedPop floodMask) geometry).

Definition setStatistics (feature : Feature.t) (stats : gmap string Q)
  : option Feature.t :=
  s ← statistics stats;
  Some (Feature.set feature (toProperties s)).

Definition calculateLLGStatistics (boundaries : FeatureCollection.t)
    (population exposedPop : Image.t Q) (floodMask : Image.t bool)
  : option FeatureCollection.t :=
  let multiband := multiband population exposedPop floodMask in
  mapM (fun feature =>
          let geometry := Feature.pixels feature in
          let stats := Reducer.reduceRegion multiband geometry in
          setStatistics feature stats)
       boundaries.

Definition aggregateToProvinceLevel (llgStats : FeatureCollection.t)
  : option FeatureCollection.t :=
  let provinces := distinct (FeatureCollection.aggregate_array "ADM1_EN" llgStats) in
  provinceStats ←
    mapM (fun provinceName =>
            let filtered := FeatureCollection.filter_eq "ADM1_EN" provinceName llgStats in
            let totalPop := FeatureCollection.aggregate_sum "LLG_Population" filtered in
            let exposedPop :=
              FeatureCollection.aggregate_sum "Exposed_Population" filtered in
            let floodArea := FeatureCollection.aggregate_sum "Flood_Area_km2" filtered in
            exposureRatio ←
              Algorithms.If (Number.gt totalPop 0)
                (Number.divide exposedPop totalPop)
                (Some 0%Q);
            exposureDensity ←
              Algorithms.If (Number.gt floodArea 0)
                (Number.divide exposedPop floodArea)
                (Some 0%Q);
            Some (Feature.make None None
                    (list_to_map
                       [ ("Province", provinceName);
                         ("Total_Population", VNum totalPop);
                         ("Exposed_Population", VNum exposedPop);
                         ("Flood_Area_km2", VNum floodArea);
                         ("Exposure_Ratio", VNum exposureRatio);
                         ("Exposure_Density", VNum exposureDensity) ])))
         provinces;
  Some (FeatureCollection.sort "Province" provinceStats).

Definition calculateNationalExposure (llgStats : FeatureCollection.t) : Q :=
  FeatureCollection.aggregate_sum "Exposed_Population" llgStats.

Definition createExposureRatioRaster (stats : FeatureCollection.t) : Image.t Q :=
  let rasterized := FeatureCollection.reduceToImage "Exposure_Ratio" stats in
  Image.updateMask rasterized (Image.gt rasterized 0).

End Flood.

(** ** Vocabulary of the properties *)

(** The sum of a band over the valid pixels of a geometry, 0 when there is
    none. *)
Definition pixelSum (image : Image.t Q) (geometry : Geometry) : Q :=
  Qsum (omap image geometry).

(** The population band of hazard tier [k]. *)
Definition tierBand (population : Image.t Q) (riskMap : Image.t Z) (k : Z) : Image.t Q :=
  Image.updateMask population (Image.eq riskMap k).

(** A trigger value is valid when it lies in [1,8]. *)
Definition validTrigger (image : Image.t Z) (p : Pixel) : Prop :=
  ∃ v, image p = Some v ∧ (1 <= v <= 8)%Z.

(** The pixel has one of the four hazard tiers. *)
Definition inTier (riskMap : Image.t Z) (p : Pixel) : Prop :=
  ∃ k, riskMap p = Some k ∧ (1 <= k <= 4)%Z.

(** The population raster has no negative value inside the geometry. *)
Definition nonNegative (population : Image.t Q) (geometry : Geometry) : Prop :=
  ∀ p v, p ∈ geometry → population p = Some v → (0 <= v)%Q.

(** Every population value inside the geometry is a whole number. *)
Definition wholeNumbers (population : Image.t Q) (geometry : Geometry) : Prop :=
  ∀ p v, p ∈ geometry → population p = Some v → ∃ n : Z, (v == inject_Z n)%Q.

(** Every populated valid pixel of the geometry has a hazard tier. *)
Definition populatedInTier (population : Image.t Q) (riskMap : Image.t Z)
    (geometry : Geometry) : Prop :=
  ∀ p v, p ∈ geometry → population p = Some v → (0 < v)%Q → inTier riskMap p.

(** The tier of a level of the 1-8 scale by [CONFIG.riskLevels], if any. *)
Definition tierOfLevel (v : Z) : option Z :=
  let within (bounds : Z * Z) := ((bounds.1 <=? v) && (v <=? bounds.2))%Z in
  if within Landslide.CONFIG.riskLevels.low then Some 1%Z
  else if within Landslide.CONFIG.riskLevels.medium then Some 2%Z
  else if within Landslide.CONFIG.riskLevels.high then Some 3%Z
  else if within Landslide.CONFIG.riskLevels.veryHigh then Some 4%Z
  else None.

(** The sum of the per-tier population counts of a zone record. *)
Definition tierPopulations (s : Landslide.Statistics) : Q :=
  (Landslide.lowRiskPop s + Landslide.mediumRiskPop s + Landslide.highRiskPop s
   + Landslide.veryHighRiskPop s)%Q.

(** The sum of the tier ratios of a zone record. *)
Definition tierRatios (s : Landslide.Statistics) : Q :=
  (Landslide.lowRiskRatio s + Landslide.mediumRiskRatio s + Landslide.highRiskRatio s
   + Landslide.veryHighRiskRatio s)%Q.

(** The names of the statistic properties set by each script. *)
Definition landslideKeys : list string :=
  [ "LLG_Population"; "Low_Risk_Population"; "Medium_Risk_Population";
    "High_Risk_Population"; "Very_High_Risk_Population"; "Low_Risk_Ratio";
    "Medium_Risk_Ratio"; "High_Risk_Ratio"; "Very_High_Risk_Ratio"; "Risk_Score" ].

Definition floodKeys : list string :=
  [ "LLG_Population"; "Exposed_Population"; "Flood_Area_km2"; "Exposure_Ratio";
    "Exposure_Density" ].

(** The pixel has a positive flood depth. *)
Definition isFlooded (floodImage : Image.t Q) (p : Pixel) : bool :=
  match floodImage p with
  | Some d => Number.gt d 0
  | None => false
  end.

(** The number of pixels of a geometry with a positive flood depth. *)
Definition floodedCount (floodImage : Image.t Q) (geometry : Geometry) : Z :=
  Z.of_nat (length (filter (fun p => isFlooded floodImage p = true) geometry)).

(** The zones that have a parent province. *)
Definition withParent (llgStats : FeatureCollection.t) : FeatureCollection.t :=
  filter (fun zone => is_Some (Feature.get zone "ADM1_EN")) llgStats.

(** The order of [sort] on a property. *)
Definition propertyLe (key : string) (a b : Feature.t) : Prop :=
  Value_leb (Feature.get a key) (Feature.get b key) = true.

(** ** Sample inputs *)

Module Sample.

(** A row of four pixels. *)
Definition row4 : Geometry := [(0, 0); (0, 1); (0, 2); (0, 3)]%Z.

Definition pixel0 : Pixel := (0, 0)%Z.

(** Hazard level [column + 1]: tiers 1, 2, 3, 4 along [row4]. *)
Definition riskByColumn : Image.t Z := fun p => Some (p.2 + 1)%Z.

(** 0.6 people in every cell. *)
Definition sparse : Image.t Q := Image.constant (3 # 5).

(** 100 people in every cell. *)
Definition dense : Image.t Q := Image.constant 100.

Definition zone (name : string) (province : string) (geometry : Geometry) : Feature.t :=
  Feature.make (Some geometry) (Some name) {[ "ADM1_EN" := VStr province ]}.

Definition zoneA1 : Feature.t := zone "a1" "A" [(0, 0)%Z].
Definition zoneA2 : Feature.t := zone "a2" "A" [(0, 1)%Z].

(** Zone records of the flood script: a name, a parent province, a total
    and an exposed population. *)
Definition floodRecord (name province : string) (total exposed : Q) : Feature.t :=
  Feature.make None (Some name)
    (list_to_map [ ("ADM1_EN", VStr province);
                   ("LLG_Population", VNum total);
                   ("Exposed_Population", VNum exposed);
                   ("Exposure_Ratio", VNum (exposed / total)) ]).

Definition threeZones : FeatureCollection.t :=
  [ floodRecord "z1" "A" 100 10; floodRecord "z2" "A" 50 50;
    floodRecord "z3" "B" 200 0 ].

End Sample.

(** ** Hazard fusion and reclassification *)

Section Fusion.

Implicit Types (image : Image.t Z) (p : Pixel).

Lemma maskValidRiskLevels_pixel image p :
  Landslide.maskValidRiskLevels image p =
  v ← image p; if ((1 <=? v) && (v <=? 8))%Z then Some v else None.
Proof.
  unfold Landslide.maskValidRiskLevels, Image.updateMask, Image.and, Image.binary,
    Image.gte, Image.lte, Image.unary.
  destruct (image p) as [v|]; simpl; [|done].
  by destruct ((1 <=? v) && (v <=? 8))%Z.
Qed.

Lemma maskValidRiskLevels_valid image p v :
  Landslide.maskValidRiskLevels image p = Some v ↔ image p = Some v ∧ (1 <= v <= 8)%Z.
Proof.
  rewrite maskValidRiskLevels_pixel.
  destruct (image p) as [w|]; simpl; [|split; [done | by intros [? _]]].
  destruct (Z.leb_spec 1 w), (Z.leb_spec w 8); simpl;
    (split; [intros [= ->] | intros [[= ->] ?]]); try done; lia.
Qed.

Lemma maskValidRiskLevels_invalid image p :
  Landslide.maskValidRiskLevels image p = None ↔ ¬ validTrigger image p.
Proof.
  unfold validTrigger. split.
  - intros H [v [Hv Hr]].
    assert (Landslide.maskValidRiskLevels image p = Some v) as H'
        by by apply maskValidRiskLevels_valid.
    congruence.
  - intros H. destruct (Landslide.maskValidRiskLevels image p) as [v|] eqn:E; [|done].
    apply maskValidRiskLevels_valid in E. destruct H. by exists v.
Qed.

(** What the fusion computes at a pixel: the maximum where both triggers
    are valid, no data wherever one of them is not. *)
Lemma combineLandslideHazards_pixel (earthquakeHazard precipitationHazard : Image.t Z) p :
  (∀ a b, earthquakeHazard p = Some a → precipitationHazard p = Some b →
          (1 <= a <= 8)%Z → (1 <= b <= 8)%Z →
          Landslide.combineLandslideHazards earthquakeHazard precipitationHazard p
          = Some (a `max` b)%Z)
  ∧ (¬ validTrigger earthquakeHazard p ∨ ¬ validTrigger precipitationHazard p →
     Landslide.combineLandslideHazards earthquakeHazard precipitationHazard p = None).
Proof.
  unfold Landslide.combineLandslideHazards, Image.max, Image.binary. split.
  - intros a b Ha Hb Hra Hrb.
    assert (Landslide.maskValidRiskLevels earthquakeHazard p = Some a) as ->
        by by apply maskValidRiskLevels_valid.
    by assert (Landslide.maskValidRiskLevels precipitationHazard p = Some b) as ->
        by by apply maskValidRiskLevels_valid.
  - intros [H|H]; apply maskValidRiskLevels_invalid in H; rewrite H; [done|].
    by destruct (Landslide.maskValidRiskLevels earthquakeHazard p).
Qed.

Lemma where_pixel {A : Type} (img : Image.t A) (test : Image.t bool) (value : A) p :
  Image.where_ img test value p =
  v ← img p; Some (if default false (test p) then value else v).
Proof.
  unfold Image.where_. destruct (img p) as [v|]; simpl; [|done].
  by destruct (test p) as [[]|].
Qed.

Lemma between_pixel image (lo hi : Z) p :
  Image.and (Image.gte image lo) (Image.lte image hi) p =
  (λ v, (lo <=? v) && (v <=? hi))%Z <$> image p.
Proof.
  unfold Image.and, Image.binary, Image.gte, Image.lte, Image.unary.
  by destruct (image p).
Qed.

(** The reclassification at a pixel: levels 1-8 go to their bin of width
    two, any other value is kept. *)
Lemma reclassifyRisk_pixel image p :
  Landslide.reclassifyRisk image p =
  (λ v, if ((1 <=? v) && (v <=? 8))%Z then ((v + 1) / 2)%Z else v) <$> image p.
Proof.
  unfold Landslide.reclassifyRisk.
  rewrite !where_pixel, !between_pixel.
  destruct (image p) as [v|]; simpl; [|done]. f_equal.
  destruct (1 <=? v)%Z eqn:H1, (v <=? 8)%Z eqn:H8; simpl;
    repeat match goal with
           | |- context [(?a <=? ?b)%Z] => destruct (Z.leb_spec a b)
           end; simpl; try lia.
  all: try (symmetry; apply Z.div_unique with (r := ((v + 1) mod 2)%Z); lia).
  all: try reflexivity.
  all: assert (v = 1 ∨ v = 2 ∨ v = 3 ∨ v = 4 ∨ v = 5 ∨ v = 6 ∨ v = 7 ∨ v = 8)%Z
      as Hv by lia;
    destruct Hv as [->|[->|[->|[->|[->|[->|[->| ->]]]]]]]; try reflexivity; lia.
Qed.

Lemma reclassifyRisk_riskLevels image p v :
  image p = Some v →
  Landslide.reclassifyRisk image p = Some (default v (tierOfLevel v)).
Proof.
  intros Hv. rewrite reclassifyRisk_pixel, Hv. simpl. f_equal.
  unfold tierOfLevel; simpl.
  repeat match goal with
         | |- context [(?a <=? ?b)%Z] => destruct (Z.leb_spec a b)
         end; simpl; try lia; try reflexivity.
  all: assert (v = 1 ∨ v = 2 ∨ v = 3 ∨ v = 4 ∨ v = 5 ∨ v = 6 ∨ v = 7 ∨ v = 8)%Z
      as Hc by lia;
    destruct Hc as [->|[->|[->|[->|[->|[->|[->| ->]]]]]]]; try reflexivity; lia.
Qed.

End Fusion.

(** ** Rounding, checked division and null protection *)

Section Numbers.

Local Open Scope Q_scope.

Lemma round_integer x : Number.round x = inject_Z (Qfloor (x + (1 # 2))).
Proof. reflexivity. Qed.

Lemma round_comp x y : x == y → Number.round x = Number.round y.
Proof.
  intros H. unfold Number.round. f_equal. apply Qfloor_comp. by rewrite H.
Qed.

Lemma round_upper x : Number.round x <= x + (1 # 2).
Proof. apply Qfloor_le. Qed.

Lemma round_lower x : x - (1 # 2) < Number.round x.
Proof.
  unfold Number.round. pose proof (Qlt_floor (x + (1 # 2))) as H.
  rewrite inject_Z_plus in H. change (inject_Z 1) with 1 in H. lra.
Qed.

Lemma round_mono x y : x <= y → Number.round x <= Number.round y.
Proof.
  intros H. unfold Number.round. rewrite <- Zle_Qle.
  apply Qfloor_resp_le. lra.
Qed.

Lemma round_inject_Z (n : Z) : Number.round (inject_Z n) = inject_Z n.
Proof.
  unfold Number.round. f_equal.
  assert (Qfloor (inject_Z n) <= Qfloor (inject_Z n + (1 # 2)))%Z as Hlo
      by (apply Qfloor_resp_le; lra).
  rewrite Qfloor_Z in Hlo.
  pose proof (Qfloor_le (inject_Z n + (1 # 2))) as Hhi.
  assert (inject_Z (Qfloor (inject_Z n + (1 # 2))) < inject_Z (n + 1)) as Hlt
      by (rewrite inject_Z_plus; change (inject_Z 1) with 1; lra).
  rewrite <- Zlt_Qlt in Hlt. lia.
Qed.

Lemma round_whole x (n : Z) : x == inject_Z n → Number.round x = inject_Z n.
Proof. intros H. rewrite (round_comp _ _ H). apply round_inject_Z. Qed.

Lemma round_0 : Number.round 0 = 0.
Proof. reflexivity. Qed.

Lemma round_nonneg x : 0 <= x → 0 <= Number.round x.
Proof. intros H. rewrite <- round_0. by apply round_mono. Qed.

(** Rounding at most doubles a non-negative number. *)
Lemma round_le_double x : 0 <= x → Number.round x <= 2 * x.
Proof.
  intros H0. destruct (Qlt_le_dec x (1 # 2)) as [Hlt|Hge].
  - assert (Number.round x <= 0); [|lra].
    unfold Number.round. change 0 with (inject_Z 0). rewrite <- Zle_Qle.
    assert (inject_Z (Qfloor (x + (1 # 2))) < inject_Z 1) as H1.
    { pose proof (Qfloor_le (x + (1 # 2))). change (inject_Z 1) with 1. lra. }
    rewrite <- Zlt_Qlt in H1. lia.
  - pose proof (round_upper x). lra.
Qed.

(** Between two integers, a strict bound within one is a large bound. *)
Lemma integer_lt_succ (a b : Z) :
  inject_Z a < inject_Z b + 1 → inject_Z a <= inject_Z b.
Proof.
  intros H. rewrite <- Zle_Qle.
  change 1 with (inject_Z 1) in H. rewrite <- inject_Z_plus, <- Zlt_Qlt in H. lia.
Qed.

Lemma gt_true x y : Number.gt x y = true ↔ y < x.
Proof.
  unfold Number.gt. rewrite negb_true_iff.
  destruct (Qle_bool x y) eqn:E.
  - apply Qle_bool_iff in E. split; [done | lra].
  - split; [|done]. intros _. apply Qnot_le_lt. intros H.
    apply Qle_bool_iff in H. congruence.
Qed.

Lemma gt_false x y : Number.gt x y = false ↔ x <= y.
Proof.
  unfold Number.gt. rewrite negb_false_iff. apply Qle_bool_iff.
Qed.

Lemma divide_Some x y : ¬ y == 0 → Number.divide x y = Some (x / y).
Proof.
  intros H. unfold Number.divide.
  destruct (Qeq_bool y 0) eqn:E; [|done].
  by apply Qeq_bool_iff in E.
Qed.

Lemma divide_None x y : Number.divide x y = None ↔ y == 0.
Proof.
  unfold Number.divide. destruct (Qeq_bool y 0) eqn:E.
  - by apply Qeq_bool_iff in E.
  - split; [done|]. intros H. apply Qeq_bool_iff in H. congruence.
Qed.

Lemma nullProtected_None : nullProtected None = 0.
Proof. reflexivity. Qed.

Lemma nullProtected_Some x : nullProtected (Some x) == x.
Proof.
  unfold nullProtected, Algorithms.If, Algorithms.truthy. simpl.
  destruct (Qeq_bool x 0) eqn:E; simpl; [|reflexivity].
  apply Qeq_bool_iff in E. by rewrite E.
Qed.

Lemma Qsum_app l1 l2 : Qsum (l1 ++ l2) == Qsum l1 + Qsum l2.
Proof.
  induction l1 as [|x l1 IH]; simpl.
  - symmetry. apply Qplus_0_l.
  - rewrite IH. apply Qplus_assoc.
Qed.

Lemma nullProtected_sum image geometry :
  nullProtected (Reducer.sum image geometry) == pixelSum image geometry.
Proof.
  unfold Reducer.sum, pixelSum.
  destruct (omap image geometry) as [|v vs]; [reflexivity|].
  apply nullProtected_Some.
Qed.

Lemma pixelSum_nil image : pixelSum image [] = 0.
Proof. reflexivity. Qed.

Lemma pixelSum_cons image p geometry :
  pixelSum image (p :: geometry) = default 0 (image p) + pixelSum image geometry
  ∨ (image p = None ∧ pixelSum image (p :: geometry) = pixelSum image geometry).
Proof.
  unfold pixelSum. simpl. destruct (image p); simpl; [by left | by right].
Qed.

Lemma pixelSum_cons_eq image p geometry :
  pixelSum image (p :: geometry) == default 0 (image p) + pixelSum image geometry.
Proof.
  destruct (pixelSum_cons image p geometry) as [-> | [-> ->]]; [reflexivity|].
  symmetry. apply Qplus_0_l.
Qed.

Lemma pixelSum_app image g1 g2 :
  pixelSum image (g1 ++ g2) == pixelSum image g1 + pixelSum image g2.
Proof.
  induction g1 as [|p g1 IH].
  - rewrite pixelSum_nil. symmetry. apply Qplus_0_l.
  - change ((p :: g1) ++ g2) with (p :: (g1 ++ g2)).
    rewrite !pixelSum_cons_eq, IH. apply Qplus_assoc.
Qed.

Lemma pixelSum_masked geometry : pixelSum Image.masked geometry = 0.
Proof. induction geometry as [|p g IH]; [done|]. unfold pixelSum in *. by simpl. Qed.

Lemma pixelSum_no_data image geometry :
  (∀ p, p ∈ geometry → image p = None) → pixelSum image geometry = 0.
Proof.
  induction geometry as [|p g IH]; intros H; [done|].
  unfold pixelSum in *. simpl. rewrite (H p) by apply list_elem_of_here. simpl.
  apply IH. intros q Hq. apply H. by apply list_elem_of_further.
Qed.

End Numbers.

(** ** Zonal sums of the tier bands *)

Section TierSums.

Local Open Scope Q_scope.

Variables (population : Image.t Q) (riskMap : Image.t Z).

Lemma tierBand_pixel k p :
  tierBand population riskMap k p =
  v ← population p; r ← riskMap p; if (r =? k)%Z then Some v else None.
Proof.
  unfold tierBand, Image.updateMask, Image.eq, Image.unary.
  destruct (population p) as [v|]; simpl; [|done].
  destruct (riskMap p) as [r|]; simpl; [|done].
  by destruct (r =? k)%Z.
Qed.

Lemma tierBand_no_data k geometry :
  (∀ p, p ∈ geometry → population p = None) →
  pixelSum (tierBand population riskMap k) geometry = 0.
Proof.
  intros H. apply pixelSum_no_data. intros p Hp.
  rewrite tierBand_pixel, (H p Hp). done.
Qed.

(** The share of one pixel in the four tier sums and in the total. *)
Lemma pixel_contribution p :
  (∀ v, population p = Some v → 0 <= v) →
  let c k := default 0 (tierBand population riskMap k p) in
  0 <= c 1%Z ∧ 0 <= c 2%Z ∧ 0 <= c 3%Z ∧ 0 <= c 4%Z
  ∧ c 1%Z + c 2%Z + c 3%Z + c 4%Z <= default 0 (population p)
  ∧ (c 1%Z + c 2%Z + c 3%Z + c 4%Z == default 0 (population p)
     ↔ ∀ v, population p = Some v → 0 < v → inTier riskMap p).
Proof.
  intros Hpos c. subst c. cbv beta. rewrite !tierBand_pixel.
  destruct (population p) as [v|]; cbn [mbind option_bind default from_option id].
  2: { split_and!; try lra. split; [intros; discriminate | lra]. }
  specialize (Hpos v eq_refl).
  destruct (riskMap p) as [r|] eqn:Er; cbn [mbind option_bind default from_option id].
  2: { split_and!; try lra. split.
       - intros H w [= <-] Hw. lra.
       - intros H. destruct (Qlt_le_dec 0 v) as [Hv|Hv]; [|lra].
         destruct (H v eq_refl Hv) as [k [Hk _]]. congruence. }
  assert ((1 <= r <= 4)%Z ∨ ¬ (1 <= r <= 4)%Z) as [Hr|Hr] by lia.
  - assert (r = 1 ∨ r = 2 ∨ r = 3 ∨ r = 4)%Z as Hc by lia.
    destruct Hc as [->|[->|[->| ->]]]; cbn [Z.eqb Pos.eqb default from_option id];
      (split_and!; try lra; split; [|lra]; intros _ w _ _; eexists; split; [done | lia]).
  - destruct (Z.eqb_spec r 1), (Z.eqb_spec r 2), (Z.eqb_spec r 3), (Z.eqb_spec r 4);
      try lia; cbn [default from_option id].
    split_and!; try lra. split.
    + intros H w [= <-] Hw. lra.
    + intros H. destruct (Qlt_le_dec 0 v) as [Hv|Hv]; [|lra].
      destruct (H v eq_refl Hv) as [k [Hk' Hk]].
      rewrite Er in Hk'. injection Hk' as <-. lia.
Qed.

Lemma nonNegative_cons p geometry :
  nonNegative population (p :: geometry) →
  (∀ v, population p = Some v → 0 <= v) ∧ nonNegative population geometry.
Proof.
  intros H. split.
  - intros v. apply H, list_elem_of_here.
  - intros q v Hq. apply H. by apply list_elem_of_further.
Qed.

Lemma populatedInTier_cons p geometry :
  populatedInTier population riskMap (p :: geometry)
  ↔ (∀ v, population p = Some v → 0 < v → inTier riskMap p)
    ∧ populatedInTier population riskMap geometry.
Proof.
  unfold populatedInTier. split.
  - intros H. split.
    + intros v. apply H, list_elem_of_here.
    + intros q v Hq. apply H. by apply list_elem_of_further.
  - intros [Hp Hg] q v Hq. apply elem_of_cons in Hq as [->|Hq]; eauto.
Qed.

(** The tier sums are non-negative, add up to at most the total, and add
    up to the total exactly when every populated pixel has a tier. *)
Lemma tier_sums geometry :
  nonNegative population geometry →
  let t k := pixelSum (tierBand population riskMap k) geometry in
  0 <= t 1%Z ∧ 0 <= t 2%Z ∧ 0 <= t 3%Z ∧ 0 <= t 4%Z
  ∧ t 1%Z + t 2%Z + t 3%Z + t 4%Z <= pixelSum population geometry
  ∧ (t 1%Z + t 2%Z + t 3%Z + t 4%Z == pixelSum population geometry
     ↔ populatedInTier population riskMap geometry).
Proof.
  induction geometry as [|p g IH]; intros Hpos t; subst t; cbv beta.
  - rewrite !pixelSum_nil. split_and!; try lra. split; [|lra]. intros _ p v Hp.
    by apply elem_of_nil in Hp.
  - apply nonNegative_cons in Hpos as [Hp Hg].
    destruct (IH Hg) as (I1 & I2 & I3 & I4 & Ile & Ieq).
    destruct (pixel_contribution p Hp) as (C1 & C2 & C3 & C4 & Cle & Ceq).
    pose proof (pixelSum_cons_eq population p g) as ET.
    pose proof (pixelSum_cons_eq (tierBand population riskMap 1) p g) as E1.
    pose proof (pixelSum_cons_eq (tierBand population riskMap 2) p g) as E2.
    pose proof (pixelSum_cons_eq (tierBand population riskMap 3) p g) as E3.
    pose proof (pixelSum_cons_eq (tierBand population riskMap 4) p g) as E4.
    split_and!; try lra. split.
    + intros H. apply populatedInTier_cons. split.
      * apply Ceq. lra.
      * apply Ieq. lra.
    + intros H. apply populatedInTier_cons in H as [Hc Hr].
      apply Ceq in Hc. apply Ieq in Hr. lra.
Qed.

Lemma tier_sum_le_total geometry k :
  nonNegative population geometry →
  0 <= pixelSum (tierBand population riskMap k) geometry
  ∧ pixelSum (tierBand population riskMap k) geometry <= pixelSum population geometry.
Proof.
  induction geometry as [|p g IH]; intros Hpos.
  - rewrite !pixelSum_nil. lra.
  - apply nonNegative_cons in Hpos as [Hp Hg]. specialize (IH Hg).
    pose proof (pixelSum_cons_eq population p g) as ET.
    pose proof (pixelSum_cons_eq (tierBand population riskMap k) p g) as Ek.
    assert (0 <= default 0 (tierBand population riskMap k p)
            ∧ default 0 (tierBand population riskMap k p) <= default 0 (population p))
      as [? ?]; [|lra].
    rewrite tierBand_pixel. destruct (population p) as [v|]; simpl; [|lra].
    specialize (Hp v eq_refl).
    destruct (riskMap p) as [r|]; simpl; [|lra].
    destruct (r =? k)%Z; simpl; lra.
Qed.

Lemma wholeNumbers_sum (image : Image.t Q) geometry :
  (∀ p v, p ∈ geometry → image p = Some v → ∃ n : Z, v == inject_Z n) →
  ∃ n : Z, pixelSum image geometry == inject_Z n.
Proof.
  induction geometry as [|p g IH]; intros H.
  - exists 0%Z. reflexivity.
  - destruct IH as [m Hm].
    { intros q v Hq. apply H. by apply list_elem_of_further. }
    pose proof (pixelSum_cons_eq image p g) as E.
    destruct (image p) as [v|] eqn:Ev; simpl in E.
    + destruct (H p v (list_elem_of_here _ _) Ev) as [n Hn].
      exists (n + m)%Z. rewrite inject_Z_plus. lra.
    + exists m. lra.
Qed.

Lemma wholeNumbers_tier geometry k :
  wholeNumbers population geometry →
  ∃ n : Z, pixelSum (tierBand population riskMap k) geometry == inject_Z n.
Proof.
  intros H. apply wholeNumbers_sum. intros p v Hp.
  rewrite tierBand_pixel. destruct (population p) as [w|] eqn:Ew; simpl; [|done].
  destruct (riskMap p) as [r|]; simpl; [|done].
  destruct (r =? k)%Z; [|done]. intros [= <-]. by apply (H p).
Qed.

End TierSums.

(** ** The statistics of one zone *)

Section ZoneStatistics.

Local Open Scope Q_scope.

Lemma lookup_reduceRegion_here name image rest geometry :
  Reducer.reduceRegion ((name, image) :: rest) geometry !! name
  = Reducer.sum image geometry.
Proof.
  simpl. destruct (Reducer.sum image geometry).
  - apply lookup_insert_eq.
  - apply lookup_delete_eq.
Qed.

Lemma lookup_reduceRegion_ne name name' image rest geometry :
  name ≠ name' →
  Reducer.reduceRegion ((name, image) :: rest) geometry !! name'
  = Reducer.reduceRegion rest geometry !! name'.
Proof.
  intros H. simpl. destruct (Reducer.sum image geometry).
  - by apply lookup_insert_ne.
  - by apply lookup_delete_ne.
Qed.

Lemma safePop_positive totalPop :
  0 < Algorithms.If (Number.gt totalPop 0) totalPop 1.
Proof.
  unfold Algorithms.If. destruct (Number.gt totalPop 0) eqn:E; [|lra].
  by apply gt_true.
Qed.

(** The callback of the landslide script never divides by zero; its
    local variables are the rounded reduced values and their quotients
    by [safePop]. *)
Lemma landslide_statistics stats :
  ∃ s, Landslide.statistics stats = Some s
    ∧ Landslide.totalPop s = Number.round (nullProtected (stats !! "total_pop"))
    ∧ Landslide.lowRiskPop s = Number.round (nullProtected (stats !! "low_pop"))
    ∧ Landslide.mediumRiskPop s = Number.round (nullProtected (stats !! "medium_pop"))
    ∧ Landslide.highRiskPop s = Number.round (nullProtected (stats !! "high_pop"))
    ∧ Landslide.veryHighRiskPop s
      = Number.round (nullProtected (stats !! "very_high_pop"))
    ∧ let safePop :=
        Algorithms.If (Number.gt (Landslide.totalPop s) 0) (Landslide.totalPop s) 1 in
      Landslide.lowRiskRatio s = Landslide.lowRiskPop s / safePop
      ∧ Landslide.mediumRiskRatio s = Landslide.mediumRiskPop s / safePop
      ∧ Landslide.highRiskRatio s = Landslide.highRiskPop s / safePop
      ∧ Landslide.veryHighRiskRatio s = Landslide.veryHighRiskPop s / safePop
      ∧ Landslide.riskScore s
        = Landslide.lowRiskRatio s * 1 + Landslide.mediumRiskRatio s * 2
          + Landslide.highRiskRatio s * 3 + Landslide.veryHighRiskRatio s * 4.
Proof.
  unfold Landslide.statistics.
  set (total := Number.round (nullProtected (stats !! "total_pop"))).
  pose proof (safePop_positive total) as Hsafe.
  assert (¬ Algorithms.If (Number.gt total 0) total 1 == 0) as Hne by lra.
  rewrite !(divide_Some _ _ Hne). cbn [mbind option_bind].
  eexists. split; [reflexivity|]. cbn. split_and!; reflexivity.
Qed.

Lemma landslide_zoneStatistics population riskMap geometry :
  ∃ s, Landslide.zoneStatistics population riskMap geometry = Some s
    ∧ Landslide.totalPop s = Number.round (pixelSum population geometry)
    ∧ Landslide.lowRiskPop s
      = Number.round (pixelSum (tierBand population riskMap 1) geometry)
    ∧ Landslide.mediumRiskPop s
      = Number.round (pixelSum (tierBand population riskMap 2) geometry)
    ∧ Landslide.highRiskPop s
      = Number.round (pixelSum (tierBand population riskMap 3) geometry)
    ∧ Landslide.veryHighRiskPop s
      = Number.round (pixelSum (tierBand population riskMap 4) geometry)
    ∧ let safePop :=
        Algorithms.If (Number.gt (Landslide.totalPop s) 0) (Landslide.totalPop s) 1 in
      0 < safePop
      ∧ Landslide.lowRiskRatio s = Landslide.lowRiskPop s / safePop
      ∧ Landslide.mediumRiskRatio s = Landslide.mediumRiskPop s / safePop
      ∧ Landslide.highRiskRatio s = Landslide.highRiskPop s / safePop
      ∧ Landslide.veryHighRiskRatio s = Landslide.veryHighRiskPop s / safePop
      ∧ Landslide.riskScore s
        = Landslide.lowRiskRatio s * 1 + Landslide.mediumRiskRatio s * 2
          + Landslide.highRiskRatio s * 3 + Landslide.veryHighRiskRatio s * 4.
Proof.
  unfold Landslide.zoneStatistics.
  destruct (landslide_statistics
              (Reducer.reduceRegion (Landslide.multiband population riskMap) geometry))
    as (s & Hs & HT & H1 & H2 & H3 & H4 & Hr).
  exists s. split; [done|].
  unfold Landslide.multiband in HT, H1, H2, H3, H4.
  rewrite lookup_reduceRegion_here in HT.
  rewrite lookup_reduceRegion_ne, lookup_reduceRegion_here in H1 by done.
  rewrite !lookup_reduceRegion_ne, lookup_reduceRegion_here in H2 by done.
  rewrite !lookup_reduceRegion_ne, lookup_reduceRegion_here in H3 by done.
  rewrite !lookup_reduceRegion_ne, lookup_reduceRegion_here in H4 by done.
  rewrite (round_comp _ _ (nullProtected_sum _ _)) in HT.
  rewrite (round_comp _ _ (nullProtected_sum _ _)) in H1.
  rewrite (round_comp _ _ (nullProtected_sum _ _)) in H2.
  rewrite (round_comp _ _ (nullProtected_sum _ _)) in H3.
  rewrite (round_comp _ _ (nullProtected_sum _ _)) in H4.
  split_and!; try done; try apply Hr. apply safePop_positive.
Qed.

(** The total population of a zone is 0 exactly when the safe divisor is
    the constant 1. *)
Lemma safePop_cases totalPop :
  0 <= totalPop →
  (0 < totalPop ∧ Algorithms.If (Number.gt totalPop 0) totalPop 1 = totalPop)
  ∨ (totalPop == 0 ∧ Algorithms.If (Number.gt totalPop 0) totalPop 1 = 1).
Proof.
  intros H. unfold Algorithms.If. destruct (Number.gt totalPop 0) eqn:E.
  - left. split; [by apply gt_true | done].
  - right. apply gt_false in E. split; [lra | done].
Qed.

Lemma ratio_bounds a b :
  0 <= a → a <= b → 0 < b → 0 <= a / b ∧ a / b <= 1.
Proof.
  intros Ha Hab Hb. split.
  - apply Qle_shift_div_l; lra.
  - apply Qle_shift_div_r; lra.
Qed.

End ZoneStatistics.

(** ** Rounded population counts *)

Section RoundedCounts.

Local Open Scope Q_scope.

Variables (population : Image.t Q) (riskMap : Image.t Z) (geometry : Geometry).

Local Abbreviation T := (pixelSum population geometry).
Local Abbreviation t k := (pixelSum (tierBand population riskMap k) geometry).

Lemma rounded_tier_le_total k :
  nonNegative population geometry →
  0 <= Number.round (t k) ∧ Number.round (t k) <= Number.round T.
Proof.
  intros Hpos. destruct (tier_sum_le_total population riskMap geometry k Hpos).
  split; [by apply round_nonneg | by apply round_mono].
Qed.

(** Each count is rounded on its own, so the rounded tier counts can
    exceed the rounded total, by at most 2 and at most twice. *)
Lemma rounded_tiers_drift :
  nonNegative population geometry →
  Number.round (t 1) + Number.round (t 2) + Number.round (t 3) + Number.round (t 4)
    <= Number.round T + 2
  ∧ Number.round (t 1) + Number.round (t 2) + Number.round (t 3) + Number.round (t 4)
    <= 2 * Number.round T.
Proof.
  intros Hpos.
  destruct (tier_sums population riskMap geometry Hpos) as (P1 & P2 & P3 & P4 & Hle & _).
  pose proof (round_upper (t 1)) as U1. pose proof (round_upper (t 2)) as U2.
  pose proof (round_upper (t 3)) as U3. pose proof (round_upper (t 4)) as U4.
  pose proof (round_le_double _ P1) as D1. pose proof (round_le_double _ P2) as D2.
  pose proof (round_le_double _ P3) as D3. pose proof (round_le_double _ P4) as D4.
  pose proof (round_lower T) as L.
  unfold Number.round in *.
  set (z1 := Qfloor (t 1 + (1 # 2))) in *. set (z2 := Qfloor (t 2 + (1 # 2))) in *.
  set (z3 := Qfloor (t 3 + (1 # 2))) in *. set (z4 := Qfloor (t 4 + (1 # 2))) in *.
  set (zT := Qfloor (T + (1 # 2))) in *.
  assert (inject_Z (z1 + z2 + z3 + z4) <= inject_Z (zT + 2)) as Hdrift.
  { apply integer_lt_succ. rewrite !inject_Z_plus. change (inject_Z 2) with 2. lra. }
  assert (inject_Z (z1 + z2 + z3 + z4) <= inject_Z (2 * zT)) as Hdouble.
  { clear Hdrift. apply integer_lt_succ. rewrite !inject_Z_plus, inject_Z_mult.
    change (inject_Z 2) with 2.
    assert (2 * T < 2 * inject_Z zT + 1) as Htotal by lra.
    assert (inject_Z z1 + inject_Z z2 + inject_Z z3 + inject_Z z4
            <= 2 * (t 1 + t 2 + t 3 + t 4)) as Htiers by (clear - D1 D2 D3 D4; lra).
    lra. }
  rewrite !inject_Z_plus in Hdrift. rewrite !inject_Z_plus, inject_Z_mult in Hdouble.
  change (inject_Z 2) with 2 in Hdrift, Hdouble.
  split; [clear - Hdrift | clear - Hdouble]; lra.
Qed.

(** On whole-number population cells rounding changes nothing. *)
Lemma rounded_whole :
  wholeNumbers population geometry →
  Number.round T == T ∧ ∀ k, Number.round (t k) == t k.
Proof.
  intros Hw. split.
  - destruct (wholeNumbers_sum population geometry Hw) as [n Hn].
    rewrite (round_whole _ _ Hn). by symmetry.
  - intros k. destruct (wholeNumbers_tier population riskMap geometry k Hw) as [n Hn].
    rewrite (round_whole _ _ Hn). by symmetry.
Qed.

End RoundedCounts.

(** ** The statistics of one zone in the flood script *)

Section FloodStatistics.

Local Open Scope Q_scope.

Lemma masked_sum_le (population : Image.t Q) (mask : Image.t bool) geometry :
  nonNegative population geometry →
  0 <= pixelSum (Image.updateMask population mask) geometry
  ∧ pixelSum (Image.updateMask population mask) geometry <= pixelSum population geometry.
Proof.
  induction geometry as [|p g IH]; intros Hpos.
  - rewrite !pixelSum_nil. lra.
  - apply nonNegative_cons in Hpos as [Hp Hg]. specialize (IH Hg).
    pose proof (pixelSum_cons_eq population p g) as ET.
    pose proof (pixelSum_cons_eq (Image.updateMask population mask) p g) as Em.
    assert (0 <= default 0 (Image.updateMask population mask p)
            ∧ default 0 (Image.updateMask population mask p) <= default 0 (population p))
      as [? ?]; [|lra].
    unfold Image.updateMask. destruct (population p) as [v|]; simpl; [|lra].
    specialize (Hp v eq_refl). destruct (mask p) as [[]|]; simpl; lra.
Qed.

(** The flood mask is valid, with value [true], exactly on the pixels of
    positive flood depth. *)
Lemma createFloodMask_pixel (floodImage : Image.t Q) p :
  Flood.createFloodMask floodImage p
  = d ← floodImage p; if Number.gt d 0 then Some true else None.
Proof.
  unfold Flood.createFloodMask, Image.selfMask, Image.updateMask, Image.gt, Image.unary,
    Number.gt.
  destruct (floodImage p) as [d|]; simpl; [|done].
  by destruct (Qle_bool d 0).
Qed.

Lemma guarded_divide x y :
  Algorithms.If (Number.gt y 0) (Number.divide x y) (Some 0)
  = Some (Algorithms.If (Number.gt y 0) (x / y) 0).
Proof.
  unfold Algorithms.If. destruct (Number.gt y 0) eqn:E; [|done].
  apply gt_true in E. apply divide_Some. lra.
Qed.

(** The callback of the flood script never divides by zero. *)
Lemma flood_statistics stats :
  ∃ s, Flood.statistics stats = Some s
    ∧ Flood.totalPop s = Number.round (nullProtected (stats !! "total_pop"))
    ∧ Flood.exposedPopCount s = Number.round (nullProtected (stats !! "exposed_pop"))
    ∧ Flood.floodAreaKm2 s = nullProtected (stats !! "flood_area") * 900 / 1000000
    ∧ Flood.exposureRatio s
      = Algorithms.If (Number.gt (Flood.totalPop s) 0)
          (Flood.exposedPopCount s / Flood.totalPop s) 0
    ∧ Flood.exposureDensity s
      = Algorithms.If (Number.gt (Flood.floodAreaKm2 s) 0)
          (Flood.exposedPopCount s / Flood.floodAreaKm2 s) 0.
Proof.
  unfold Flood.statistics.
  rewrite (divide_Some _ 1000000) by (intros H; vm_compute in H; discriminate H).
  cbn [mbind option_bind].
  rewrite !guarded_divide. cbn [mbind option_bind].
  eexists. split; [reflexivity|]. cbn. split_and!; reflexivity.
Qed.

Lemma flood_zoneStatistics population exposedPop floodMask geometry :
  ∃ s, Flood.zoneStatistics population exposedPop floodMask geometry = Some s
    ∧ Flood.totalPop s = Number.round (pixelSum population geometry)
    ∧ Flood.exposedPopCount s = Number.round (pixelSum exposedPop geometry)
    ∧ Flood.exposureRatio s
      = Algorithms.If (Number.gt (Flood.totalPop s) 0)
          (Flood.exposedPopCount s / Flood.totalPop s) 0
    ∧ Flood.exposureDensity s
      = Algorithms.If (Number.gt (Flood.floodAreaKm2 s) 0)
          (Flood.exposedPopCount s / Flood.floodAreaKm2 s) 0.
Proof.
  unfold Flood.zoneStatistics.
  destruct (flood_statistics
              (Reducer.reduceRegion (Flood.multiband population exposedPop floodMask)
                 geometry))
    as (s & Hs & HT & HE & _ & Hr & Hd).
  exists s. split; [done|].
  unfold Flood.multiband in HT, HE.
  rewrite lookup_reduceRegion_here in HT.
  rewrite lookup_reduceRegion_ne, lookup_reduceRegion_here in HE by done.
  rewrite (round_comp _ _ (nullProtected_sum _ _)) in HT.
  rewrite (round_comp _ _ (nullProtected_sum _ _)) in HE.
  by split_and!.
Qed.

End FloodStatistics.

(** ** Invariants of the zone record of the landslide script *)

Section ZoneInvariants.

Local Open Scope Q_scope.

Lemma sum_of_ratios a b c d s :
  0 < s → a / s + b / s + c / s + d / s == (a + b + c + d) / s.
Proof. intros H. field. lra. Qed.

Lemma weighted_ratios a b c d s :
  0 < s →
  a / s * 1 + b / s * 2 + c / s * 3 + d / s * 4 == (a + 2 * b + 3 * c + 4 * d) / s.
Proof. intros H. field. lra. Qed.

(** The facts about one zone record from which the invariants follow:
    the counts are rounded sums, each tier count lies between 0 and the
    total, and the ratios are the counts over the positive [safePop]. *)
Lemma zone_record population riskMap geometry :
  nonNegative population geometry →
  ∃ s safePop,
    Landslide.zoneStatistics population riskMap geometry = Some s
    ∧ Landslide.totalPop s = Number.round (pixelSum population geometry)
    ∧ Landslide.lowRiskPop s
      = Number.round (pixelSum (tierBand population riskMap 1) geometry)
    ∧ Landslide.mediumRiskPop s
      = Number.round (pixelSum (tierBand population riskMap 2) geometry)
    ∧ Landslide.highRiskPop s
      = Number.round (pixelSum (tierBand population riskMap 3) geometry)
    ∧ Landslide.veryHighRiskPop s
      = Number.round (pixelSum (tierBand population riskMap 4) geometry)
    ∧ (0 <= Landslide.lowRiskPop s <= Landslide.totalPop s)
    ∧ (0 <= Landslide.mediumRiskPop s <= Landslide.totalPop s)
    ∧ (0 <= Landslide.highRiskPop s <= Landslide.totalPop s)
    ∧ (0 <= Landslide.veryHighRiskPop s <= Landslide.totalPop s)
    ∧ tierPopulations s <= Landslide.totalPop s + 2
    ∧ tierPopulations s <= 2 * Landslide.totalPop s
    ∧ ((0 < Landslide.totalPop s ∧ safePop = Landslide.totalPop s)
       ∨ (Landslide.totalPop s == 0 ∧ safePop = 1))
    ∧ Landslide.lowRiskRatio s = Landslide.lowRiskPop s / safePop
    ∧ Landslide.mediumRiskRatio s = Landslide.mediumRiskPop s / safePop
    ∧ Landslide.highRiskRatio s = Landslide.highRiskPop s / safePop
    ∧ Landslide.veryHighRiskRatio s = Landslide.veryHighRiskPop s / safePop
    ∧ Landslide.riskScore s
      = Landslide.lowRiskRatio s * 1 + Landslide.mediumRiskRatio s * 2
        + Landslide.highRiskRatio s * 3 + Landslide.veryHighRiskRatio s * 4.
Proof.
  intros Hpos.
  destruct (landslide_zoneStatistics population riskMap geometry)
    as (s & Hs & HT & H1 & H2 & H3 & H4 & _ & R1 & R2 & R3 & R4 & Hscore).
  exists s, (Algorithms.If (Number.gt (Landslide.totalPop s) 0) (Landslide.totalPop s) 1).
  destruct (rounded_tier_le_total population riskMap geometry 1 Hpos) as [L1 U1].
  destruct (rounded_tier_le_total population riskMap geometry 2 Hpos) as [L2 U2].
  destruct (rounded_tier_le_total population riskMap geometry 3 Hpos) as [L3 U3].
  destruct (rounded_tier_le_total population riskMap geometry 4 Hpos) as [L4 U4].
  destruct (rounded_tiers_drift population riskMap geometry Hpos) as [Hdrift Hdouble].
  unfold tierPopulations.
  rewrite <- HT, <- H1, <- H2, <- H3, <- H4 in *.
  split_and!; try done.
  apply safePop_cases. lra.
Qed.

End ZoneInvariants.

(** ** Properties of the zone statistics *)

Section ZoneProperties.

Local Open Scope Q_scope.

(** C3 (as amended).  For every zone with a non-negative population raster:
    the tier sums before rounding add up to at most the total before
    rounding, with equality exactly when every populated valid cell of the
    zone has a hazard tier; the record holds each of these sums rounded on
    its own, so the tier counts of the record add up to at most the total
    count plus 2 (and at most twice the total count); when every population
    cell is a whole number the tier counts of the record add up to at most
    the total count, with equality exactly when every populated valid cell
    has a tier. *)
Theorem tier_sum_invariant population riskMap geometry :
  nonNegative population geometry →
  ∃ s, Landslide.zoneStatistics population riskMap geometry = Some s
    ∧ pixelSum (tierBand population riskMap 1) geometry
      + pixelSum (tierBand population riskMap 2) geometry
      + pixelSum (tierBand population riskMap 3) geometry
      + pixelSum (tierBand population riskMap 4) geometry
      <= pixelSum population geometry
    ∧ (pixelSum (tierBand population riskMap 1) geometry
       + pixelSum (tierBand population riskMap 2) geometry
       + pixelSum (tierBand population riskMap 3) geometry
       + pixelSum (tierBand population riskMap 4) geometry
       == pixelSum population geometry
       ↔ populatedInTier population riskMap geometry)
    ∧ Landslide.totalPop s = Number.round (pixelSum population geometry)
    ∧ Landslide.lowRiskPop s
      = Number.round (pixelSum (tierBand population riskMap 1) geometry)
    ∧ Landslide.mediumRiskPop s
      = Number.round (pixelSum (tierBand population riskMap 2) geometry)
    ∧ Landslide.highRiskPop s
      = Number.round (pixelSum (tierBand population riskMap 3) geometry)
    ∧ Landslide.veryHighRiskPop s
      = Number.round (pixelSum (tierBand population riskMap 4) geometry)
    ∧ tierPopulations s <= Landslide.totalPop s + 2
    ∧ tierPopulations s <= 2 * Landslide.totalPop s
    ∧ (wholeNumbers population geometry →
       tierPopulations s <= Landslide.totalPop s
       ∧ (tierPopulations s == Landslide.totalPop s
          ↔ populatedInTier population riskMap geometry)).
Proof.
  intros Hpos.
  destruct (zone_record population riskMap geometry Hpos)
    as (s & safePop & Hs & HT & H1 & H2 & H3 & H4 & _ & _ & _ & _ & Hdrift & Hdouble & _).
  destruct (tier_sums population riskMap geometry Hpos) as (_ & _ & _ & _ & Hle & Heq).
  exists s. split_and!; try done.
  intros Hwhole.
  destruct (rounded_whole population riskMap geometry Hwhole) as [WT Wt].
  pose proof (Wt 1%Z) as W1. pose proof (Wt 2%Z) as W2.
  pose proof (Wt 3%Z) as W3. pose proof (Wt 4%Z) as W4.
  unfold tierPopulations. rewrite HT, H1, H2, H3, H4.
  split; [lra|]. rewrite <- Heq. split; intros H; lra.
Qed.

(** C6 (as amended).  For every zone with a non-negative population raster
    every tier ratio of the record lies in [0,1]; the tier ratios add up to
    at most 1 whenever the tier counts of the record add up to at most its
    total count, which holds when every population cell is a whole number;
    in general the tier ratios add up to at most 2. *)
Theorem tier_ratio_bounds population riskMap geometry :
  nonNegative population geometry →
  ∃ s, Landslide.zoneStatistics population riskMap geometry = Some s
    ∧ (0 <= Landslide.lowRiskRatio s <= 1)
    ∧ (0 <= Landslide.mediumRiskRatio s <= 1)
    ∧ (0 <= Landslide.highRiskRatio s <= 1)
    ∧ (0 <= Landslide.veryHighRiskRatio s <= 1)
    ∧ tierRatios s <= 2
    ∧ (tierPopulations s <= Landslide.totalPop s → tierRatios s <= 1)
    ∧ (wholeNumbers population geometry → tierRatios s <= 1).
Proof.
  intros Hpos.
  destruct (zone_record population riskMap geometry Hpos)
    as (s & safePop & Hs & HT & H1 & H2 & H3 & H4 & B1 & B2 & B3 & B4 & Hdrift & Hdouble
        & Hsafe & R1 & R2 & R3 & R4 & _).
  exists s. split; [done|].
  assert (0 < safePop ∧ Landslide.totalPop s <= safePop ∧ 2 * Landslide.totalPop s <= 2 * safePop)
    as (Hsp & Hts & Hts2) by (destruct Hsafe as [[? ->]|[? ->]]; lra).
  assert (tierRatios s == tierPopulations s / safePop) as Hsum.
  { unfold tierRatios, tierPopulations. rewrite R1, R2, R3, R4. by apply sum_of_ratios. }
  assert (tierPopulations s <= Landslide.totalPop s → tierRatios s <= 1) as Hone.
  { intros H. rewrite Hsum. apply Qle_shift_div_r; lra. }
  rewrite R1, R2, R3, R4. split_and!.
  - apply ratio_bounds; lra.
  - apply ratio_bounds; lra.
  - apply ratio_bounds; lra.
  - apply ratio_bounds; lra.
  - apply ratio_bounds; lra.
  - apply ratio_bounds; lra.
  - apply ratio_bounds; lra.
  - apply ratio_bounds; lra.
  - rewrite Hsum. apply Qle_shift_div_r; lra.
  - done.
  - intros Hwhole. apply Hone.
    destruct (rounded_whole population riskMap geometry Hwhole) as [WT Wt].
    pose proof (Wt 1%Z) as W1. pose proof (Wt 2%Z) as W2.
    pose proof (Wt 3%Z) as W3. pose proof (Wt 4%Z) as W4.
    destruct (tier_sums population riskMap geometry Hpos) as (_ & _ & _ & _ & Hle & _).
    unfold tierPopulations. rewrite HT, H1, H2, H3, H4. lra.
Qed.

End ZoneProperties.

Section ScoreAndZeroPopulation.

Local Open Scope Q_scope.

Lemma zero_ratio a b : a == 0 → a / b == 0.
Proof. intros ->. unfold Qdiv. ring. Qed.

Lemma unit_ratio a b : 0 < b → a == b → a / b == 1.
Proof. intros Hb ->. field. lra. Qed.

(** C4 (as amended).  For every zone with a non-negative population raster
    the weighted risk score is the sum over the tiers of the tier ratio
    times the tier weight, the weights being 1, 2, 3, 4 in tier order, and
    the tier ratio being the tier count over the total count when the total
    count is positive; the score is 0 when the total count is 0; it is never
    negative and lies between 1 times and 4 times the sum of the tier
    ratios; it lies in [1,4] when the total count is positive and the tier
    counts add up to it. *)
Theorem risk_score_range population riskMap geometry :
  nonNegative population geometry →
  ∃ s, Landslide.zoneStatistics population riskMap geometry = Some s
    ∧ [ Landslide.CONFIG.riskWeights.low; Landslide.CONFIG.riskWeights.medium;
        Landslide.CONFIG.riskWeights.high; Landslide.CONFIG.riskWeights.veryHigh ]
      = [1; 2; 3; 4]
    ∧ Landslide.riskScore s
      = Landslide.lowRiskRatio s * Landslide.CONFIG.riskWeights.low
        + Landslide.mediumRiskRatio s * Landslide.CONFIG.riskWeights.medium
        + Landslide.highRiskRatio s * Landslide.CONFIG.riskWeights.high
        + Landslide.veryHighRiskRatio s * Landslide.CONFIG.riskWeights.veryHigh
    ∧ (0 < Landslide.totalPop s →
       Landslide.lowRiskRatio s = Landslide.lowRiskPop s / Landslide.totalPop s
       ∧ Landslide.mediumRiskRatio s = Landslide.mediumRiskPop s / Landslide.totalPop s
       ∧ Landslide.highRiskRatio s = Landslide.highRiskPop s / Landslide.totalPop s
       ∧ Landslide.veryHighRiskRatio s
         = Landslide.veryHighRiskPop s / Landslide.totalPop s)
    ∧ (Landslide.totalPop s == 0 → Landslide.riskScore s == 0)
    ∧ 0 <= Landslide.riskScore s
    ∧ tierRatios s * 1 <= Landslide.riskScore s
    ∧ Landslide.riskScore s <= tierRatios s * 4
    ∧ (0 < Landslide.totalPop s → tierPopulations s == Landslide.totalPop s →
       1 <= Landslide.riskScore s ∧ Landslide.riskScore s <= 4).
Proof.
  intros Hpos.
  destruct (zone_record population riskMap geometry Hpos)
    as (s & safePop & Hs & HT & H1 & H2 & H3 & H4 & B1 & B2 & B3 & B4 & Hdrift & Hdouble
        & Hsafe & R1 & R2 & R3 & R4 & Hscore).
  exists s. split; [done|]. split; [reflexivity|]. split; [exact Hscore|].
  assert (0 < safePop) as Hsp by (destruct Hsafe as [[? ->]|[? ->]]; lra).
  assert (0 <= Landslide.lowRiskRatio s ∧ 0 <= Landslide.mediumRiskRatio s
          ∧ 0 <= Landslide.highRiskRatio s ∧ 0 <= Landslide.veryHighRiskRatio s)
    as (P1 & P2 & P3 & P4).
  { rewrite R1, R2, R3, R4. split_and!; apply Qle_shift_div_l; lra. }
  assert (tierRatios s == tierPopulations s / safePop) as Hsum.
  { unfold tierRatios, tierPopulations. rewrite R1, R2, R3, R4. by apply sum_of_ratios. }
  split_and!.
  - intros Htotal. destruct Hsafe as [[_ ->]|[Hzero _]]; [done | lra].
  - intros Hzero. rewrite Hscore, R1, R2, R3, R4.
    rewrite (zero_ratio (Landslide.lowRiskPop s)) by lra.
    rewrite (zero_ratio (Landslide.mediumRiskPop s)) by lra.
    rewrite (zero_ratio (Landslide.highRiskPop s)) by lra.
    rewrite (zero_ratio (Landslide.veryHighRiskPop s)) by lra.
    ring.
  - rewrite Hscore. lra.
  - rewrite Hscore. unfold tierRatios. lra.
  - rewrite Hscore. unfold tierRatios. lra.
  - intros Htotal Hall.
    assert (tierRatios s == 1) as Hunit.
    { rewrite Hsum. apply unit_ratio; [done|].
      destruct Hsafe as [[_ ->]|[Hzero _]]; [done | lra]. }
    rewrite Hscore. unfold tierRatios in Hunit. split; lra.
Qed.

(** C5.  For every zone whose total population count is 0, in particular a
    zone that overlaps only "no data" population cells, the record of the
    landslide script has every tier count, every tier ratio and the risk
    score equal to 0, and the record of the flood script has the exposed
    count, the exposure ratio and the exposure density equal to 0; both
    records are computed without a division by zero. *)
Theorem zero_population_zone population riskMap floodMask geometry :
  nonNegative population geometry →
  (∃ s, Landslide.zoneStatistics population riskMap geometry = Some s
     ∧ ((∀ p, p ∈ geometry → population p = None) → Landslide.totalPop s == 0)
     ∧ (Landslide.totalPop s == 0 →
        Landslide.lowRiskPop s == 0 ∧ Landslide.mediumRiskPop s == 0
        ∧ Landslide.highRiskPop s == 0 ∧ Landslide.veryHighRiskPop s == 0
        ∧ Landslide.lowRiskRatio s == 0 ∧ Landslide.mediumRiskRatio s == 0
        ∧ Landslide.highRiskRatio s == 0 ∧ Landslide.veryHighRiskRatio s == 0
        ∧ Landslide.riskScore s == 0))
  ∧ (∃ s, Flood.zoneStatistics population
            (Flood.calculateExposedPopulation population floodMask) floodMask geometry
          = Some s
     ∧ ((∀ p, p ∈ geometry → population p = None) → Flood.totalPop s == 0)
     ∧ (Flood.totalPop s == 0 →
        Flood.exposedPopCount s == 0 ∧ Flood.exposureRatio s == 0
        ∧ Flood.exposureDensity s == 0)).
Proof.
  intros Hpos. split.
  - destruct (zone_record population riskMap geometry Hpos)
      as (s & safePop & Hs & HT & H1 & H2 & H3 & H4 & B1 & B2 & B3 & B4 & _ & _
          & _ & R1 & R2 & R3 & R4 & Hscore).
    exists s. split; [done|]. split.
    + intros Hnodata. rewrite HT, (pixelSum_no_data _ _ Hnodata). reflexivity.
    + intros Hzero.
      assert (Landslide.lowRiskRatio s == 0) as Z1 by (rewrite R1; apply zero_ratio; lra).
      assert (Landslide.mediumRiskRatio s == 0) as Z2
          by (rewrite R2; apply zero_ratio; lra).
      assert (Landslide.highRiskRatio s == 0) as Z3 by (rewrite R3; apply zero_ratio; lra).
      assert (Landslide.veryHighRiskRatio s == 0) as Z4
          by (rewrite R4; apply zero_ratio; lra).
      split_and!; try lra. rewrite Hscore. lra.
  - destruct (flood_zoneStatistics population
                (Flood.calculateExposedPopulation population floodMask) floodMask geometry)
      as (s & Hs & HT & HE & Hr & Hd).
    exists s. split; [done|]. split.
    + intros Hnodata. rewrite HT, (pixelSum_no_data _ _ Hnodata). reflexivity.
    + intros Hzero.
      destruct (masked_sum_le population floodMask geometry Hpos) as [Hlo Hhi].
      assert (Flood.exposedPopCount s == 0) as Hexposed.
      { pose proof (round_nonneg _ Hlo) as Hn. pose proof (round_mono _ _ Hhi) as Hm.
        unfold Flood.calculateExposedPopulation in HE.
        rewrite <- HE, <- HT in *. lra. }
      split_and!; [done | |].
      * rewrite Hr. unfold Algorithms.If.
        destruct (Number.gt (Flood.totalPop s) 0) eqn:E; [|reflexivity].
        apply gt_true in E. lra.
      * rewrite Hd. unfold Algorithms.If.
        destruct (Number.gt (Flood.floodAreaKm2 s) 0); [|reflexivity].
        by apply zero_ratio.
Qed.

End ScoreAndZeroPopulation.

(** ** The zone statistics on sample zones *)

Section SampleZones.

Local Open Scope Q_scope.

Lemma constant_nonNegative (v : Q) geometry :
  0 <= v → nonNegative (Image.constant v) geometry.
Proof. intros Hv p w _ [= <-]. exact Hv. Qed.

Lemma riskByColumn_row4_inTier :
  populatedInTier Sample.sparse Sample.riskByColumn Sample.row4.
Proof.
  intros p v Hp _ _. unfold inTier, Sample.riskByColumn.
  eexists. split; [reflexivity|].
  unfold Sample.row4 in Hp. rewrite !elem_of_cons in Hp.
  destruct Hp as [->|[->|[->|[->|Hp]]]]; simpl; try lia.
  by apply elem_of_nil in Hp.
Qed.

(** C3, counterexample.  Four cells of 0.6 people, one in each tier: every
    populated cell has a tier, each tier count rounds to 1 and the total
    2.4 rounds to 2, so the tier counts add up to 4, more than the total
    count. *)
Lemma tier_sum_exceeds_total :
  nonNegative Sample.sparse Sample.row4
  ∧ populatedInTier Sample.sparse Sample.riskByColumn Sample.row4
  ∧ ∃ s, Landslide.zoneStatistics Sample.sparse Sample.riskByColumn Sample.row4 = Some s
      ∧ Landslide.totalPop s = 2
      ∧ Landslide.lowRiskPop s = 1 ∧ Landslide.mediumRiskPop s = 1
      ∧ Landslide.highRiskPop s = 1 ∧ Landslide.veryHighRiskPop s = 1
      ∧ ¬ tierPopulations s <= Landslide.totalPop s
      ∧ ¬ tierPopulations s == Landslide.totalPop s.
Proof.
  split; [by apply constant_nonNegative|]. split; [apply riskByColumn_row4_inTier|].
  eexists. split; [vm_compute; reflexivity|].
  split_and!; try reflexivity; by vm_compute.
Qed.

(** The drift bound on the four cells of 0.6 people. *)
Lemma tier_sum_invariant_witness :
  ∃ s, Landslide.zoneStatistics Sample.sparse Sample.riskByColumn Sample.row4 = Some s
    ∧ tierPopulations s <= Landslide.totalPop s + 2.
Proof.
  destruct (tier_sum_invariant Sample.sparse Sample.riskByColumn Sample.row4)
    as (s & Hs & _ & _ & _ & _ & _ & _ & _ & Hdrift & _).
  - intros p v _ [= <-]. by vm_compute.
  - exists s. by split.
Defined.

(** C6, counterexample.  On the same zone every tier ratio is 1/2, so the
    tier ratios add up to 2. *)
Lemma tier_ratios_exceed_one :
  nonNegative Sample.sparse Sample.row4
  ∧ ∃ s, Landslide.zoneStatistics Sample.sparse Sample.riskByColumn Sample.row4 = Some s
      ∧ Landslide.lowRiskRatio s == 1 # 2 ∧ Landslide.mediumRiskRatio s == 1 # 2
      ∧ Landslide.highRiskRatio s == 1 # 2 ∧ Landslide.veryHighRiskRatio s == 1 # 2
      ∧ ¬ tierRatios s <= 1.
Proof.
  split; [by apply constant_nonNegative|].
  eexists. split; [vm_compute; reflexivity|].
  split_and!; try reflexivity; by vm_compute.
Qed.

(** The bound 2 on the sum of the tier ratios, on the same zone. *)
Lemma tier_ratio_bounds_witness :
  ∃ s, Landslide.zoneStatistics Sample.sparse Sample.riskByColumn Sample.row4 = Some s
    ∧ tierRatios s <= 2.
Proof.
  destruct (tier_ratio_bounds Sample.sparse Sample.riskByColumn Sample.row4)
    as (s & Hs & _ & _ & _ & _ & Htwo & _).
  - intros p v _ [= <-]. by vm_compute.
  - exists s. by split.
Defined.

(** C4, counterexample.  One cell of 100 people with no hazard value: the
    total count is 100 and the score is 0, below the smallest weight. *)
Lemma risk_score_below_weights :
  nonNegative Sample.dense [Sample.pixel0]
  ∧ ∃ s, Landslide.zoneStatistics Sample.dense Image.masked [Sample.pixel0] = Some s
      ∧ Landslide.totalPop s = 100
      ∧ Landslide.riskScore s == 0
      ∧ ¬ 1 <= Landslide.riskScore s.
Proof.
  split; [by apply constant_nonNegative|].
  eexists. split; [vm_compute; reflexivity|].
  split_and!; try reflexivity; by vm_compute.
Qed.

(** On the four cells of 0.6 people the score is 5, above the largest
    weight: the tier counts add up to twice the total count. *)
Lemma risk_score_above_weights :
  ∃ s, Landslide.zoneStatistics Sample.sparse Sample.riskByColumn Sample.row4 = Some s
    ∧ Landslide.riskScore s == 5.
Proof. eexists. split; [vm_compute; reflexivity|]. reflexivity. Qed.

(** The score of a zone of four cells of 100 people, one in each tier. *)
Lemma risk_score_range_witness :
  ∃ s, Landslide.zoneStatistics Sample.dense Sample.riskByColumn Sample.row4 = Some s
    ∧ 0 <= Landslide.riskScore s
    ∧ Landslide.riskScore s <= tierRatios s * 4.
Proof.
  destruct (risk_score_range Sample.dense Sample.riskByColumn Sample.row4)
    as (s & Hs & _ & _ & _ & _ & Hlo & _ & Hhi & _).
  - intros p v _ [= <-]. by vm_compute.
  - exists s. by split_and!.
Defined.

(** A zone over "no data" population cells only has total count 0. *)
Lemma zero_population_zone_witness :
  ∃ s, Landslide.zoneStatistics Image.masked Sample.riskByColumn Sample.row4 = Some s
    ∧ Landslide.totalPop s == 0.
Proof.
  destruct (zero_population_zone Image.masked Sample.riskByColumn Image.masked Sample.row4)
    as [(s & Hs & Hzero & _) _].
  - intros p v _ [=].
  - exists s. split; [done|]. by apply Hzero.
Defined.

(** C1.  At a pixel where the earthquake trigger is valid (5) and the
    precipitation trigger is not (0, out of range, or no data), the fused
    hazard has no data; it is not the value of the valid trigger. *)
Theorem fusion_masks_single_valid_trigger :
  validTrigger (Image.constant 5%Z) Sample.pixel0
  ∧ ¬ validTrigger (Image.constant 0%Z) Sample.pixel0
  ∧ ¬ validTrigger Image.masked Sample.pixel0
  ∧ Landslide.combineLandslideHazards (Image.constant 5%Z) (Image.constant 0%Z)
      Sample.pixel0 = None
  ∧ Landslide.combineLandslideHazards (Image.constant 5%Z) Image.masked
      Sample.pixel0 = None.
Proof.
  split_and!; try reflexivity.
  - exists 5%Z. split; [reflexivity | lia].
  - intros [v [[= <-] Hv]]. lia.
  - intros [v [[=] _]].
Qed.

(** C7, counterexample.  A cell of value 2, a value of the 4-tier scale, is
    reclassified to 1. *)
Lemma reclassifyRisk_changes_tier_2 :
  (1 <= 2 <= 4)%Z
  ∧ Landslide.reclassifyRisk (Image.constant 2%Z) Sample.pixel0 = Some 1%Z
  ∧ Landslide.reclassifyRisk (Image.constant 2%Z) Sample.pixel0
    ≠ Image.constant 2%Z Sample.pixel0.
Proof. split_and!; [lia | lia | reflexivity | discriminate]. Qed.

(** C7 (as amended).  On a cell whose value [v] is in the 4-tier scale 1..4
    the reclassification returns the tier of the width-2 bin of [v],
    [(v + 1) / 2] (1 and 2 go to 1, 3 and 4 go to 2); the cell is returned
    unchanged exactly when its value is 1. *)
Theorem reclassifyRisk_four_tier (image : Image.t Z) p (v : Z) :
  image p = Some v → (1 <= v <= 4)%Z →
  Landslide.reclassifyRisk image p = Some ((v + 1) / 2)%Z
  ∧ (Landslide.reclassifyRisk image p = image p ↔ v = 1%Z).
Proof.
  intros Hv Hr. rewrite reclassifyRisk_pixel, Hv. cbn [fmap option_fmap option_map].
  assert (v = 1 ∨ v = 2 ∨ v = 3 ∨ v = 4)%Z as Hc by lia.
  destruct Hc as [->|[->|[->| ->]]]; (split; [reflexivity|]);
    (split; [intros [=] | intros [=]]); reflexivity.
Qed.

(** A cell of value 3 is reclassified to 2. *)
Lemma reclassifyRisk_four_tier_witness :
  Landslide.reclassifyRisk (Image.constant 3%Z) Sample.pixel0 = Some 2%Z.
Proof.
  apply (reclassifyRisk_four_tier (Image.constant 3%Z) Sample.pixel0 3).
  - reflexivity.
  - lia.
Defined.

End SampleZones.

(** ** The feature collection of zone records *)

Section ZoneRecords.

Lemma set_geometry feature dict :
  Feature.geometry (Feature.set feature dict) = Feature.geometry feature.
Proof. reflexivity. Qed.

Lemma set_id feature dict : Feature.id (Feature.set feature dict) = Feature.id feature.
Proof. reflexivity. Qed.

Lemma set_get_other feature (dict : list (string * Value)) key :
  key ∉ dict.*1 → Feature.get (Feature.set feature dict) key = Feature.get feature key.
Proof.
  intros H. unfold Feature.get, Feature.set. cbn [Feature.properties].
  apply lookup_union_r. by apply not_elem_of_list_to_map_1.
Qed.

Lemma set_get_here feature (dict : list (string * Value)) key value :
  (list_to_map dict : gmap string Value) !! key = Some value →
  Feature.get (Feature.set feature dict) key = Some value.
Proof.
  intros H. unfold Feature.get, Feature.set. cbn [Feature.properties].
  by apply lookup_union_Some_l.
Qed.

Lemma number_set_here feature (dict : list (string * Value)) key q :
  (list_to_map dict : gmap string Value) !! key = Some (VNum q) →
  Feature.number (Feature.set feature dict) key = q.
Proof.
  intros H. unfold Feature.number. by rewrite (set_get_here _ _ _ _ H).
Qed.

Lemma landslide_keys s : (Landslide.toProperties s).*1 = landslideKeys.
Proof. reflexivity. Qed.

Lemma flood_keys s : (Flood.toProperties s).*1 = floodKeys.
Proof. reflexivity. Qed.

Lemma key_is_number (dict : list (string * Value)) key :
  Forall (λ kv, ∃ q, kv.2 = VNum q) dict → key ∈ dict.*1 →
  ∃ q, (list_to_map dict : gmap string Value) !! key = Some (VNum q).
Proof.
  induction dict as [|[k v] dict IH]; intros Hnum Hin.
  - by apply elem_of_nil in Hin.
  - apply Forall_cons in Hnum as [[q Hq] Hnum]. simpl in Hq. subst v.
    cbn [list_to_map foldr uncurry]. destruct (decide (k = key)) as [->|Hne].
    + exists q. apply lookup_insert_eq.
    + rewrite lookup_insert_ne by done. apply IH; [done|].
      cbn in Hin. apply elem_of_cons in Hin as [Heq|Hin]; [by subst | done].
Qed.

Lemma mapM_app_Some {A B : Type} (f : A → option B) l1 l2 k1 k2 :
  mapM f l1 = Some k1 → mapM f l2 = Some k2 → mapM f (l1 ++ l2) = Some (k1 ++ k2).
Proof.
  rewrite !mapM_Some. apply Forall2_app.
Qed.

Lemma landslide_setStatistics feature stats s :
  Landslide.statistics stats = Some s →
  Landslide.setStatistics feature stats
  = Some (Feature.set feature (Landslide.toProperties s)).
Proof. unfold Landslide.setStatistics. by intros ->. Qed.

Lemma flood_setStatistics feature stats s :
  Flood.statistics stats = Some s →
  Flood.setStatistics feature stats = Some (Feature.set feature (Flood.toProperties s)).
Proof. unfold Flood.setStatistics. by intros ->. Qed.

(** The landslide script computes a record for every zone, never dividing
    by zero: the zone's feature with the zone's statistics set on it. *)
Lemma landslide_records boundaries population riskMap :
  ∃ out, Landslide.calculateLLGStatistics boundaries population riskMap = Some out
    ∧ Forall2 (λ feature record,
                 ∃ s, Landslide.zoneStatistics population riskMap (Feature.pixels feature)
                      = Some s
                   ∧ record = Feature.set feature (Landslide.toProperties s))
        boundaries out.
Proof.
  unfold Landslide.calculateLLGStatistics. cbv zeta.
  induction boundaries as [|feature rest [out [Hout Hall]]].
  - exists []. by split.
  - destruct (landslide_zoneStatistics population riskMap (Feature.pixels feature))
      as (s & Hs & _).
    exists (Feature.set feature (Landslide.toProperties s) :: out). split.
    + cbn [mapM]. rewrite (landslide_setStatistics _ _ _ Hs), Hout. done.
    + constructor; [|done]. by exists s.
Qed.

Lemma flood_records boundaries population exposedPop floodMask :
  ∃ out,
    Flood.calculateLLGStatistics boundaries population exposedPop floodMask = Some out
    ∧ Forall2 (λ feature record,
                 ∃ s, Flood.zoneStatistics population exposedPop floodMask
                        (Feature.pixels feature) = Some s
                   ∧ record = Feature.set feature (Flood.toProperties s))
        boundaries out.
Proof.
  unfold Flood.calculateLLGStatistics. cbv zeta.
  induction boundaries as [|feature rest [out [Hout Hall]]].
  - exists []. by split.
  - destruct (flood_zoneStatistics population exposedPop floodMask (Feature.pixels feature))
      as (s & Hs & _).
    exists (Feature.set feature (Flood.toProperties s) :: out). split.
    + cbn [mapM]. rewrite (flood_setStatistics _ _ _ Hs), Hout. done.
    + constructor; [|done]. by exists s.
Qed.

(** C10.  Both scripts return, for the zones in their order, the zone's
    feature with only the statistic properties set: the geometry, the
    identifier, the parent-province attribute [ADM1_EN] and every property
    that is not one of the statistic names are those of the input feature,
    and every statistic name holds a number.  The input collection is a
    value and is left as it is. *)
Theorem statistics_frame boundaries population riskMap exposedPop floodMask :
  (∃ out, Landslide.calculateLLGStatistics boundaries population riskMap = Some out
     ∧ Forall2 (λ feature record,
                  Feature.geometry record = Feature.geometry feature
                  ∧ Feature.id record = Feature.id feature
                  ∧ Feature.get record "ADM1_EN" = Feature.get feature "ADM1_EN"
                  ∧ (∀ key, key ∉ landslideKeys →
                            Feature.get record key = Feature.get feature key)
                  ∧ (∀ key, key ∈ landslideKeys →
                            ∃ q, Feature.get record key = Some (VNum q)))
         boundaries out)
  ∧ (∃ out,
       Flood.calculateLLGStatistics boundaries population exposedPop floodMask = Some out
       ∧ Forall2 (λ feature record,
                    Feature.geometry record = Feature.geometry feature
                    ∧ Feature.id record = Feature.id feature
                    ∧ Feature.get record "ADM1_EN" = Feature.get feature "ADM1_EN"
                    ∧ (∀ key, key ∉ floodKeys →
                              Feature.get record key = Feature.get feature key)
                    ∧ (∀ key, key ∈ floodKeys →
                              ∃ q, Feature.get record key = Some (VNum q)))
           boundaries out).
Proof.
  split.
  - destruct (landslide_records boundaries population riskMap) as (out & Hout & Hall).
    exists out. split; [done|].
    eapply Forall2_impl; [exact Hall|]. intros feature record (s & _ & ->).
    split_and!; try reflexivity.
    + apply set_get_other. rewrite landslide_keys. unfold landslideKeys.
      rewrite !not_elem_of_cons. split_and!; try done. apply not_elem_of_nil.
    + intros key Hkey. apply set_get_other. by rewrite landslide_keys.
    + intros key Hkey.
      destruct (key_is_number (Landslide.toProperties s) key) as [q Hq].
      * unfold Landslide.toProperties. repeat constructor; cbn; eauto.
      * by rewrite landslide_keys.
      * exists q. by apply set_get_here.
  - destruct (flood_records boundaries population exposedPop floodMask)
      as (out & Hout & Hall).
    exists out. split; [done|].
    eapply Forall2_impl; [exact Hall|]. intros feature record (s & _ & ->).
    split_and!; try reflexivity.
    + apply set_get_other. rewrite flood_keys. unfold floodKeys.
      rewrite !not_elem_of_cons. split_and!; try done. apply not_elem_of_nil.
    + intros key Hkey. apply set_get_other. by rewrite flood_keys.
    + intros key Hkey.
      destruct (key_is_number (Flood.toProperties s) key) as [q Hq].
      * unfold Flood.toProperties. repeat constructor; cbn; eauto.
      * by rewrite flood_keys.
      * exists q. by apply set_get_here.
Qed.

End ZoneRecords.

(** ** Bands without a reduced value *)

Section MissingValues.

Local Open Scope Q_scope.

(** A band without a value and a band of value 0 are read alike. *)
Lemma nullProtected_missing (stats : gmap string Q) band key :
  nullProtected (delete band stats !! key) = nullProtected (<[band := 0]> stats !! key).
Proof.
  destruct (decide (band = key)) as [->|Hne].
  - by rewrite lookup_delete_eq, lookup_insert_eq.
  - by rewrite lookup_delete_ne, lookup_insert_ne.
Qed.

Lemma landslide_statistics_missing (stats : gmap string Q) band :
  Landslide.statistics (delete band stats) = Landslide.statistics (<[band := 0]> stats).
Proof. unfold Landslide.statistics. by rewrite !nullProtected_missing. Qed.

Lemma flood_statistics_missing (stats : gmap string Q) band :
  Flood.statistics (delete band stats) = Flood.statistics (<[band := 0]> stats).
Proof. unfold Flood.statistics. by rewrite !nullProtected_missing. Qed.

(** C9, counterexample.  When the reducer returns no value for any band,
    the record is the zone's feature with every statistic set to 0 and no
    other property: the very record of a zone all of whose population cells
    are "no data". *)
Lemma missing_values_not_flagged :
  Landslide.setStatistics Sample.zoneA1 ∅
  = Some (Feature.set Sample.zoneA1
            (Landslide.toProperties
               {| Landslide.totalPop := 0; Landslide.lowRiskPop := 0;
                  Landslide.mediumRiskPop := 0; Landslide.highRiskPop := 0;
                  Landslide.veryHighRiskPop := 0; Landslide.lowRiskRatio := 0;
                  Landslide.mediumRiskRatio := 0; Landslide.highRiskRatio := 0;
                  Landslide.veryHighRiskRatio := 0; Landslide.riskScore := 0 |}))
  ∧ Landslide.calculateLLGStatistics [Sample.zoneA1] Image.masked Sample.riskByColumn
    = (r ← Landslide.setStatistics Sample.zoneA1 ∅; Some [r]).
Proof. split; vm_compute; reflexivity. Qed.

(** C9 (as amended).  Neither script sets a failure or approximation flag:
    a band for which the reducer returned no value is read as the value 0,
    whatever the reason, so the record of the zone is the record it has
    when that band sums to 0.  Every zone's record is computed from that
    zone alone: in a run over several zones the records of the other zones
    are those of the runs without that zone. *)
Theorem missing_value_read_as_zero feature (stats : gmap string Q) band
    before after population riskMap exposedPop floodMask :
  Landslide.setStatistics feature (delete band stats)
  = Landslide.setStatistics feature (<[band := 0]> stats)
  ∧ Flood.setStatistics feature (delete band stats)
    = Flood.setStatistics feature (<[band := 0]> stats)
  ∧ (∃ records1 record records2,
       Landslide.calculateLLGStatistics (before ++ feature :: after) population riskMap
       = Some (records1 ++ record :: records2)
       ∧ Landslide.calculateLLGStatistics before population riskMap = Some records1
       ∧ Landslide.calculateLLGStatistics [feature] population riskMap = Some [record]
       ∧ Landslide.calculateLLGStatistics after population riskMap = Some records2)
  ∧ (∃ records1 record records2,
       Flood.calculateLLGStatistics (before ++ feature :: after) population exposedPop
         floodMask
       = Some (records1 ++ record :: records2)
       ∧ Flood.calculateLLGStatistics before population exposedPop floodMask
         = Some records1
       ∧ Flood.calculateLLGStatistics [feature] population exposedPop floodMask
         = Some [record]
       ∧ Flood.calculateLLGStatistics after population exposedPop floodMask
         = Some records2).
Proof.
  split_and!.
  - unfold Landslide.setStatistics. by rewrite landslide_statistics_missing.
  - unfold Flood.setStatistics. by rewrite flood_statistics_missing.
  - destruct (landslide_records before population riskMap) as (o1 & H1 & _).
    destruct (landslide_records [feature] population riskMap) as (o & H & Hall).
    destruct (landslide_records after population riskMap) as (o2 & H2 & _).
    apply Forall2_length in Hall. destruct o as [|r [|]]; try discriminate.
    exists o1, r, o2. split_and!; try done.
    change (feature :: after) with ([feature] ++ after).
    change (r :: o2) with ([r] ++ o2).
    unfold Landslide.calculateLLGStatistics in *. cbv zeta in *.
    by repeat apply mapM_app_Some.
  - destruct (flood_records before population exposedPop floodMask) as (o1 & H1 & _).
    destruct (flood_records [feature] population exposedPop floodMask) as (o & H & Hall).
    destruct (flood_records after population exposedPop floodMask) as (o2 & H2 & _).
    apply Forall2_length in Hall. destruct o as [|r [|]]; try discriminate.
    exists o1, r, o2. split_and!; try done.
    change (feature :: after) with ([feature] ++ after).
    change (r :: o2) with ([r] ++ o2).
    unfold Flood.calculateLLGStatistics in *. cbv zeta in *.
    by repeat apply mapM_app_Some.
Qed.

End MissingValues.

(** ** Aggregation to provinces *)

Section Provinces.

Local Open Scope Q_scope.

Lemma elem_of_insert_sorted key (feature x : Feature.t) sorted :
  x ∈ FeatureCollection.insert_sorted key feature sorted ↔ x = feature ∨ x ∈ sorted.
Proof.
  induction sorted as [|g rest IH]; simpl.
  - rewrite list_elem_of_singleton, elem_of_nil. tauto.
  - destruct (Value_leb (Feature.get feature key) (Feature.get g key)).
    + by rewrite elem_of_cons.
    + rewrite !elem_of_cons, IH. tauto.
Qed.

Lemma elem_of_sort key (x : Feature.t) collection :
  x ∈ FeatureCollection.sort key collection ↔ x ∈ collection.
Proof.
  unfold FeatureCollection.sort. induction collection as [|f rest IH]; simpl.
  - done.
  - by rewrite elem_of_insert_sorted, IH, elem_of_cons.
Qed.

Lemma elem_of_distinct (x : Value) l : x ∈ distinct l ↔ x ∈ l.
Proof.
  induction l as [|y l IH]; simpl; [done|].
  rewrite !elem_of_cons, list_elem_of_filter, IH.
  destruct (decide (x = y)) as [->|Hne]; [tauto|]. tauto.
Qed.

Lemma mapM_pure {A B : Type} (f : A → option B) (g : A → B) l :
  (∀ x, f x = Some (g x)) → mapM f l = Some (g <$> l).
Proof.
  intros H. apply mapM_Some. induction l; constructor; auto.
Qed.

(** A province name comes from a zone, so the province has a member. *)
Lemma province_has_member name llgStats :
  name ∈ distinct (FeatureCollection.aggregate_array "ADM1_EN" llgStats) →
  FeatureCollection.filter_eq "ADM1_EN" name llgStats ≠ [].
Proof.
  intros H. rewrite elem_of_distinct in H.
  unfold FeatureCollection.aggregate_array in H.
  rewrite list_elem_of_omap in H. destruct H as (zone & Hzone & Hname).
  intros Hnil. unfold FeatureCollection.filter_eq in Hnil.
  by apply (filter_nil_not_elem_of _ _ zone Hnil Hname).
Qed.

Lemma size_positive (collection : FeatureCollection.t) :
  collection ≠ [] → Number.gt (FeatureCollection.size collection) 0 = true.
Proof.
  intros H. apply gt_true. unfold FeatureCollection.size.
  change 0 with (inject_Z 0). rewrite <- Zlt_Qlt.
  destruct collection; [done | simpl; lia].
Qed.

Lemma guarded_ratio x y :
  (0 < y → Algorithms.If (Number.gt y 0) (x / y) 0 = x / y)
  ∧ (y <= 0 → Algorithms.If (Number.gt y 0) (x / y) 0 = 0).
Proof.
  unfold Algorithms.If. destruct (Number.gt y 0) eqn:E; split; intros H; try done.
  - apply gt_true in E. lra.
  - apply gt_false in E. lra.
Qed.

(** C2.  In either script every parent name present among the zones has a
    province of that name in the aggregated output, and every province of
    the output is the province of a name present among the zones, with at
    least one member zone.  Its absolute counts (total population, exposed population and
    exposed area in the flood script; total population and the four tier
    populations in the landslide script) are the sums of the member zones'
    counts.  Its exposure ratio and exposure density are the quotients of
    the pooled sums (0 when the pooled denominator is not positive).  Its
    average risk score is the sum of the member zones' risk scores divided
    by the number of member zones. *)
Theorem province_aggregation (llgStats : FeatureCollection.t) :
  (∃ out, Flood.aggregateToProvinceLevel llgStats = Some out
     ∧ (∀ zone name, zone ∈ llgStats → Feature.get zone "ADM1_EN" = Some name →
          ∃ province, province ∈ out ∧ Feature.get province "Province" = Some name)
     ∧ ∀ province, province ∈ out →
         ∃ name ratio density,
           let members := FeatureCollection.filter_eq "ADM1_EN" name llgStats in
           let total := FeatureCollection.aggregate_sum "LLG_Population" members in
           let exposed := FeatureCollection.aggregate_sum "Exposed_Population" members in
           let area := FeatureCollection.aggregate_sum "Flood_Area_km2" members in
           members ≠ []
           ∧ Feature.get province "Province" = Some name
           ∧ Feature.get province "Total_Population" = Some (VNum total)
           ∧ Feature.get province "Exposed_Population" = Some (VNum exposed)
           ∧ Feature.get province "Flood_Area_km2" = Some (VNum area)
           ∧ Feature.get province "Exposure_Ratio" = Some (VNum ratio)
           ∧ Feature.get province "Exposure_Density" = Some (VNum density)
           ∧ (0 < total → ratio = exposed / total) ∧ (total <= 0 → ratio = 0)
           ∧ (0 < area → density = exposed / area) ∧ (area <= 0 → density = 0))
  ∧ (∃ out, Landslide.aggregateToProvinceLevel llgStats = Some out
       ∧ (∀ zone name, zone ∈ llgStats → Feature.get zone "ADM1_EN" = Some name →
            ∃ province, province ∈ out ∧ Feature.get province "Province" = Some name)
       ∧ ∀ province, province ∈ out →
           ∃ name,
             let members := FeatureCollection.filter_eq "ADM1_EN" name llgStats in
             members ≠ []
             ∧ Feature.get province "Province" = Some name
             ∧ Feature.get province "Total_Population"
               = Some (VNum (FeatureCollection.aggregate_sum "LLG_Population" members))
             ∧ Feature.get province "Low_Risk_Population"
               = Some (VNum (FeatureCollection.aggregate_sum "Low_Risk_Population"
                               members))
             ∧ Feature.get province "Medium_Risk_Population"
               = Some (VNum (FeatureCollection.aggregate_sum "Medium_Risk_Population"
                               members))
             ∧ Feature.get province "High_Risk_Population"
               = Some (VNum (FeatureCollection.aggregate_sum "High_Risk_Population"
                               members))
             ∧ Feature.get province "Very_High_Risk_Population"
               = Some (VNum (FeatureCollection.aggregate_sum "Very_High_Risk_Population"
                               members))
             ∧ Feature.get province "Average_Risk_Score"
               = Some (VNum (FeatureCollection.aggregate_sum "Risk_Score" members
                             / inject_Z (Z.of_nat (length members))))).
Proof.
  split.
  - unfold Flood.aggregateToProvinceLevel. cbv zeta.
    erewrite mapM_pure
      by (intros name; rewrite !guarded_divide; cbn [mbind option_bind]; reflexivity).
    cbn [mbind option_bind].
    eexists. split; [reflexivity|]. split.
    { intros zone name Hzone Hname. eexists. split.
      - apply elem_of_sort. apply list_elem_of_fmap_2. apply elem_of_distinct.
        apply list_elem_of_omap. by exists zone.
      - reflexivity. }
    intros province Hin. apply elem_of_sort, list_elem_of_fmap in Hin as (name & -> & Hname).
    exists name. do 2 eexists. cbv zeta.
    split; [by apply province_has_member|].
    split_and!; try reflexivity; apply guarded_ratio.
  - unfold Landslide.aggregateToProvinceLevel. cbv zeta.
    erewrite mapM_pure
      by (intros name; rewrite !guarded_divide; cbn [mbind option_bind]; reflexivity).
    cbn [mbind option_bind].
    eexists. split; [reflexivity|]. split.
    { intros zone name Hzone Hname. eexists. split.
      - apply elem_of_sort. apply list_elem_of_fmap_2. apply elem_of_distinct.
        apply list_elem_of_omap. by exists zone.
      - reflexivity. }
    intros province Hin. apply elem_of_sort, list_elem_of_fmap in Hin as (name & -> & Hname).
    exists name. cbv zeta.
    pose proof (province_has_member _ _ Hname) as Hmember.
    split; [done|].
    split_and!; try reflexivity.
    unfold Feature.get. cbn [Feature.properties].
    unfold Algorithms.If. rewrite (size_positive _ Hmember). reflexivity.
Qed.

(** The aggregation at the three sample zones: both outputs have a province
    of name A, the parent of the zones of 100 and 50 people of whom 10 and
    50 are exposed; its total population is 150 and, in the flood script,
    its exposed population is 60 and its exposure ratio 60 / 150. *)
Lemma province_aggregation_sample :
  (∃ out province,
     Flood.aggregateToProvinceLevel Sample.threeZones = Some out
     ∧ province ∈ out
     ∧ Feature.get province "Province" = Some (VStr "A")
     ∧ Feature.number province "Total_Population" == 150
     ∧ Feature.number province "Exposed_Population" == 60
     ∧ Feature.number province "Exposure_Ratio" == 2 # 5)
  ∧ (∃ out province,
       Landslide.aggregateToProvinceLevel Sample.threeZones = Some out
       ∧ province ∈ out
       ∧ Feature.get province "Province" = Some (VStr "A")
       ∧ Feature.number province "Total_Population" == 150).
Proof.
  destruct (province_aggregation Sample.threeZones)
    as [(out & Hout & Hevery & Hsums) (out' & Hout' & Hevery' & Hsums')].
  split.
  - destruct (Hevery (Sample.floodRecord "z1" "A" 100 10) (VStr "A"))
      as (province & Hin & Hname); [apply list_elem_of_here | reflexivity |].
    destruct (Hsums province Hin)
      as (name & ratio & density & _ & Hname' & Htotal & Hexposed & _ & Hratio & _
          & Hpositive & _).
    rewrite Hname in Hname'. injection Hname' as <-.
    exists out, province. unfold Feature.number.
    rewrite Htotal, Hexposed, Hratio, Hpositive by (by vm_compute).
    split_and!; try done; by vm_compute.
  - destruct (Hevery' (Sample.floodRecord "z1" "A" 100 10) (VStr "A"))
      as (province & Hin & Hname); [apply list_elem_of_here | reflexivity |].
    destruct (Hsums' province Hin) as (name & _ & Hname' & Htotal & _).
    rewrite Hname in Hname'. injection Hname' as <-.
    exists out', province. unfold Feature.number. rewrite Htotal.
    split_and!; try done; by vm_compute.
Defined.

(** Every parent name present among the zones has its province in the
    output of the flood script. *)
Lemma province_of_every_zone (llgStats : FeatureCollection.t) zone name :
  zone ∈ llgStats → Feature.get zone "ADM1_EN" = Some name →
  ∃ out province,
    Flood.aggregateToProvinceLevel llgStats = Some out
    ∧ province ∈ out ∧ Feature.get province "Province" = Some name.
Proof.
  intros Hzone Hname.
  unfold Flood.aggregateToProvinceLevel. cbv zeta.
  erewrite mapM_pure
    by (intros x; rewrite !guarded_divide; cbn [mbind option_bind]; reflexivity).
  cbn [mbind option_bind]. do 2 eexists. split; [reflexivity|]. split.
  - apply elem_of_sort. apply list_elem_of_fmap_2. apply elem_of_distinct.
    apply list_elem_of_omap. by exists zone.
  - reflexivity.
Qed.

End Provinces.

(** ** National totals *)

Section National.

Local Open Scope Q_scope.

Variables (population : Image.t Q) (riskMap : Image.t Z).

Lemma pixelSum_concat (image : Image.t Q) (geometries : list Geometry) :
  pixelSum image (concat geometries) == Qsum (pixelSum image <$> geometries).
Proof.
  induction geometries as [|g rest IH].
  - reflexivity.
  - cbn [concat fmap list_fmap Qsum]. rewrite pixelSum_app, IH. reflexivity.
Qed.

(** The national totals are the rounded sums of the tier bands over the
    region. *)
Lemma national_totals_region region :
  Landslide.low (Landslide.calculateNationalRiskTotals population riskMap region)
  = Number.round (pixelSum (tierBand population riskMap 1) region)
  ∧ Landslide.medium (Landslide.calculateNationalRiskTotals population riskMap region)
    = Number.round (pixelSum (tierBand population riskMap 2) region)
  ∧ Landslide.high (Landslide.calculateNationalRiskTotals population riskMap region)
    = Number.round (pixelSum (tierBand population riskMap 3) region)
  ∧ Landslide.veryHigh (Landslide.calculateNationalRiskTotals population riskMap region)
    = Number.round (pixelSum (tierBand population riskMap 4) region).
Proof.
  unfold Landslide.calculateNationalRiskTotals. cbv zeta.
  cbn [Landslide.low Landslide.medium Landslide.high Landslide.veryHigh].
  rewrite lookup_reduceRegion_here.
  rewrite (lookup_reduceRegion_ne "low" "medium"), lookup_reduceRegion_here by done.
  rewrite (lookup_reduceRegion_ne "low" "high"), (lookup_reduceRegion_ne "medium" "high"),
    lookup_reduceRegion_here by done.
  rewrite (lookup_reduceRegion_ne "low" "very_high"),
    (lookup_reduceRegion_ne "medium" "very_high"),
    (lookup_reduceRegion_ne "high" "very_high"), lookup_reduceRegion_here by done.
  split_and!; apply round_comp, nullProtected_sum.
Qed.

Lemma wholeNumbers_app g1 g2 :
  wholeNumbers population (g1 ++ g2) →
  wholeNumbers population g1 ∧ wholeNumbers population g2.
Proof.
  intros H. split; intros p v Hp; apply H; apply elem_of_app; [by left | by right].
Qed.

(** The direct sum of a tier count over the zone records is the sum of the
    zones' rounded tier sums. *)
Lemma aggregate_tier boundaries out :
  Forall2 (λ feature record,
             ∃ s, Landslide.zoneStatistics population riskMap (Feature.pixels feature)
                  = Some s
               ∧ record = Feature.set feature (Landslide.toProperties s))
    boundaries out →
  let rounded k :=
    Qsum ((λ zone, Number.round
                     (pixelSum (tierBand population riskMap k) (Feature.pixels zone)))
            <$> boundaries) in
  FeatureCollection.aggregate_sum "Low_Risk_Population" out = rounded 1%Z
  ∧ FeatureCollection.aggregate_sum "Medium_Risk_Population" out = rounded 2%Z
  ∧ FeatureCollection.aggregate_sum "High_Risk_Population" out = rounded 3%Z
  ∧ FeatureCollection.aggregate_sum "Very_High_Risk_Population" out = rounded 4%Z.
Proof.
  unfold FeatureCollection.aggregate_sum.
  induction 1 as [|feature record rest out' (s & Hs & ->) Hall IH]; cbv zeta.
  - by split_and!.
  - destruct IH as (I1 & I2 & I3 & I4).
    destruct (landslide_zoneStatistics population riskMap (Feature.pixels feature))
      as (s' & Hs' & _ & H1 & H2 & H3 & H4 & _).
    assert (s' = s) as -> by congruence.
    cbn [fmap list_fmap Qsum]. rewrite I1, I2, I3, I4, <- H1, <- H2, <- H3, <- H4.
    rewrite (number_set_here _ _ "Low_Risk_Population" (Landslide.lowRiskPop s))
      by reflexivity.
    rewrite (number_set_here _ _ "Medium_Risk_Population" (Landslide.mediumRiskPop s))
      by reflexivity.
    rewrite (number_set_here _ _ "High_Risk_Population" (Landslide.highRiskPop s))
      by reflexivity.
    rewrite (number_set_here _ _ "Very_High_Risk_Population"
               (Landslide.veryHighRiskPop s)) by reflexivity.
    by split_and!.
Qed.

Lemma rounded_sum_whole k (geometries : list Geometry) :
  wholeNumbers population (concat geometries) →
  Qsum ((λ g, Number.round (pixelSum (tierBand population riskMap k) g)) <$> geometries)
  == pixelSum (tierBand population riskMap k) (concat geometries).
Proof.
  induction geometries as [|g rest IH]; intros Hwhole.
  - reflexivity.
  - cbn [concat] in Hwhole. apply wholeNumbers_app in Hwhole as [Hg Hrest].
    cbn [concat fmap list_fmap Qsum]. rewrite pixelSum_app, (IH Hrest).
    destruct (rounded_whole population riskMap g Hg) as [_ Hk]. rewrite (Hk k).
    reflexivity.
Qed.

End National.

Section NationalTotals.

Local Open Scope Q_scope.

Lemma zone_sums (image : Image.t Q) (boundaries : FeatureCollection.t) :
  pixelSum image (concat (Feature.pixels <$> boundaries))
  == Qsum ((λ zone, pixelSum image (Feature.pixels zone)) <$> boundaries).
Proof.
  rewrite pixelSum_concat, <- list_fmap_compose. reflexivity.
Qed.

Lemma national_tier_whole population riskMap boundaries out k key :
  wholeNumbers population (concat (Feature.pixels <$> boundaries)) →
  FeatureCollection.aggregate_sum key out
  = Qsum ((λ zone, Number.round
                     (pixelSum (tierBand population riskMap k) (Feature.pixels zone)))
            <$> boundaries) →
  Number.round (pixelSum (tierBand population riskMap k)
                  (concat (Feature.pixels <$> boundaries)))
  == FeatureCollection.aggregate_sum key out.
Proof.
  intros Hwhole ->.
  destruct (wholeNumbers_tier population riskMap _ k Hwhole) as [n Hn].
  rewrite (round_whole _ _ Hn), <- Hn.
  rewrite <- (rounded_sum_whole population riskMap k _ Hwhole), <- list_fmap_compose.
  reflexivity.
Qed.

(** C8 (as amended).  In the flood script the national exposed population
    is the direct sum of the zone records' exposed populations.  In the
    landslide script the national tier totals come from a separate reduction
    of the tier bands over the national region, rounded once: when the
    region is made of the zones' pixels, each national tier total is the
    rounding of the sum of the zones' tier sums before rounding; it equals
    the direct sum of the zone records' tier counts when every population
    cell is a whole number. *)
Theorem national_totals boundaries population riskMap (llgStats : FeatureCollection.t) :
  Flood.calculateNationalExposure llgStats
  = Qsum ((λ zone, Feature.number zone "Exposed_Population") <$> llgStats)
  ∧ ∃ out, Landslide.calculateLLGStatistics boundaries population riskMap = Some out
      ∧ let region := concat (Feature.pixels <$> boundaries) in
        let national := Landslide.calculateNationalRiskTotals population riskMap region in
        let zoneSums k :=
          Qsum ((λ zone, pixelSum (tierBand population riskMap k) (Feature.pixels zone))
                  <$> boundaries) in
        Landslide.low national = Number.round (zoneSums 1%Z)
        ∧ Landslide.medium national = Number.round (zoneSums 2%Z)
        ∧ Landslide.high national = Number.round (zoneSums 3%Z)
        ∧ Landslide.veryHigh national = Number.round (zoneSums 4%Z)
        ∧ (wholeNumbers population region →
           Landslide.low national
           == FeatureCollection.aggregate_sum "Low_Risk_Population" out
           ∧ Landslide.medium national
             == FeatureCollection.aggregate_sum "Medium_Risk_Population" out
           ∧ Landslide.high national
             == FeatureCollection.aggregate_sum "High_Risk_Population" out
           ∧ Landslide.veryHigh national
             == FeatureCollection.aggregate_sum "Very_High_Risk_Population" out).
Proof.
  split; [reflexivity|].
  destruct (landslide_records boundaries population riskMap) as (out & Hout & Hall).
  exists out. split; [done|]. cbv zeta.
  destruct (national_totals_region population riskMap
              (concat (Feature.pixels <$> boundaries))) as (N1 & N2 & N3 & N4).
  rewrite N1, N2, N3, N4.
  destruct (aggregate_tier population riskMap boundaries out Hall) as (A1 & A2 & A3 & A4).
  split_and!; try (apply round_comp, zone_sums).
  intros Hwhole. split_and!; by apply national_tier_whole.
Qed.

(** C8, counterexample.  Two zones of one cell each, 0.6 people per cell,
    both in tier 1: each zone record counts 1 person in the low tier, 2 in
    the direct sum, and the national low-tier total is the rounding of 1.2,
    that is 1. *)
Lemma national_total_differs_from_zone_sum :
  ∃ out,
    Landslide.calculateLLGStatistics [Sample.zoneA1; Sample.zoneA2] Sample.sparse
      (Image.constant 1%Z) = Some out
    ∧ FeatureCollection.aggregate_sum "Low_Risk_Population" out == 2
    ∧ Landslide.low
        (Landslide.calculateNationalRiskTotals Sample.sparse (Image.constant 1%Z)
           (concat (Feature.pixels <$> [Sample.zoneA1; Sample.zoneA2]))) = 1
    ∧ ¬ Landslide.low
          (Landslide.calculateNationalRiskTotals Sample.sparse (Image.constant 1%Z)
             (concat (Feature.pixels <$> [Sample.zoneA1; Sample.zoneA2])))
        == FeatureCollection.aggregate_sum "Low_Risk_Population" out.
Proof.
  eexists. split; [vm_compute; reflexivity|].
  split_and!; try reflexivity; by vm_compute.
Qed.

(** The scenario of three zones: province A (totals 100 and 50, exposed 10
    and 50) has total 150, exposed 60 and ratio 2/5, not the mean 11/20 of
    its zones' ratios; province B (total 200, exposed 0) has ratio 0; the
    national exposed population is 60. *)
Lemma three_zones_scenario :
  ∃ a b,
    Flood.aggregateToProvinceLevel Sample.threeZones = Some [a; b]
    ∧ Feature.get a "Province" = Some (VStr "A")
    ∧ Feature.number a "Total_Population" == 150
    ∧ Feature.number a "Exposed_Population" == 60
    ∧ Feature.number a "Exposure_Ratio" == 2 # 5
    ∧ ¬ Feature.number a "Exposure_Ratio"
        == FeatureCollection.aggregate_sum "Exposure_Ratio"
             (FeatureCollection.filter_eq "ADM1_EN" (VStr "A") Sample.threeZones) / 2
    ∧ Feature.get b "Province" = Some (VStr "B")
    ∧ Feature.number b "Exposure_Ratio" == 0
    ∧ Flood.calculateNationalExposure Sample.threeZones == 60
    ∧ FeatureCollection.aggregate_sum "LLG_Population" Sample.threeZones == 350.
Proof.
  do 2 eexists. split; [vm_compute; reflexivity|].
  split_and!; try reflexivity; by vm_compute.
Qed.

End NationalTotals.

(** ** Further properties of the hazard fusion *)

Section FusionProperties.

Implicit Types (image : Image.t Z) (p : Pixel).

Lemma validTrigger_cases image p : validTrigger image p ∨ ¬ validTrigger image p.
Proof.
  destruct (Landslide.maskValidRiskLevels image p) as [v|] eqn:E.
  - left. exists v. by apply maskValidRiskLevels_valid.
  - right. by apply maskValidRiskLevels_invalid.
Qed.

Lemma tier_range (v : Z) : (1 <= v <= 8)%Z → (1 <= (v + 1) / 2 <= 4)%Z.
Proof.
  intros H. split.
  - apply Z.div_le_lower_bound; lia.
  - apply Z.lt_succ_r. apply Z.div_lt_upper_bound; lia.
Qed.

(** X1.  Masking to the valid levels is idempotent: a masked image has only
    values of [1,8], each the value of the input, and masking it again
    changes nothing. *)
Theorem maskValidRiskLevels_idempotent image p :
  Landslide.maskValidRiskLevels (Landslide.maskValidRiskLevels image) p
  = Landslide.maskValidRiskLevels image p
  ∧ ∀ v, Landslide.maskValidRiskLevels image p = Some v →
         image p = Some v ∧ (1 <= v <= 8)%Z.
Proof.
  split.
  - rewrite (maskValidRiskLevels_pixel (Landslide.maskValidRiskLevels image)).
    destruct (Landslide.maskValidRiskLevels image p) as [v|] eqn:E; [|done].
    apply maskValidRiskLevels_valid in E as [_ Hv]. cbn [mbind option_bind].
    destruct (Z.leb_spec 1 v), (Z.leb_spec v 8); simpl; try done; lia.
  - intros v Hv. by apply maskValidRiskLevels_valid.
Qed.

(** X2.  The fusion does not depend on the order of the two triggers, and a
    fused value is a level of [1,8]: the larger of the two trigger values
    at the pixel, both of which are valid. *)
Theorem combineLandslideHazards_symmetric (earthquakeHazard precipitationHazard : Image.t Z)
    p :
  Landslide.combineLandslideHazards earthquakeHazard precipitationHazard p
  = Landslide.combineLandslideHazards precipitationHazard earthquakeHazard p
  ∧ ∀ v, Landslide.combineLandslideHazards earthquakeHazard precipitationHazard p
         = Some v →
         (1 <= v <= 8)%Z
         ∧ ∃ a b, earthquakeHazard p = Some a ∧ precipitationHazard p = Some b
                ∧ (1 <= a <= 8)%Z ∧ (1 <= b <= 8)%Z
                ∧ (a <= v)%Z ∧ (b <= v)%Z ∧ (v = a ∨ v = b).
Proof.
  unfold Landslide.combineLandslideHazards, Image.max, Image.binary. split.
  - destruct (Landslide.maskValidRiskLevels earthquakeHazard p),
      (Landslide.maskValidRiskLevels precipitationHazard p); try done.
    by rewrite Z.max_comm.
  - intros v.
    destruct (Landslide.maskValidRiskLevels earthquakeHazard p) as [a|] eqn:Ea; [|done].
    destruct (Landslide.maskValidRiskLevels precipitationHazard p) as [b|] eqn:Eb;
      [|done].
    apply maskValidRiskLevels_valid in Ea as [Ea Ha].
    apply maskValidRiskLevels_valid in Eb as [Eb Hb].
    intros [= <-]. split; [lia|]. exists a, b. split_and!; try done; lia.
Qed.

(** X3.  The reclassified fusion, the risk map of the script, is valid
    exactly where both triggers are valid; there its value is one of the
    tiers 1..4, the larger of the tiers of the two trigger values. *)
Theorem risk_map_tiers (earthquakeHazard precipitationHazard : Image.t Z) p :
  let riskMap :=
    Landslide.reclassifyRisk
      (Landslide.combineLandslideHazards earthquakeHazard precipitationHazard) in
  (inTier riskMap p ↔ validTrigger earthquakeHazard p ∧ validTrigger precipitationHazard p)
  ∧ (riskMap p = None ↔
     ¬ (validTrigger earthquakeHazard p ∧ validTrigger precipitationHazard p))
  ∧ ∀ a b, earthquakeHazard p = Some a → precipitationHazard p = Some b →
           (1 <= a <= 8)%Z → (1 <= b <= 8)%Z →
           riskMap p = Some (((a + 1) / 2) `max` ((b + 1) / 2))%Z.
Proof.
  cbv zeta.
  assert (∀ a b, earthquakeHazard p = Some a → precipitationHazard p = Some b →
                 (1 <= a <= 8)%Z → (1 <= b <= 8)%Z →
                 Landslide.reclassifyRisk
                   (Landslide.combineLandslideHazards earthquakeHazard
                      precipitationHazard) p
                 = Some (((a + 1) / 2) `max` ((b + 1) / 2))%Z) as Hboth.
  { intros a b Ha Hb Hra Hrb. rewrite reclassifyRisk_pixel.
    destruct (combineLandslideHazards_pixel earthquakeHazard precipitationHazard p)
      as [Hmax _].
    rewrite (Hmax a b Ha Hb Hra Hrb). cbn [fmap option_fmap option_map]. f_equal.
    destruct (Z.leb_spec 1 (a `max` b)), (Z.leb_spec (a `max` b) 8); simpl; try lia.
    assert (a = 1 ∨ a = 2 ∨ a = 3 ∨ a = 4 ∨ a = 5 ∨ a = 6 ∨ a = 7 ∨ a = 8)%Z
      as Hca by lia.
    assert (b = 1 ∨ b = 2 ∨ b = 3 ∨ b = 4 ∨ b = 5 ∨ b = 6 ∨ b = 7 ∨ b = 8)%Z
      as Hcb by lia.
    destruct Hca as [->|[->|[->|[->|[->|[->|[->| ->]]]]]]];
      destruct Hcb as [->|[->|[->|[->|[->|[->|[->| ->]]]]]]]; reflexivity. }
  assert (¬ (validTrigger earthquakeHazard p ∧ validTrigger precipitationHazard p) →
          Landslide.reclassifyRisk
            (Landslide.combineLandslideHazards earthquakeHazard precipitationHazard) p
          = None) as Hnone.
  { intros Hnot. rewrite reclassifyRisk_pixel.
    destruct (combineLandslideHazards_pixel earthquakeHazard precipitationHazard p)
      as [_ Hmasked].
    rewrite Hmasked; [done|].
    destruct (validTrigger_cases earthquakeHazard p) as [He|He]; [|by left].
    right. intros Hp. by apply Hnot. }
  assert (validTrigger earthquakeHazard p ∧ validTrigger precipitationHazard p →
          inTier
            (Landslide.reclassifyRisk
               (Landslide.combineLandslideHazards earthquakeHazard precipitationHazard))
            p) as Hin.
  { intros [(a & Ha & Hra) (b & Hb & Hrb)].
    eexists. split; [by apply Hboth|].
    pose proof (tier_range a Hra). pose proof (tier_range b Hrb). lia. }
  split_and!.
  - split; [|done]. intros (k & Hk & _).
    destruct (validTrigger_cases earthquakeHazard p) as [He|He],
      (validTrigger_cases precipitationHazard p) as [Hp|Hp]; try done;
      rewrite Hnone in Hk by (by intros [? ?]); discriminate.
  - split; [|done]. intros Hk Hv. destruct (Hin Hv) as (k & Hk' & _). congruence.
  - done.
Qed.

(** X4.  The reclassification keeps the mask, leaves every level outside
    1..8 as it is, and is monotone on the levels 1..8, whose tiers lie in
    1..4. *)
Theorem reclassifyRisk_monotone image p :
  (Landslide.reclassifyRisk image p = None ↔ image p = None)
  ∧ (∀ v, image p = Some v → ¬ (1 <= v <= 8)%Z →
          Landslide.reclassifyRisk image p = Some v)
  ∧ ∀ (image' : Image.t Z) v w,
      image p = Some v → image' p = Some w → (1 <= v)%Z → (v <= w)%Z → (w <= 8)%Z →
      ∃ k m, Landslide.reclassifyRisk image p = Some k
           ∧ Landslide.reclassifyRisk image' p = Some m
           ∧ (1 <= k)%Z ∧ (k <= m)%Z ∧ (m <= 4)%Z.
Proof.
  split_and!.
  - rewrite reclassifyRisk_pixel. by destruct (image p).
  - intros v Hv Hr. rewrite reclassifyRisk_pixel, Hv. cbn [fmap option_fmap option_map].
    f_equal. destruct (Z.leb_spec 1 v), (Z.leb_spec v 8); simpl; try done; lia.
  - intros image' v w Hv Hw H1 Hvw H8.
    exists ((v + 1) / 2)%Z, ((w + 1) / 2)%Z.
    rewrite !reclassifyRisk_pixel, Hv, Hw. cbn [fmap option_fmap option_map].
    destruct (Z.leb_spec 1 v), (Z.leb_spec v 8), (Z.leb_spec 1 w), (Z.leb_spec w 8);
      simpl; try lia.
    pose proof (tier_range v). pose proof (tier_range w).
    split_and!; try done; try lia.
    apply Z.div_le_mono; lia.
Qed.

(** X5.  The four layers of [createRiskPopulationLayers] are pairwise
    disjoint; a valid layer pixel holds the population of the pixel; a pixel
    is valid in some layer exactly when its population is valid and it has
    a tier. *)
Theorem createRiskPopulationLayers_disjoint (population : Image.t Q) (riskMap : Image.t Z)
    p :
  let layers := Landslide.createRiskPopulationLayers population riskMap in
  let layer (k : Z) :=
    if (k =? 1)%Z then Landslide.Layers.low layers
    else if (k =? 2)%Z then Landslide.Layers.medium layers
    else if (k =? 3)%Z then Landslide.Layers.high layers
    else Landslide.Layers.veryHigh layers in
  (∀ k m, (1 <= k <= 4)%Z → (1 <= m <= 4)%Z → is_Some (layer k p) → is_Some (layer m p) →
          k = m)
  ∧ (∀ k v, (1 <= k <= 4)%Z → layer k p = Some v → population p = Some v)
  ∧ ((∃ k, (1 <= k <= 4)%Z ∧ is_Some (layer k p))
     ↔ is_Some (population p) ∧ inTier riskMap p).
Proof.
  cbv zeta.
  assert (∀ k, (1 <= k <= 4)%Z →
               (if (k =? 1)%Z
                then Landslide.Layers.low
                       (Landslide.createRiskPopulationLayers population riskMap)
                else if (k =? 2)%Z
                then Landslide.Layers.medium
                       (Landslide.createRiskPopulationLayers population riskMap)
                else if (k =? 3)%Z
                then Landslide.Layers.high
                       (Landslide.createRiskPopulationLayers population riskMap)
                else Landslide.Layers.veryHigh
                       (Landslide.createRiskPopulationLayers population riskMap)) p
               = tierBand population riskMap k p) as Hlayer.
  { intros k Hk. assert (k = 1 ∨ k = 2 ∨ k = 3 ∨ k = 4)%Z as Hc by lia.
    by destruct Hc as [->|[->|[->| ->]]]. }
  split_and!.
  - intros k m Hk Hm. rewrite (Hlayer k Hk), (Hlayer m Hm), !tierBand_pixel.
    destruct (population p) as [v|]; cbn [mbind option_bind]; [|by intros [? [=]]].
    destruct (riskMap p) as [r|]; cbn [mbind option_bind]; [|by intros [? [=]]].
    destruct (Z.eqb_spec r k), (Z.eqb_spec r m); try (by intros [? [=]] || by intros _ [? [=]]).
    congruence.
  - intros k v Hk. rewrite (Hlayer k Hk), tierBand_pixel.
    destruct (population p) as [w|]; cbn [mbind option_bind]; [|done].
    destruct (riskMap p) as [r|]; cbn [mbind option_bind]; [|done].
    by destruct (r =? k)%Z.
  - split.
    + intros (k & Hk & Hsome). rewrite (Hlayer k Hk), tierBand_pixel in Hsome.
      destruct (population p) as [w|]; cbn [mbind option_bind] in Hsome;
        [|by destruct Hsome].
      split; [done|].
      destruct (riskMap p) as [r|] eqn:Er; cbn [mbind option_bind] in Hsome;
        [|by destruct Hsome].
      destruct (Z.eqb_spec r k); [|by destruct Hsome].
      exists r. split; [done | lia].
    + intros [[w Hw] (k & Hk & Hr)]. exists k. split; [done|].
      rewrite (Hlayer k Hr), tierBand_pixel, Hw, Hk. cbn [mbind option_bind].
      by rewrite Z.eqb_refl.
Qed.

End FusionProperties.

(** ** Band sums and the flood pipeline *)

Section FloodPipeline.

Local Open Scope Q_scope.

Lemma lookup_reduceRegion (image : list (string * Image.t Q)) geometry band :
  Reducer.reduceRegion image geometry !! band
  = (list_to_map image : gmap string (Image.t Q)) !! band
    ≫= λ img, Reducer.sum img geometry.
Proof.
  induction image as [|[name img] rest IH]; [done|].
  cbn [list_to_map foldr uncurry]. destruct (decide (name = band)) as [->|Hne].
  - by rewrite lookup_reduceRegion_here, lookup_insert_eq.
  - by rewrite lookup_reduceRegion_ne, lookup_insert_ne.
Qed.

Lemma safeSum_present (image : list (string * Image.t Q)) geometry band img :
  (list_to_map image : gmap string (Image.t Q)) !! band = Some img →
  Landslide.safeSum image geometry band
  = Some (nullProtected (Reducer.sum img geometry)).
Proof.
  intros Himg. unfold Landslide.safeSum, Landslide.getBand. cbv zeta.
  destruct (decide (band ∈ image.*1)) as [Hin|Hout].
  - cbn [mbind option_bind]. by rewrite lookup_reduceRegion, Himg.
  - apply not_elem_of_list_to_map in Hout.
    rewrite Himg in Hout. discriminate Hout.
Qed.

(** X6.  [safeSum] fails exactly for a name that is no band of the image.
    For a band of the image it returns the sum of that band over the valid
    pixels of the geometry, which is 0 when the band has no valid pixel
    there, in particular when the geometry has no pixel, and it is
    additive over geometries put together. *)
Theorem safeSum_band (image : list (string * Image.t Q)) geometry geometry' band :
  (Landslide.safeSum image geometry band = None ↔ band ∉ image.*1)
  ∧ (∀ img, (list_to_map image : gmap string (Image.t Q)) !! band = Some img →
       ∃ value value' both,
         Landslide.safeSum image geometry band = Some value
         ∧ value == pixelSum img geometry
         ∧ (Reducer.sum img geometry = None → value = 0)
         ∧ Landslide.safeSum image [] band = Some 0
         ∧ Landslide.safeSum image geometry' band = Some value'
         ∧ Landslide.safeSum image (geometry ++ geometry') band = Some both
         ∧ both == value + value').
Proof.
  split.
  - unfold Landslide.safeSum, Landslide.getBand. cbv zeta.
    destruct (decide (band ∈ image.*1)) as [Hin|Hout]; cbn [mbind option_bind].
    + split; [discriminate | done].
    + done.
  - intros img Himg. do 3 eexists.
    rewrite !(safeSum_present image _ band img Himg).
    split_and!; try reflexivity.
    + apply nullProtected_sum.
    + by intros ->.
    + rewrite !nullProtected_sum. apply pixelSum_app.
Qed.

(** A two-band image over the row of four pixels: the band of 100 people
    per cell sums to 400, the band without a valid pixel gives 0, and a
    name that is no band of the image is an error. *)
Lemma safeSum_band_sample :
  (∃ value,
     Landslide.safeSum [("population", Sample.dense); ("empty", Image.masked)]
       Sample.row4 "population" = Some value
     ∧ value == 400)
  ∧ Landslide.safeSum [("population", Sample.dense); ("empty", Image.masked)]
      Sample.row4 "empty" = Some 0
  ∧ Landslide.safeSum [("population", Sample.dense); ("empty", Image.masked)]
      Sample.row4 "absent" = None.
Proof.
  split_and!.
  - destruct (safeSum_band [("population", Sample.dense); ("empty", Image.masked)]
                Sample.row4 [] "population") as [_ Hband].
    destruct (Hband Sample.dense eq_refl) as (value & _ & _ & Hvalue & Hsum & _).
    exists value. split; [exact Hvalue|]. rewrite Hsum. by vm_compute.
  - destruct (safeSum_band [("population", Sample.dense); ("empty", Image.masked)]
                Sample.row4 [] "empty") as [_ Hband].
    destruct (Hband Image.masked eq_refl) as (value & _ & _ & Hvalue & _ & Hnull & _).
    by rewrite Hvalue, Hnull.
  - apply (safeSum_band [("population", Sample.dense); ("empty", Image.masked)]
             Sample.row4 [] "absent").
    cbn [fmap list_fmap fst]. rewrite !not_elem_of_cons.
    split_and!; try done. apply not_elem_of_nil.
Defined.

Lemma isFlooded_mask (floodImage : Image.t Q) p :
  Flood.createFloodMask floodImage p
  = if isFlooded floodImage p then Some true else None.
Proof.
  rewrite createFloodMask_pixel. unfold isFlooded.
  by destruct (floodImage p).
Qed.

(** X7.  The exposed population of the flood script is valid exactly on
    the pixels where the population is valid and the flood depth is valid
    and positive, and there it is the population of the pixel. *)
Theorem exposed_population_pixel (population floodImage : Image.t Q) p v :
  Flood.calculateExposedPopulation population (Flood.createFloodMask floodImage) p = Some v
  ↔ population p = Some v ∧ ∃ d, floodImage p = Some d ∧ 0 < d.
Proof.
  unfold Flood.calculateExposedPopulation, Image.updateMask.
  rewrite createFloodMask_pixel.
  destruct (population p) as [w|]; [|split; [done | by intros [? _]]].
  destruct (floodImage p) as [d|]; cbn [mbind option_bind].
  - destruct (Number.gt d 0) eqn:E.
    + apply gt_true in E. split; [intros [= ->]; eauto|]. by intros [[= ->] _].
    + apply gt_false in E. split; [done|]. intros [_ (d' & [= <-] & Hd)]. lra.
  - split; [done|]. by intros [_ (d' & [=] & _)].
Qed.

Lemma flood_area_count (floodImage : Image.t Q) geometry :
  pixelSum (Image.toNumber (Flood.createFloodMask floodImage)) geometry
  == inject_Z (floodedCount floodImage geometry).
Proof.
  unfold floodedCount. induction geometry as [|p g IH]; [reflexivity|].
  rewrite pixelSum_cons_eq, IH.
  rewrite (filter_cons (λ p0 : Pixel, isFlooded floodImage p0 = true) p g).
  unfold Image.toNumber, Image.unary. rewrite isFlooded_mask.
  destruct (isFlooded floodImage p) eqn:E.
  - rewrite decide_True by done. cbn [fmap option_fmap option_map default from_option id length].
    rewrite Nat2Z.inj_succ, <- Z.add_1_l, inject_Z_plus. reflexivity.
  - rewrite decide_False by done. cbn [fmap option_fmap option_map default from_option].
    apply Qplus_0_l.
Qed.

Lemma not_flooded_no_exposure (population floodImage : Image.t Q) geometry :
  floodedCount floodImage geometry = 0%Z →
  pixelSum (Flood.calculateExposedPopulation population (Flood.createFloodMask floodImage))
    geometry = 0.
Proof.
  intros Hcount. apply pixelSum_no_data. intros p Hp.
  unfold floodedCount in Hcount.
  assert (filter (λ p, isFlooded floodImage p = true) geometry = []) as Hnil
      by (apply length_zero_iff_nil; lia).
  unfold Flood.calculateExposedPopulation, Image.updateMask. rewrite isFlooded_mask.
  destruct (isFlooded floodImage p) eqn:E.
  - by destruct (filter_nil_not_elem_of _ _ p Hnil E).
  - by destruct (population p).
Qed.

(** The record of a zone in the flood pipeline, with its flood area. *)
Lemma flood_pipeline_record (population floodImage : Image.t Q) geometry :
  ∃ s, Flood.zoneStatistics population
         (Flood.calculateExposedPopulation population (Flood.createFloodMask floodImage))
         (Flood.createFloodMask floodImage) geometry = Some s
    ∧ Flood.totalPop s = Number.round (pixelSum population geometry)
    ∧ Flood.exposedPopCount s
      = Number.round
          (pixelSum
             (Flood.calculateExposedPopulation population
                (Flood.createFloodMask floodImage)) geometry)
    ∧ Flood.floodAreaKm2 s == inject_Z (floodedCount floodImage geometry) * (9 # 10000)
    ∧ Flood.exposureRatio s
      = Algorithms.If (Number.gt (Flood.totalPop s) 0)
          (Flood.exposedPopCount s / Flood.totalPop s) 0
    ∧ Flood.exposureDensity s
      = Algorithms.If (Number.gt (Flood.floodAreaKm2 s) 0)
          (Flood.exposedPopCount s / Flood.floodAreaKm2 s) 0.
Proof.
  unfold Flood.zoneStatistics.
  destruct (flood_statistics
              (Reducer.reduceRegion
                 (Flood.multiband population
                    (Flood.calculateExposedPopulation population
                       (Flood.createFloodMask floodImage))
                    (Flood.createFloodMask floodImage)) geometry))
    as (s & Hs & HT & HE & HA & Hr & Hd).
  exists s. split; [done|].
  unfold Flood.multiband in HT, HE, HA.
  rewrite lookup_reduceRegion_here in HT.
  rewrite lookup_reduceRegion_ne, lookup_reduceRegion_here in HE by done.
  rewrite !lookup_reduceRegion_ne, lookup_reduceRegion_here in HA by done.
  rewrite (round_comp _ _ (nullProtected_sum _ _)) in HT.
  rewrite (round_comp _ _ (nullProtected_sum _ _)) in HE.
  split_and!; try done.
  rewrite HA, nullProtected_sum, flood_area_count. field.
Qed.

(** X8.  In the flood pipeline, for a zone with a non-negative population
    raster, the exposed count lies between 0 and the total count, the
    exposure ratio lies in [0,1], and the flood area and the exposure
    density are not negative. *)
Theorem flood_record_bounds (population floodImage : Image.t Q) geometry :
  nonNegative population geometry →
  ∃ s, Flood.zoneStatistics population
         (Flood.calculateExposedPopulation population (Flood.createFloodMask floodImage))
         (Flood.createFloodMask floodImage) geometry = Some s
    ∧ 0 <= Flood.exposedPopCount s ∧ Flood.exposedPopCount s <= Flood.totalPop s
    ∧ 0 <= Flood.exposureRatio s ∧ Flood.exposureRatio s <= 1
    ∧ 0 <= Flood.floodAreaKm2 s
    ∧ 0 <= Flood.exposureDensity s.
Proof.
  intros Hpos.
  destruct (flood_pipeline_record population floodImage geometry)
    as (s & Hs & HT & HE & HA & Hr & Hd).
  exists s. split; [done|].
  destruct (masked_sum_le population (Flood.createFloodMask floodImage) geometry Hpos)
    as [Hlo Hhi].
  pose proof (round_nonneg _ Hlo) as Hn. pose proof (round_mono _ _ Hhi) as Hm.
  unfold Flood.calculateExposedPopulation in HE. rewrite <- HE, <- HT in *.
  assert (0 <= Flood.floodAreaKm2 s) as Harea.
  { rewrite HA. assert (0 <= inject_Z (floodedCount floodImage geometry)); [|lra].
    change 0 with (inject_Z 0). rewrite <- Zle_Qle. unfold floodedCount. lia. }
  assert (0 <= Flood.exposureRatio s ∧ Flood.exposureRatio s <= 1) as [? ?].
  { rewrite Hr. unfold Algorithms.If.
    destruct (Number.gt (Flood.totalPop s) 0) eqn:E; [|lra].
    apply gt_true in E. by apply ratio_bounds. }
  split_and!; try done.
  rewrite Hd. unfold Algorithms.If.
  destruct (Number.gt (Flood.floodAreaKm2 s) 0) eqn:E; [|lra].
  apply gt_true in E. apply Qle_shift_div_l; lra.
Qed.

(** The bounds of the record of four cells of 100 people under a flood
    depth of 1. *)
Lemma flood_record_bounds_witness :
  ∃ s, Flood.zoneStatistics Sample.dense
         (Flood.calculateExposedPopulation Sample.dense
            (Flood.createFloodMask (Image.constant 1)))
         (Flood.createFloodMask (Image.constant 1)) Sample.row4 = Some s
    ∧ Flood.exposureRatio s <= 1.
Proof.
  destruct (flood_record_bounds Sample.dense (Image.constant 1) Sample.row4)
    as (s & Hs & _ & _ & _ & Hone & _).
  - intros p v _ [= <-]. by vm_compute.
  - exists s. by split.
Defined.

(** X9.  In the flood pipeline the flood area of a zone record is 0.0009
    square kilometres for each pixel of the zone with a positive flood
    depth; a zone without such a pixel has flood area, exposed count,
    exposure ratio and exposure density 0. *)
Theorem flood_area_pixels (population floodImage : Image.t Q) geometry :
  ∃ s, Flood.zoneStatistics population
         (Flood.calculateExposedPopulation population (Flood.createFloodMask floodImage))
         (Flood.createFloodMask floodImage) geometry = Some s
    ∧ Flood.floodAreaKm2 s == inject_Z (floodedCount floodImage geometry) * (9 # 10000)
    ∧ (floodedCount floodImage geometry = 0%Z →
       Flood.floodAreaKm2 s == 0 ∧ Flood.exposedPopCount s == 0
       ∧ Flood.exposureRatio s == 0 ∧ Flood.exposureDensity s == 0).
Proof.
  destruct (flood_pipeline_record population floodImage geometry)
    as (s & Hs & HT & HE & HA & Hr & Hd).
  exists s. split; [done|]. split; [done|].
  intros Hcount. rewrite (not_flooded_no_exposure _ _ _ Hcount) in HE.
  change (Number.round 0) with 0 in HE.
  assert (Flood.floodAreaKm2 s == 0) as Harea by (rewrite HA, Hcount; reflexivity).
  split_and!.
  - done.
  - by rewrite HE.
  - rewrite Hr, HE. unfold Algorithms.If.
    destruct (Number.gt (Flood.totalPop s) 0); [|reflexivity].
    by apply zero_ratio.
  - rewrite Hd, HE. unfold Algorithms.If.
    destruct (Number.gt (Flood.floodAreaKm2 s) 0); [|reflexivity].
    by apply zero_ratio.
Qed.

End FloodPipeline.

(** ** Regrouping by province *)

Section Regrouping.

Local Open Scope Q_scope.

Lemma Qsum_ext {A : Type} (f g : A → Q) (l : list A) :
  (∀ x, x ∈ l → f x == g x) → Qsum (f <$> l) == Qsum (g <$> l).
Proof.
  induction l as [|x l IH]; intros H; [reflexivity|].
  cbn [fmap list_fmap Qsum]. rewrite (H x) by apply list_elem_of_here.
  rewrite IH; [reflexivity|]. intros y Hy. apply H. by apply list_elem_of_further.
Qed.

Lemma Qsum_plus {A : Type} (f g : A → Q) (l : list A) :
  Qsum ((λ x, f x + g x) <$> l) == Qsum (f <$> l) + Qsum (g <$> l).
Proof.
  induction l as [|x l IH]; cbn [fmap list_fmap Qsum]; [reflexivity|].
  rewrite IH. ring.
Qed.

Lemma Qsum_Permutation (l l' : list Q) : l ≡ₚ l' → Qsum l == Qsum l'.
Proof.
  induction 1 as [|x l l' _ IH|x y l|l l' l'' _ IH1 _ IH2]; cbn [Qsum].
  - reflexivity.
  - by rewrite IH.
  - ring.
  - by rewrite IH1.
Qed.

Lemma Qsum_zero {A : Type} (l : list A) : Qsum ((λ _, 0) <$> l) == 0.
Proof.
  induction l as [|x l IH]; cbn [fmap list_fmap Qsum]; [reflexivity|].
  rewrite IH. ring.
Qed.

Lemma Qsum_ones {A : Type} (l : list A) :
  Qsum ((λ _, 1) <$> l) == inject_Z (Z.of_nat (length l)).
Proof.
  induction l as [|x l IH]; cbn [fmap list_fmap Qsum length]; [reflexivity|].
  rewrite IH, Nat2Z.inj_succ, <- Z.add_1_l, inject_Z_plus. reflexivity.
Qed.

(** The share of one value among distinct names: counted once when its
    name is among them. *)
Lemma Qsum_indicator (names : list Value) (name : Value) (x : Q) :
  NoDup names →
  Qsum ((λ n, if decide (Some name = Some n) then x else 0) <$> names)
  == if decide (name ∈ names) then x else 0.
Proof.
  induction 1 as [|n names Hn Hnd IH]; cbn [fmap list_fmap Qsum].
  - rewrite decide_False by apply not_elem_of_nil. reflexivity.
  - rewrite IH. destruct (decide (Some name = Some n)) as [[= ->]|Hne].
    + rewrite decide_False by done. rewrite decide_True by apply list_elem_of_here.
      ring.
    + destruct (decide (name ∈ names)) as [Hin|Hin].
      * rewrite decide_True by (by apply list_elem_of_further). ring.
      * rewrite decide_False; [ring|]. rewrite not_elem_of_cons. split; congruence.
Qed.

Lemma NoDup_distinct (l : list Value) : NoDup (distinct l).
Proof.
  induction l as [|x l IH]; cbn [distinct]; constructor.
  - rewrite list_elem_of_filter. tauto.
  - by apply NoDup_filter.
Qed.

Lemma sort_Permutation key (collection : FeatureCollection.t) :
  FeatureCollection.sort key collection ≡ₚ collection.
Proof.
  unfold FeatureCollection.sort. induction collection as [|f rest IH]; [done|].
  cbn [foldr]. rewrite <- IH at 2.
  generalize (foldr (FeatureCollection.insert_sorted key) [] rest). intros sorted.
  induction sorted as [|g sorted IHs]; cbn [FeatureCollection.insert_sorted]; [done|].
  destruct (Value_leb (Feature.get f key) (Feature.get g key)); [done|].
  rewrite IHs. apply Permutation_swap.
Qed.

(** Summing a quantity province by province, over the distinct parent
    names, is summing it over the zones that have a parent. *)
Lemma regroup (f : Feature.t → Q) (llgStats : FeatureCollection.t) :
  Qsum ((λ name, Qsum (f <$> FeatureCollection.filter_eq "ADM1_EN" name llgStats))
          <$> distinct (FeatureCollection.aggregate_array "ADM1_EN" llgStats))
  == Qsum (f <$> withParent llgStats).
Proof.
  pose proof (NoDup_distinct (FeatureCollection.aggregate_array "ADM1_EN" llgStats)) as Hnd.
  assert (∀ zone name, zone ∈ llgStats → Feature.get zone "ADM1_EN" = Some name →
                       name ∈ distinct (FeatureCollection.aggregate_array "ADM1_EN"
                                          llgStats)) as Hall.
  { intros zone name Hz Hn. apply elem_of_distinct, list_elem_of_omap. by exists zone. }
  revert Hnd Hall.
  generalize (distinct (FeatureCollection.aggregate_array "ADM1_EN" llgStats)).
  intros names Hnd. unfold FeatureCollection.filter_eq, withParent.
  induction llgStats as [|zone rest IH]; intros Hall.
  - cbn. apply Qsum_zero.
  - rewrite (Qsum_ext _ (λ name, (if decide (Feature.get zone "ADM1_EN" = Some name)
                                  then f zone else 0)
                                 + Qsum (f <$> filter (λ z, Feature.get z "ADM1_EN"
                                                            = Some name) rest))).
    2: { intros name _.
         rewrite (filter_cons (λ z, Feature.get z "ADM1_EN" = Some name) zone rest).
         destruct (decide (Feature.get zone "ADM1_EN" = Some name));
           cbn [fmap list_fmap Qsum]; ring. }
    rewrite Qsum_plus, IH.
    2: { intros z n Hz. apply Hall. by apply list_elem_of_further. }
    rewrite (filter_cons (λ z, is_Some (Feature.get z "ADM1_EN")) zone rest).
    destruct (Feature.get zone "ADM1_EN") as [name|] eqn:E.
    + rewrite decide_True by done. cbn [fmap list_fmap Qsum].
      rewrite (Qsum_indicator names name (f zone) Hnd).
      rewrite decide_True; [reflexivity|].
      apply (Hall zone name); [apply list_elem_of_here | done].
    + rewrite decide_False by (by intros [? [=]]).
      rewrite (Qsum_ext _ (λ _, 0)); [rewrite Qsum_zero; apply Qplus_0_l|].
      intros name _. by rewrite decide_False.
Qed.

End Regrouping.

(** ** Further properties of the province aggregation *)

Section ProvinceProperties.

Local Open Scope Q_scope.

(** The provinces of the flood script: the sorted images of the distinct
    parent names, with the pooled sums and guarded quotients as properties. *)
Lemma flood_provinces (llgStats : FeatureCollection.t) :
  ∃ g : Value → Feature.t,
    Flood.aggregateToProvinceLevel llgStats
    = Some (FeatureCollection.sort "Province"
              (g <$> distinct (FeatureCollection.aggregate_array "ADM1_EN" llgStats)))
    ∧ ∀ name,
        let members := FeatureCollection.filter_eq "ADM1_EN" name llgStats in
        let total := FeatureCollection.aggregate_sum "LLG_Population" members in
        let exposed := FeatureCollection.aggregate_sum "Exposed_Population" members in
        let area := FeatureCollection.aggregate_sum "Flood_Area_km2" members in
        Feature.get (g name) "Province" = Some name
        ∧ Feature.number (g name) "Total_Population" = total
        ∧ Feature.number (g name) "Exposed_Population" = exposed
        ∧ Feature.number (g name) "Flood_Area_km2" = area
        ∧ Feature.number (g name) "Exposure_Ratio"
          = Algorithms.If (Number.gt total 0) (exposed / total) 0
        ∧ Feature.number (g name) "Exposure_Density"
          = Algorithms.If (Number.gt area 0) (exposed / area) 0.
Proof.
  unfold Flood.aggregateToProvinceLevel. cbv zeta.
  erewrite mapM_pure
    by (intros name; rewrite !guarded_divide; cbn [mbind option_bind]; reflexivity).
  cbn [mbind option_bind]. eexists. split; [reflexivity|].
  intros name. split_and!; reflexivity.
Qed.

Lemma landslide_provinces (llgStats : FeatureCollection.t) :
  ∃ g : Value → Feature.t,
    Landslide.aggregateToProvinceLevel llgStats
    = Some (FeatureCollection.sort "Province"
              (g <$> distinct (FeatureCollection.aggregate_array "ADM1_EN" llgStats)))
    ∧ ∀ name,
        let members := FeatureCollection.filter_eq "ADM1_EN" name llgStats in
        let score := FeatureCollection.aggregate_sum "Risk_Score" members in
        let count := FeatureCollection.size members in
        Feature.get (g name) "Province" = Some name
        ∧ Feature.number (g name) "Total_Population"
          = FeatureCollection.aggregate_sum "LLG_Population" members
        ∧ Feature.number (g name) "Low_Risk_Population"
          = FeatureCollection.aggregate_sum "Low_Risk_Population" members
        ∧ Feature.number (g name) "Medium_Risk_Population"
          = FeatureCollection.aggregate_sum "Medium_Risk_Population" members
        ∧ Feature.number (g name) "High_Risk_Population"
          = FeatureCollection.aggregate_sum "High_Risk_Population" members
        ∧ Feature.number (g name) "Very_High_Risk_Population"
          = FeatureCollection.aggregate_sum "Very_High_Risk_Population" members
        ∧ Feature.number (g name) "Total_Risk_Score" = score
        ∧ Feature.number (g name) "LLG_Count" = count
        ∧ Feature.number (g name) "Average_Risk_Score"
          = Algorithms.If (Number.gt count 0) (score / count) 0.
Proof.
  unfold Landslide.aggregateToProvinceLevel. cbv zeta.
  erewrite mapM_pure
    by (intros name; rewrite !guarded_divide; cbn [mbind option_bind]; reflexivity).
  cbn [mbind option_bind]. eexists. split; [reflexivity|].
  intros name. split_and!; reflexivity.
Qed.

(** A sum over the sorted provinces is the sum over the zones with a
    parent, when each province holds the sum over its members. *)
Lemma province_sum (g : Value → Feature.t) (f : Feature.t → Q) key
    (llgStats : FeatureCollection.t) :
  (∀ name, Feature.number (g name) key
           == Qsum (f <$> FeatureCollection.filter_eq "ADM1_EN" name llgStats)) →
  FeatureCollection.aggregate_sum key
    (FeatureCollection.sort "Province"
       (g <$> distinct (FeatureCollection.aggregate_array "ADM1_EN" llgStats)))
  == Qsum (f <$> withParent llgStats).
Proof.
  intros Hg. unfold FeatureCollection.aggregate_sum.
  rewrite (Qsum_Permutation _ _ (fmap_Permutation _ _ _ (sort_Permutation _ _))).
  rewrite <- list_fmap_compose, <- regroup.
  apply Qsum_ext. intros name _. apply Hg.
Qed.

(** X10.  Regrouping by province loses and adds nothing: in both scripts
    each absolute count summed over the provinces of the output is that
    count summed over the zones that have a parent attribute (zones
    without one belong to no province), and the member counts of the
    landslide provinces add up to the number of those zones. *)
Theorem province_totals_conserved (llgStats : FeatureCollection.t) :
  (∃ out, Flood.aggregateToProvinceLevel llgStats = Some out
     ∧ FeatureCollection.aggregate_sum "Total_Population" out
       == FeatureCollection.aggregate_sum "LLG_Population" (withParent llgStats)
     ∧ FeatureCollection.aggregate_sum "Exposed_Population" out
       == FeatureCollection.aggregate_sum "Exposed_Population" (withParent llgStats)
     ∧ FeatureCollection.aggregate_sum "Flood_Area_km2" out
       == FeatureCollection.aggregate_sum "Flood_Area_km2" (withParent llgStats))
  ∧ (∃ out, Landslide.aggregateToProvinceLevel llgStats = Some out
       ∧ FeatureCollection.aggregate_sum "Total_Population" out
         == FeatureCollection.aggregate_sum "LLG_Population" (withParent llgStats)
       ∧ FeatureCollection.aggregate_sum "Low_Risk_Population" out
         == FeatureCollection.aggregate_sum "Low_Risk_Population" (withParent llgStats)
       ∧ FeatureCollection.aggregate_sum "Medium_Risk_Population" out
         == FeatureCollection.aggregate_sum "Medium_Risk_Population"
              (withParent llgStats)
       ∧ FeatureCollection.aggregate_sum "High_Risk_Population" out
         == FeatureCollection.aggregate_sum "High_Risk_Population" (withParent llgStats)
       ∧ FeatureCollection.aggregate_sum "Very_High_Risk_Population" out
         == FeatureCollection.aggregate_sum "Very_High_Risk_Population"
              (withParent llgStats)
       ∧ FeatureCollection.aggregate_sum "Total_Risk_Score" out
         == FeatureCollection.aggregate_sum "Risk_Score" (withParent llgStats)
       ∧ FeatureCollection.aggregate_sum "LLG_Count" out
         == inject_Z (Z.of_nat (length (withParent llgStats)))).
Proof.
  split.
  - destruct (flood_provinces llgStats) as (g & Hout & Hg).
    eexists. split; [exact Hout|].
    split_and!; apply province_sum; intros name;
      destruct (Hg name) as (_ & H1 & H2 & H3 & _); by rewrite ?H1, ?H2, ?H3.
  - destruct (landslide_provinces llgStats) as (g & Hout & Hg).
    eexists. split; [exact Hout|].
    split_and!;
      try (apply province_sum; intros name;
           destruct (Hg name) as (_ & H1 & H2 & H3 & H4 & H5 & H6 & _);
           by rewrite ?H1, ?H2, ?H3, ?H4, ?H5, ?H6).
    rewrite <- (Qsum_ones (withParent llgStats)).
    apply province_sum. intros name.
    destruct (Hg name) as (_ & _ & _ & _ & _ & _ & _ & H7 & _).
    rewrite H7, Qsum_ones. reflexivity.
Qed.

Lemma Value_leb_total (a b : option Value) : Value_leb a b = false → Value_leb b a = true.
Proof.
  destruct a as [[x|s]|], b as [[y|u]|]; cbn; try done.
  - intros H. apply Qle_bool_iff. apply Qlt_le_weak, Qnot_le_lt.
    intros Hle. apply Qle_bool_iff in Hle. congruence.
  - intros H. destruct (String.leb_total s u) as [Hsu|Hus]; [congruence | done].
Qed.

Lemma sort_Sorted key (collection : FeatureCollection.t) :
  Sorted (propertyLe key) (FeatureCollection.sort key collection).
Proof.
  unfold FeatureCollection.sort. induction collection as [|f rest IH]; [constructor|].
  cbn [foldr]. revert IH.
  generalize (foldr (FeatureCollection.insert_sorted key) [] rest). intros sorted.
  induction sorted as [|g sorted IHs]; intros Hs; cbn [FeatureCollection.insert_sorted].
  - repeat constructor.
  - destruct (Value_leb (Feature.get f key) (Feature.get g key)) eqn:E.
    + constructor; [done|]. by constructor.
    + apply Sorted_inv in Hs as [Hs Hhd]. constructor; [by apply IHs|].
      destruct sorted as [|h sorted]; cbn [FeatureCollection.insert_sorted].
      * constructor. by apply Value_leb_total.
      * destruct (Value_leb (Feature.get f key) (Feature.get h key)).
        -- constructor. by apply Value_leb_total.
        -- constructor. by apply HdRel_inv in Hhd.
Qed.

Lemma elem_of_parent_names (llgStats : FeatureCollection.t) name :
  name ∈ distinct (FeatureCollection.aggregate_array "ADM1_EN" llgStats)
  ↔ ∃ zone, zone ∈ llgStats ∧ Feature.get zone "ADM1_EN" = Some name.
Proof.
  rewrite elem_of_distinct. unfold FeatureCollection.aggregate_array.
  by rewrite list_elem_of_omap.
Qed.

Lemma provinces_sorted_distinct (g : Value → Feature.t) (llgStats : FeatureCollection.t) :
  (∀ name, Feature.get (g name) "Province" = Some name) →
  let names := distinct (FeatureCollection.aggregate_array "ADM1_EN" llgStats) in
  let out := FeatureCollection.sort "Province" (g <$> names) in
  Sorted (propertyLe "Province") out
  ∧ NoDup ((λ province, Feature.get province "Province") <$> out)
  ∧ length out = length names
  ∧ (λ province, Feature.get province "Province") <$> out ≡ₚ Some <$> names
  ∧ ∀ name,
      (∃ province, province ∈ out ∧ Feature.get province "Province" = Some name)
      ↔ (∃ zone, zone ∈ llgStats ∧ Feature.get zone "ADM1_EN" = Some name).
Proof.
  intros Hg names out.
  assert ((λ province, Feature.get province "Province") <$> out ≡ₚ Some <$> names)
    as Hnames.
  { unfold out. rewrite (sort_Permutation "Province" (g <$> names)).
    rewrite <- list_fmap_compose.
    assert (((λ province, Feature.get province "Province") ∘ g) <$> names
            = Some <$> names) as ->; [|done].
    apply list_fmap_ext. intros i name _. apply Hg. }
  split_and!.
  - apply sort_Sorted.
  - rewrite Hnames. apply (NoDup_fmap_2 Some), NoDup_distinct.
  - apply Permutation_length in Hnames. by rewrite !length_fmap in Hnames.
  - exact Hnames.
  - intros name. rewrite <- elem_of_parent_names. fold names. split.
    + intros (province & Hin & Hname).
      apply (list_elem_of_fmap_2 (λ province, Feature.get province "Province")) in Hin.
      rewrite Hname, Hnames in Hin.
      apply list_elem_of_fmap in Hin as (name' & [= ->] & Hin). exact Hin.
    + intros Hin. exists (g name). split; [|apply Hg].
      apply elem_of_sort. by apply list_elem_of_fmap_2.
Qed.

(** X11.  In both scripts the provinces of the output are in ascending
    order of their name and no two of them have the same name.  Their
    names are exactly the distinct parent names of the zones: the list of
    the provinces' names is a rearrangement of the list of the distinct
    values of the zones' parent attribute, so that a name is the name of a
    province exactly when it is the parent name of some zone, and there is
    one province for each such name. *)
Theorem provinces_sorted (llgStats : FeatureCollection.t) :
  (∃ out, Flood.aggregateToProvinceLevel llgStats = Some out
     ∧ Sorted (propertyLe "Province") out
     ∧ NoDup ((λ province, Feature.get province "Province") <$> out)
     ∧ length out
       = length (distinct (FeatureCollection.aggregate_array "ADM1_EN" llgStats))
     ∧ (λ province, Feature.get province "Province") <$> out
       ≡ₚ Some <$> distinct (FeatureCollection.aggregate_array "ADM1_EN" llgStats)
     ∧ ∀ name,
         (∃ province, province ∈ out ∧ Feature.get province "Province" = Some name)
         ↔ (∃ zone, zone ∈ llgStats ∧ Feature.get zone "ADM1_EN" = Some name))
  ∧ (∃ out, Landslide.aggregateToProvinceLevel llgStats = Some out
       ∧ Sorted (propertyLe "Province") out
       ∧ NoDup ((λ province, Feature.get province "Province") <$> out)
       ∧ length out
         = length (distinct (FeatureCollection.aggregate_array "ADM1_EN" llgStats))
       ∧ (λ province, Feature.get province "Province") <$> out
         ≡ₚ Some <$> distinct (FeatureCollection.aggregate_array "ADM1_EN" llgStats)
       ∧ ∀ name,
           (∃ province, province ∈ out ∧ Feature.get province "Province" = Some name)
           ↔ (∃ zone, zone ∈ llgStats ∧ Feature.get zone "ADM1_EN" = Some name)).
Proof.
  split.
  - destruct (flood_provinces llgStats) as (g & Hout & Hg).
    eexists. split; [exact Hout|].
    apply provinces_sorted_distinct. intros name. apply Hg.
  - destruct (landslide_provinces llgStats) as (g & Hout & Hg).
    eexists. split; [exact Hout|].
    apply provinces_sorted_distinct. intros name. apply Hg.
Qed.

End ProvinceProperties.

Section ProvinceBounds.

Local Open Scope Q_scope.

Lemma Qsum_bounds {A : Type} (f : A → Q) (l : list A) (lo hi : Q) :
  (∀ x, x ∈ l → lo <= f x ∧ f x <= hi) →
  inject_Z (Z.of_nat (length l)) * lo <= Qsum (f <$> l)
  ∧ Qsum (f <$> l) <= inject_Z (Z.of_nat (length l)) * hi.
Proof.
  induction l as [|x l IH]; intros H.
  - cbn [fmap list_fmap Qsum length]. change (inject_Z (Z.of_nat 0)) with 0. lra.
  - destruct IH as [IHlo IHhi].
    { intros y Hy. apply H. by apply list_elem_of_further. }
    destruct (H x (list_elem_of_here _ _)) as [Hlo Hhi].
    cbn [fmap list_fmap Qsum length].
    rewrite Nat2Z.inj_succ, <- Z.add_1_l, inject_Z_plus.
    change (inject_Z 1) with 1. split; lra.
Qed.

Lemma Qsum_le {A : Type} (f g : A → Q) (l : list A) :
  (∀ x, x ∈ l → 0 <= f x ∧ f x <= g x) →
  0 <= Qsum (f <$> l) ∧ Qsum (f <$> l) <= Qsum (g <$> l).
Proof.
  induction l as [|x l IH]; intros H.
  - cbn [fmap list_fmap Qsum]. lra.
  - destruct IH as [IHlo IHhi].
    { intros y Hy. apply H. by apply list_elem_of_further. }
    destruct (H x (list_elem_of_here _ _)) as [Hlo Hhi].
    cbn [fmap list_fmap Qsum]. split; lra.
Qed.

(** X12.  When every zone record has an exposed population between 0 and
    its total population, every province of the flood script has an exposed
    population between 0 and its total population and an exposure ratio in
    [0,1]. *)
Theorem province_ratio_bounds (llgStats : FeatureCollection.t) :
  (∀ zone, zone ∈ llgStats →
           0 <= Feature.number zone "Exposed_Population"
           ∧ Feature.number zone "Exposed_Population"
             <= Feature.number zone "LLG_Population") →
  ∃ out, Flood.aggregateToProvinceLevel llgStats = Some out
    ∧ ∀ province, province ∈ out →
        0 <= Feature.number province "Exposed_Population"
        ∧ Feature.number province "Exposed_Population"
          <= Feature.number province "Total_Population"
        ∧ 0 <= Feature.number province "Exposure_Ratio"
        ∧ Feature.number province "Exposure_Ratio" <= 1.
Proof.
  intros Hzones.
  destruct (flood_provinces llgStats) as (g & Hout & Hg).
  eexists. split; [exact Hout|].
  intros province Hin.
  apply elem_of_sort, list_elem_of_fmap in Hin as (name & -> & _).
  destruct (Hg name) as (_ & HT & HE & _ & HR & _). rewrite HT, HE, HR.
  destruct (Qsum_le (λ zone, Feature.number zone "Exposed_Population")
              (λ zone, Feature.number zone "LLG_Population")
              (FeatureCollection.filter_eq "ADM1_EN" name llgStats)) as [Hlo Hhi].
  { intros zone Hzone. apply Hzones.
    unfold FeatureCollection.filter_eq in Hzone.
    by apply list_elem_of_filter in Hzone as [_ ?]. }
  unfold FeatureCollection.aggregate_sum. split_and!; try done.
  - unfold Algorithms.If. destruct (Number.gt _ 0) eqn:E; [|lra].
    apply gt_true in E. by apply ratio_bounds.
  - unfold Algorithms.If. destruct (Number.gt _ 0) eqn:E; [|lra].
    apply gt_true in E. by apply ratio_bounds.
Qed.

(** The provinces of the three sample zone records. *)
Lemma province_ratio_bounds_witness :
  ∃ out, Flood.aggregateToProvinceLevel Sample.threeZones = Some out
    ∧ ∀ province, province ∈ out → Feature.number province "Exposure_Ratio" <= 1.
Proof.
  destruct (province_ratio_bounds Sample.threeZones) as (out & Hout & Hall).
  - intros zone Hzone. unfold Sample.threeZones in Hzone.
    rewrite !elem_of_cons in Hzone.
    destruct Hzone as [->|[->|[->|Hzone]]]; [| | |by apply elem_of_nil in Hzone];
      split; by vm_compute.
  - exists out. split; [done|]. intros province Hin. by apply Hall.
Defined.

(** X13.  Every province of the landslide script has at least one member
    zone; its [LLG_Count] is the number of its member zones, its average
    risk score times that number is its total risk score, and the average
    lies between any two bounds that hold for the risk scores of all its
    member zones. *)
Theorem province_average_score (llgStats : FeatureCollection.t) :
  ∃ out, Landslide.aggregateToProvinceLevel llgStats = Some out
    ∧ ∀ province, province ∈ out →
        ∃ name,
          let members := FeatureCollection.filter_eq "ADM1_EN" name llgStats in
          Feature.get province "Province" = Some name
          ∧ (0 < length members)%nat
          ∧ Feature.number province "LLG_Count" = inject_Z (Z.of_nat (length members))
          ∧ Feature.number province "Average_Risk_Score"
            * Feature.number province "LLG_Count"
            == Feature.number province "Total_Risk_Score"
          ∧ ∀ lo hi,
              (∀ zone, zone ∈ members →
                       lo <= Feature.number zone "Risk_Score"
                       ∧ Feature.number zone "Risk_Score" <= hi) →
              lo <= Feature.number province "Average_Risk_Score"
              ∧ Feature.number province "Average_Risk_Score" <= hi.
Proof.
  destruct (landslide_provinces llgStats) as (g & Hout & Hg).
  eexists. split; [exact Hout|].
  intros province Hin.
  apply elem_of_sort, list_elem_of_fmap in Hin as (name & -> & Hname).
  exists name. cbv zeta.
  destruct (Hg name) as (HP & _ & _ & _ & _ & _ & HS & HC & HA).
  pose proof (province_has_member _ _ Hname) as Hmember.
  rewrite HS, HC, HA. unfold Algorithms.If. rewrite (size_positive _ Hmember).
  assert (0 < FeatureCollection.size
                (FeatureCollection.filter_eq "ADM1_EN" name llgStats)) as Hpos
      by (apply gt_true; by apply size_positive).
  split_and!; try done.
  - destruct (FeatureCollection.filter_eq "ADM1_EN" name llgStats); [done | simpl; lia].
  - field. lra.
  - intros lo hi Hbounds.
    destruct (Qsum_bounds (λ zone, Feature.number zone "Risk_Score") _ lo hi Hbounds)
      as [Hlo Hhi].
    unfold FeatureCollection.aggregate_sum, FeatureCollection.size in *. split.
    + apply Qle_shift_div_l; [done | lra].
    + apply Qle_shift_div_r; [done | lra].
Qed.

End ProvinceBounds.

(** ** Recomputation, empty zones, national drift and rasters *)

Section Recomputation.

Local Open Scope Q_scope.

Lemma set_set feature (dict : list (string * Value)) :
  Feature.set (Feature.set feature dict) dict = Feature.set feature dict.
Proof.
  unfold Feature.set. cbn [Feature.geometry Feature.id Feature.properties]. f_equal.
  apply map_eq. intros key. rewrite !lookup_union.
  by destruct ((list_to_map dict : gmap string Value) !! key),
    (Feature.properties feature !! key).
Qed.

(** X14.  Computing the zone statistics again on the records that a run
    returned gives back the same records, in both scripts: the statistics
    depend on the geometry only, and setting them twice is setting them
    once. *)
Theorem statistics_recomputed boundaries population riskMap exposedPop floodMask :
  (∃ out, Landslide.calculateLLGStatistics boundaries population riskMap = Some out
     ∧ Landslide.calculateLLGStatistics out population riskMap = Some out)
  ∧ (∃ out,
       Flood.calculateLLGStatistics boundaries population exposedPop floodMask = Some out
       ∧ Flood.calculateLLGStatistics out population exposedPop floodMask = Some out).
Proof.
  split.
  - destruct (landslide_records boundaries population riskMap) as (out & Hout & Hall).
    exists out. split; [done|].
    unfold Landslide.calculateLLGStatistics. cbv zeta. apply mapM_Some.
    clear Hout. induction Hall as [|feature record rest out' (s & Hs & ->) _ IH];
      constructor; [|done].
    change (Feature.pixels (Feature.set feature (Landslide.toProperties s)))
      with (Feature.pixels feature).
    rewrite (landslide_setStatistics _ _ _ Hs). by rewrite set_set.
  - destruct (flood_records boundaries population exposedPop floodMask)
      as (out & Hout & Hall).
    exists out. split; [done|].
    unfold Flood.calculateLLGStatistics. cbv zeta. apply mapM_Some.
    clear Hout. induction Hall as [|feature record rest out' (s & Hs & ->) _ IH];
      constructor; [|done].
    change (Feature.pixels (Feature.set feature (Flood.toProperties s)))
      with (Feature.pixels feature).
    rewrite (flood_setStatistics _ _ _ Hs). by rewrite set_set.
Qed.

(** X15.  A zone whose geometry holds no pixel gets a record in both
    scripts, whatever the rasters, and every statistic of that record is
    0. *)
Theorem empty_zone_record feature population riskMap exposedPop floodMask :
  Feature.pixels feature = [] →
  (∃ record,
     Landslide.calculateLLGStatistics [feature] population riskMap = Some [record]
     ∧ ∀ key, key ∈ landslideKeys →
              ∃ q, Feature.get record key = Some (VNum q) ∧ q == 0)
  ∧ (∃ record,
       Flood.calculateLLGStatistics [feature] population exposedPop floodMask
       = Some [record]
       ∧ ∀ key, key ∈ floodKeys →
                ∃ q, Feature.get record key = Some (VNum q) ∧ q == 0).
Proof.
  intros Hpixels. split.
  - eexists. split.
    + unfold Landslide.calculateLLGStatistics. cbv zeta. cbn [mapM].
      rewrite Hpixels. reflexivity.
    + intros key Hkey. unfold landslideKeys in Hkey. rewrite !elem_of_cons in Hkey.
      destruct Hkey as [->|[->|[->|[->|[->|[->|[->|[->|[->|[->|Hkey]]]]]]]]]];
        [..|by apply elem_of_nil in Hkey];
        (eexists; split; [apply set_get_here; reflexivity | reflexivity]).
  - eexists. split.
    + unfold Flood.calculateLLGStatistics. cbv zeta. cbn [mapM].
      rewrite Hpixels. reflexivity.
    + intros key Hkey. unfold floodKeys in Hkey. rewrite !elem_of_cons in Hkey.
      destruct Hkey as [->|[->|[->|[->|[->|Hkey]]]]];
        [..|by apply elem_of_nil in Hkey];
        (eexists; split; [apply set_get_here; reflexivity | reflexivity]).
Qed.

(** A feature with an empty geometry. *)
Lemma empty_zone_record_witness :
  ∃ record,
    Landslide.calculateLLGStatistics [Feature.make (Some []) None ∅] Sample.dense
      Sample.riskByColumn = Some [record]
    ∧ ∃ q, Feature.get record "Risk_Score" = Some (VNum q) ∧ q == 0.
Proof.
  destruct (empty_zone_record (Feature.make (Some []) None ∅) Sample.dense
              Sample.riskByColumn Sample.dense Image.masked)
    as [(record & Hrecord & Hkeys) _].
  - reflexivity.
  - exists record. split; [done|]. apply Hkeys.
    unfold landslideKeys. rewrite !elem_of_cons. tauto.
Defined.

Lemma round_sum_drift {A : Type} (t : A → Q) (l : list A) :
  Qsum ((λ x, Number.round (t x)) <$> l)
  <= Qsum (t <$> l) + inject_Z (Z.of_nat (length l)) / 2
  ∧ Qsum (t <$> l) - inject_Z (Z.of_nat (length l)) / 2
    <= Qsum ((λ x, Number.round (t x)) <$> l).
Proof.
  unfold Qdiv. change (/ 2) with (1 # 2).
  induction l as [|x l [IHhi IHlo]].
  - cbn [fmap list_fmap Qsum length]. change (inject_Z (Z.of_nat 0)) with 0. lra.
  - cbn [fmap list_fmap Qsum length].
    rewrite Nat2Z.inj_succ, <- Z.add_1_l, inject_Z_plus. change (inject_Z 1) with 1.
    pose proof (round_upper (t x)). pose proof (round_lower (t x)). split; lra.
Qed.

Lemma national_tier_drift population riskMap (boundaries out : FeatureCollection.t) k key :
  FeatureCollection.aggregate_sum key out
  = Qsum ((λ zone, Number.round
                     (pixelSum (tierBand population riskMap k) (Feature.pixels zone)))
            <$> boundaries) →
  let national :=
    Number.round (pixelSum (tierBand population riskMap k)
                    (concat (Feature.pixels <$> boundaries))) in
  let bound := (inject_Z (Z.of_nat (length boundaries)) + 1) / 2 in
  national - FeatureCollection.aggregate_sum key out <= bound
  ∧ FeatureCollection.aggregate_sum key out - national <= bound.
Proof.
  intros ->. cbv zeta.
  pose proof (zone_sums (tierBand population riskMap k) boundaries) as Hsum.
  rewrite (round_comp _ _ Hsum).
  destruct (round_sum_drift
              (λ zone, pixelSum (tierBand population riskMap k) (Feature.pixels zone))
              boundaries) as [Hhi Hlo].
  pose proof (round_upper
                (Qsum ((λ zone, pixelSum (tierBand population riskMap k)
                                  (Feature.pixels zone)) <$> boundaries))) as Hu.
  pose proof (round_lower
                (Qsum ((λ zone, pixelSum (tierBand population riskMap k)
                                  (Feature.pixels zone)) <$> boundaries))) as Hl.
  unfold Qdiv in *. change (/ 2) with (1 # 2) in *. split; lra.
Qed.

(** X16.  When the national region is made of the zones' pixels, each
    national tier total of the landslide script and the direct sum of that
    tier's counts over the zone records differ by at most (n + 1) / 2,
    where n is the number of zones. *)
Theorem national_totals_drift boundaries population riskMap :
  ∃ out, Landslide.calculateLLGStatistics boundaries population riskMap = Some out
    ∧ let national :=
        Landslide.calculateNationalRiskTotals population riskMap
          (concat (Feature.pixels <$> boundaries)) in
      let bound := (inject_Z (Z.of_nat (length boundaries)) + 1) / 2 in
      let zones key := FeatureCollection.aggregate_sum key out in
      (Landslide.low national - zones "Low_Risk_Population" <= bound
       ∧ zones "Low_Risk_Population" - Landslide.low national <= bound)
      ∧ (Landslide.medium national - zones "Medium_Risk_Population" <= bound
         ∧ zones "Medium_Risk_Population" - Landslide.medium national <= bound)
      ∧ (Landslide.high national - zones "High_Risk_Population" <= bound
         ∧ zones "High_Risk_Population" - Landslide.high national <= bound)
      ∧ (Landslide.veryHigh national - zones "Very_High_Risk_Population" <= bound
         ∧ zones "Very_High_Risk_Population" - Landslide.veryHigh national <= bound).
Proof.
  destruct (landslide_records boundaries population riskMap) as (out & Hout & Hall).
  exists out. split; [done|]. cbv zeta.
  destruct (national_totals_region population riskMap
              (concat (Feature.pixels <$> boundaries))) as (N1 & N2 & N3 & N4).
  rewrite N1, N2, N3, N4.
  destruct (aggregate_tier population riskMap boundaries out Hall) as (A1 & A2 & A3 & A4).
  split_and!; by apply national_tier_drift.
Qed.

Lemma reduceToImage_pixel property (collection : FeatureCollection.t) p v :
  FeatureCollection.reduceToImage property collection p = Some v →
  ∃ zone, zone ∈ collection ∧ p ∈ Feature.pixels zone
        ∧ Feature.get zone property = Some (VNum v).
Proof.
  unfold FeatureCollection.reduceToImage. intros H.
  apply head_Some_elem_of, list_elem_of_omap in H as (zone & Hzone & Hv).
  exists zone. split; [done|].
  destruct (bool_decide (p ∈ Feature.pixels zone)) eqn:E; [|done].
  apply bool_decide_eq_true in E. split; [done|].
  unfold Feature.numeric in Hv.
  by destruct (Feature.get zone property) as [[q|]|]; simplify_eq.
Qed.

Lemma reduceToImage_uncovered property (collection : FeatureCollection.t) p :
  (∀ zone, zone ∈ collection → p ∉ Feature.pixels zone) →
  FeatureCollection.reduceToImage property collection p = None.
Proof.
  intros H. destruct (FeatureCollection.reduceToImage property collection p) eqn:E;
    [|done].
  apply reduceToImage_pixel in E as (zone & Hzone & Hp & _). by destruct (H zone Hzone).
Qed.

Lemma positive_mask (rasterized : Image.t Q) p v :
  Image.updateMask rasterized (Image.gt rasterized 0) p = Some v →
  rasterized p = Some v ∧ 0 < v.
Proof.
  unfold Image.updateMask, Image.gt, Image.unary.
  destruct (rasterized p) as [w|]; cbn [fmap option_fmap option_map]; [|done].
  destruct (negb (Qle_bool w 0)) eqn:E; [|done].
  intros [= <-]. split; [done|]. by apply gt_true.
Qed.

(** X17.  A valid pixel of the risk score raster, and of the exposure ratio
    raster of the flood script, holds a positive value, which is the
    [Risk_Score] (the [Exposure_Ratio]) of a zone that covers the pixel; a
    pixel covered by no zone has no data. *)
Theorem score_raster_positive (stats : FeatureCollection.t) p :
  (∀ v, Landslide.createRiskScoreRaster stats p = Some v →
        0 < v ∧ ∃ zone, zone ∈ stats ∧ p ∈ Feature.pixels zone
                      ∧ Feature.get zone "Risk_Score" = Some (VNum v))
  ∧ (∀ v, Flood.createExposureRatioRaster stats p = Some v →
          0 < v ∧ ∃ zone, zone ∈ stats ∧ p ∈ Feature.pixels zone
                        ∧ Feature.get zone "Exposure_Ratio" = Some (VNum v))
  ∧ ((∀ zone, zone ∈ stats → p ∉ Feature.pixels zone) →
     Landslide.createRiskScoreRaster stats p = None
     ∧ Flood.createExposureRatioRaster stats p = None).
Proof.
  unfold Landslide.createRiskScoreRaster, Flood.createExposureRatioRaster. cbv zeta.
  split_and!.
  - intros v Hv. apply positive_mask in Hv as [Hv Hpos].
    split; [done|]. by apply reduceToImage_pixel.
  - intros v Hv. apply positive_mask in Hv as [Hv Hpos].
    split; [done|]. by apply reduceToImage_pixel.
  - intros Huncovered. unfold Image.updateMask.
    by rewrite !(reduceToImage_uncovered _ _ _ Huncovered).
Qed.

End Recomputation.

(** ** The two pipelines from the zones to the provinces *)

Section Pipelines.

Local Open Scope Q_scope.

Lemma Forall2_elem_of_r {A B : Type} (P : A → B → Prop) l k y :
  Forall2 P l k → y ∈ k → ∃ x, x ∈ l ∧ P x y.
Proof.
  induction 1 as [|x y' l k Hxy _ IH]; intros Hy.
  - by apply elem_of_nil in Hy.
  - apply elem_of_cons in Hy as [->|Hy].
    + exists x. split; [apply list_elem_of_here | done].
    + destruct (IH Hy) as (x' & Hx' & HP). exists x'.
      split; [by apply list_elem_of_further | done].
Qed.

Lemma flood_province_ratio (llgStats : FeatureCollection.t) :
  (∀ zone, zone ∈ llgStats →
           0 <= Feature.number zone "Exposed_Population"
           ∧ Feature.number zone "Exposed_Population"
             <= Feature.number zone "LLG_Population") →
  ∃ out, Flood.aggregateToProvinceLevel llgStats = Some out
    ∧ ∀ province, province ∈ out →
        0 <= Feature.number province "Exposure_Ratio"
        ∧ Feature.number province "Exposure_Ratio" <= 1.
Proof.
  intros Hzones.
  destruct (flood_provinces llgStats) as (g & Hout & Hg).
  eexists. split; [exact Hout|].
  intros province Hin.
  apply elem_of_sort, list_elem_of_fmap in Hin as (name & -> & _).
  destruct (Hg name) as (_ & _ & _ & _ & HR & _). rewrite HR.
  destruct (Qsum_le (λ zone, Feature.number zone "Exposed_Population")
              (λ zone, Feature.number zone "LLG_Population")
              (FeatureCollection.filter_eq "ADM1_EN" name llgStats)) as [Hlo Hhi].
  { intros zone Hzone. apply Hzones.
    unfold FeatureCollection.filter_eq in Hzone.
    by apply list_elem_of_filter in Hzone as [_ ?]. }
  unfold FeatureCollection.aggregate_sum, Algorithms.If.
  destruct (Number.gt _ 0) eqn:E; [|lra].
  apply gt_true in E. by apply ratio_bounds.
Qed.

(** X18.  The flood script from the zones to the provinces: when the
    population raster is not negative inside any zone, the zone statistics
    and their aggregation are computed without a division by zero, and the
    exposure ratio of every zone record and of every province lies in
    [0,1]. *)
Theorem flood_pipeline_ratios boundaries (population : Image.t Q) (floodMask : Image.t bool) :
  (∀ feature, feature ∈ boundaries → nonNegative population (Feature.pixels feature)) →
  ∃ llgStats provinces,
    Flood.calculateLLGStatistics boundaries population
      (Flood.calculateExposedPopulation population floodMask) floodMask = Some llgStats
    ∧ Flood.aggregateToProvinceLevel llgStats = Some provinces
    ∧ (∀ zone, zone ∈ llgStats →
               0 <= Feature.number zone "Exposure_Ratio"
               ∧ Feature.number zone "Exposure_Ratio" <= 1)
    ∧ (∀ province, province ∈ provinces →
                   0 <= Feature.number province "Exposure_Ratio"
                   ∧ Feature.number province "Exposure_Ratio" <= 1).
Proof.
  intros Hpos.
  destruct (flood_records boundaries population
              (Flood.calculateExposedPopulation population floodMask) floodMask)
    as (llgStats & Hstats & Hall).
  assert (∀ zone, zone ∈ llgStats →
                  (0 <= Feature.number zone "Exposed_Population"
                   ∧ Feature.number zone "Exposed_Population"
                     <= Feature.number zone "LLG_Population")
                  ∧ 0 <= Feature.number zone "Exposure_Ratio"
                  ∧ Feature.number zone "Exposure_Ratio" <= 1) as Hzones.
  { intros zone Hzone.
    destruct (Forall2_elem_of_r _ _ _ _ Hall Hzone) as (feature & Hfeature & s & Hs & ->).
    destruct (flood_zoneStatistics population
                (Flood.calculateExposedPopulation population floodMask) floodMask
                (Feature.pixels feature)) as (s' & Hs' & HT & HE & Hr & _).
    assert (s' = s) as -> by congruence.
    rewrite (number_set_here _ _ "Exposed_Population" (Flood.exposedPopCount s))
      by reflexivity.
    rewrite (number_set_here _ _ "LLG_Population" (Flood.totalPop s)) by reflexivity.
    rewrite (number_set_here _ _ "Exposure_Ratio" (Flood.exposureRatio s))
      by reflexivity.
    destruct (masked_sum_le population floodMask (Feature.pixels feature)
                (Hpos feature Hfeature)) as [Hlo Hhi].
    pose proof (round_nonneg _ Hlo) as Hn. pose proof (round_mono _ _ Hhi) as Hm.
    unfold Flood.calculateExposedPopulation in HE. rewrite <- HE, <- HT in *.
    split; [done|]. rewrite Hr. unfold Algorithms.If.
    destruct (Number.gt (Flood.totalPop s) 0) eqn:E; [|lra].
    apply gt_true in E. by apply ratio_bounds. }
  destruct (flood_province_ratio llgStats) as (provinces & Hprovinces & Hratio).
  { intros zone Hzone. by apply Hzones. }
  exists llgStats, provinces. split_and!; try done.
  intros zone Hzone. by apply Hzones.
Qed.

(** The flood pipeline on two zones of one cell of 100 people each. *)
Lemma flood_pipeline_ratios_witness :
  ∃ llgStats provinces,
    Flood.calculateLLGStatistics [Sample.zoneA1; Sample.zoneA2] Sample.dense
      (Flood.calculateExposedPopulation Sample.dense
         (Flood.createFloodMask (Image.constant 1)))
      (Flood.createFloodMask (Image.constant 1)) = Some llgStats
    ∧ Flood.aggregateToProvinceLevel llgStats = Some provinces
    ∧ ∀ province, province ∈ provinces → Feature.number province "Exposure_Ratio" <= 1.
Proof.
  destruct (flood_pipeline_ratios [Sample.zoneA1; Sample.zoneA2] Sample.dense
              (Flood.createFloodMask (Image.constant 1)))
    as (llgStats & provinces & Hstats & Hprovinces & _ & Hratio).
  - intros feature _ p v _ [= <-]. by vm_compute.
  - exists llgStats, provinces. split_and!; try done.
    intros province Hin. by apply Hratio.
Defined.

Lemma zone_score_bounds population riskMap geometry :
  nonNegative population geometry →
  ∃ s, Landslide.zoneStatistics population riskMap geometry = Some s
    ∧ 0 <= Landslide.riskScore s ∧ Landslide.riskScore s <= 8
    ∧ (wholeNumbers population geometry → Landslide.riskScore s <= 4).
Proof.
  intros Hpos.
  destruct (zone_record population riskMap geometry Hpos)
    as (s & safePop & Hs & HT & H1 & H2 & H3 & H4 & B1 & B2 & B3 & B4 & Hdrift & Hdouble
        & Hsafe & R1 & R2 & R3 & R4 & Hscore).
  exists s. split; [done|].
  assert (0 < safePop ∧ Landslide.totalPop s <= safePop) as [Hsp Hts]
      by (destruct Hsafe as [[? ->]|[? ->]]; lra).
  assert (0 <= Landslide.lowRiskRatio s ∧ 0 <= Landslide.mediumRiskRatio s
          ∧ 0 <= Landslide.highRiskRatio s ∧ 0 <= Landslide.veryHighRiskRatio s)
    as (P1 & P2 & P3 & P4).
  { rewrite R1, R2, R3, R4. split_and!; apply Qle_shift_div_l; lra. }
  assert (tierRatios s == tierPopulations s / safePop) as Hsum.
  { unfold tierRatios, tierPopulations. rewrite R1, R2, R3, R4. by apply sum_of_ratios. }
  assert (tierRatios s <= 2) as Htwo.
  { rewrite Hsum. apply Qle_shift_div_r; lra. }
  unfold tierRatios in Htwo. rewrite Hscore. split_and!; try lra.
  intros Hwhole.
  destruct (rounded_whole population riskMap geometry Hwhole) as [WT Wt].
  pose proof (Wt 1%Z) as W1. pose proof (Wt 2%Z) as W2.
  pose proof (Wt 3%Z) as W3. pose proof (Wt 4%Z) as W4.
  destruct (tier_sums population riskMap geometry Hpos) as (_ & _ & _ & _ & Hle & _).
  assert (tierRatios s <= 1) as Hone.
  { rewrite Hsum. apply Qle_shift_div_r; [done|].
    unfold tierPopulations. rewrite H1, H2, H3, H4. rewrite HT in Hts. lra. }
  unfold tierRatios in Hone. lra.
Qed.

(** X19.  The landslide script from the zones to the provinces: when the
    population raster is not negative inside any zone, the risk score of
    every zone record and the average risk score of every province lie in
    [0,8], and in [0,4] when every population cell inside the zones is a
    whole number. *)
Theorem landslide_pipeline_scores boundaries (population : Image.t Q)
    (riskMap : Image.t Z) :
  (∀ feature, feature ∈ boundaries → nonNegative population (Feature.pixels feature)) →
  ∃ llgStats provinces,
    Landslide.calculateLLGStatistics boundaries population riskMap = Some llgStats
    ∧ Landslide.aggregateToProvinceLevel llgStats = Some provinces
    ∧ (∀ zone, zone ∈ llgStats →
               0 <= Feature.number zone "Risk_Score"
               ∧ Feature.number zone "Risk_Score" <= 8)
    ∧ (∀ province, province ∈ provinces →
                   0 <= Feature.number province "Average_Risk_Score"
                   ∧ Feature.number province "Average_Risk_Score" <= 8)
    ∧ ((∀ feature, feature ∈ boundaries →
                   wholeNumbers population (Feature.pixels feature)) →
       (∀ zone, zone ∈ llgStats → Feature.number zone "Risk_Score" <= 4)
       ∧ (∀ province, province ∈ provinces →
                      Feature.number province "Average_Risk_Score" <= 4)).
Proof.
  intros Hpos.
  destruct (landslide_records boundaries population riskMap) as (llgStats & Hstats & Hall).
  assert (∀ zone, zone ∈ llgStats →
                  ∃ feature s, feature ∈ boundaries
                    ∧ Feature.number zone "Risk_Score" = Landslide.riskScore s
                    ∧ 0 <= Landslide.riskScore s ∧ Landslide.riskScore s <= 8
                    ∧ (wholeNumbers population (Feature.pixels feature) →
                       Landslide.riskScore s <= 4)) as Hzones.
  { intros zone Hzone.
    destruct (Forall2_elem_of_r _ _ _ _ Hall Hzone) as (feature & Hfeature & s & Hs & ->).
    destruct (zone_score_bounds population riskMap (Feature.pixels feature)
                (Hpos feature Hfeature)) as (s' & Hs' & Hlo & Hhi & Hwhole).
    assert (s' = s) as -> by congruence.
    exists feature, s. split_and!; try done.
    by rewrite (number_set_here _ _ "Risk_Score" (Landslide.riskScore s)) by reflexivity. }
  destruct (landslide_provinces llgStats) as (g & Hout & Hg).
  assert (∀ hi, (∀ zone, zone ∈ llgStats →
                         0 <= Feature.number zone "Risk_Score"
                         ∧ Feature.number zone "Risk_Score" <= hi) →
                ∀ province,
                  province
                  ∈ FeatureCollection.sort "Province"
                      (g <$> distinct (FeatureCollection.aggregate_array "ADM1_EN"
                                         llgStats)) →
                  0 <= Feature.number province "Average_Risk_Score"
                  ∧ Feature.number province "Average_Risk_Score" <= hi) as Haverage.
  { intros hi Hbound province Hin.
    apply elem_of_sort, list_elem_of_fmap in Hin as (name & -> & Hname).
    destruct (Hg name) as (_ & _ & _ & _ & _ & _ & _ & _ & HA).
    pose proof (province_has_member _ _ Hname) as Hmember.
    rewrite HA. unfold Algorithms.If. rewrite (size_positive _ Hmember).
    assert (0 < FeatureCollection.size
                  (FeatureCollection.filter_eq "ADM1_EN" name llgStats)) as Hcount
        by (apply gt_true; by apply size_positive).
    destruct (Qsum_bounds (λ zone, Feature.number zone "Risk_Score")
                (FeatureCollection.filter_eq "ADM1_EN" name llgStats) 0 hi) as [Hlo Hhi].
    { intros zone Hzone. apply Hbound.
      unfold FeatureCollection.filter_eq in Hzone.
      by apply list_elem_of_filter in Hzone as [_ ?]. }
    unfold FeatureCollection.aggregate_sum, FeatureCollection.size in *. split.
    - apply Qle_shift_div_l; [done | lra].
    - apply Qle_shift_div_r; [done | lra]. }
  eexists llgStats, _. split; [done|]. split; [exact Hout|].
  assert (∀ zone, zone ∈ llgStats →
                  0 <= Feature.number zone "Risk_Score"
                  ∧ Feature.number zone "Risk_Score" <= 8) as Height.
  { intros zone Hzone. destruct (Hzones zone Hzone) as (f & s & _ & -> & ? & ? & _).
    by split. }
  split_and!; try done.
  - by apply Haverage.
  - intros Hwhole.
    assert (∀ zone, zone ∈ llgStats →
                    0 <= Feature.number zone "Risk_Score"
                    ∧ Feature.number zone "Risk_Score" <= 4) as Hfour.
    { intros zone Hzone.
      destruct (Hzones zone Hzone) as (f & s & Hf & -> & ? & _ & Hw).
      split; [done|]. by apply Hw, Hwhole. }
    split.
    + intros zone Hzone. by apply Hfour.
    + intros province Hin. by apply (Haverage 4 Hfour).
Qed.

(** The landslide pipeline on two zones of one cell of 100 people each. *)
Lemma landslide_pipeline_scores_witness :
  ∃ llgStats provinces,
    Landslide.calculateLLGStatistics [Sample.zoneA1; Sample.zoneA2] Sample.dense
      Sample.riskByColumn = Some llgStats
    ∧ Landslide.aggregateToProvinceLevel llgStats = Some provinces
    ∧ ∀ province, province ∈ provinces →
                  Feature.number province "Average_Risk_Score" <= 8.
Proof.
  destruct (landslide_pipeline_scores [Sample.zoneA1; Sample.zoneA2] Sample.dense
              Sample.riskByColumn)
    as (llgStats & provinces & Hstats & Hprovinces & _ & Haverage & _).
  - intros feature _ p v _ [= <-]. by vm_compute.
  - exists llgStats, provinces. split_and!; try done.
    intros province Hin. by apply Haverage.
Defined.

End Pipelines.
